(** * ShadowTrace: the shadow-geolocation scoring engine

    A shallow embedding of [src/lib/shadowfinder.ts], of the intersection
    computation of [src/components/ShadowFinderVisualization.tsx] and of the
    analysis workflow of [src/pages/Index.tsx], with the properties the
    specification states about them.

    Numbers.  A JavaScript [number] is modelled as a rational [Q] with exact
    arithmetic; every arithmetic result is kept in lowest terms, so that two
    results are equal as terms exactly when they are equal as numbers.  A
    decimal literal stands for its decimal value.  Rounding, NaN and the
    infinities of IEEE-754 are outside the model (a division by 0 gives 0).
    The theorems therefore stay away from what rounding breaks: none of them
    rests on an algebraic law of exact arithmetic (a cancellation, a
    reordering of a sum, a round trip through a division) to equate two
    values that the source computes in different ways.  A theorem relates a
    result to the formula the source evaluates, to an order or a threshold,
    or speaks of the coordinates of the grid.
    The grid coordinates are multiples of 0.5 of small magnitude, on which
    binary64 arithmetic is exact: [latitudes_binary64] and
    [longitudes_binary64] run the two loops of the scan in binary64 and find
    the values of the model.

    External functions.  [SunCalc.getPosition(..).altitude], [Math.tan],
    [Math.cos], [Math.sqrt] and [Math.PI] are parameters of the development:
    every theorem holds whatever they compute. *)

From Stdlib Require Import ZArith QArith Qminmax Qround Qabs Lqa Lia List Bool.
From Stdlib Require Import Permutation Sorted DecimalString DecimalN Floats.
From stdpp Require Import gmap strings.
Import ListNotations.

Local Open Scope Q_scope.

(** ** JavaScript numbers *)

Module JS.

Definition add (x y : Q) : Q := Qred (x + y).
Definition sub (x y : Q) : Q := Qred (x - y).
Definition mul (x y : Q) : Q := Qred (x * y).
Definition div (x y : Q) : Q := Qred (x / y).

(** [x <= y], [x >= y], [x === y] and [x !== y] on numbers. *)
Definition le (x y : Q) : bool := Qle_bool x y.
Definition ge (x y : Q) : bool := Qle_bool y x.
Definition lt (x y : Q) : bool := negb (Qle_bool y x).
Definition gt (x y : Q) : bool := negb (Qle_bool x y).
Definition eq (x y : Q) : bool := Qeq_bool x y.
Definition neq (x y : Q) : bool := negb (Qeq_bool x y).

End JS.

(** The arithmetic operators of the source are written circled and its
    comparisons with a question mark, to tell them from the exact operations
    and the order of [Q] that the statements use. *)
Infix "⊕" := JS.add (at level 50, left associativity).
Infix "⊖" := JS.sub (at level 50, left associativity).
Infix "⊗" := JS.mul (at level 40, left associativity).
Infix "⊘" := JS.div (at level 40, left associativity).
Infix "<=?" := JS.le (at level 70, no associativity) : Q_scope.
Infix ">=?" := JS.ge (at level 70, no associativity) : Q_scope.
Infix "<?" := JS.lt (at level 70, no associativity) : Q_scope.
Infix ">?" := JS.gt (at level 70, no associativity) : Q_scope.
Infix "===" := JS.eq (at level 70, no associativity).
Infix "!==" := JS.neq (at level 70, no associativity).

(** [Math.abs], and [Math.max] and [Math.min] of two arguments. *)
Definition Math_abs (x : Q) : Q := Qabs x.
Definition Math_max2 (x y : Q) : Q := Qmax x y.
Definition Math_min2 (x y : Q) : Q := Qmin x y.

(** [Math.max(...xs)] and [Math.min(...xs)] of a spread array with first
    element [x] and rest [xs].  (On an empty array the source would get
    -Infinity and Infinity; both uses in the source are guarded by a length
    test, so the spread array is never empty.) *)
Definition Math_max (x : Q) (xs : list Q) : Q := fold_left Math_max2 xs x.
Definition Math_min (x : Q) (xs : list Q) : Q := fold_left Math_min2 xs x.

(** ** Data model *)


(** [interface ShadowFinderPoint]. *)
Record ShadowFinderPoint : Type := mkPoint {
  lat : Q;
  lng : Q;
  likelihood : Q
}.

(** A [Date]: its time value in milliseconds, [None] for an invalid date
    (whose [getTime()] is NaN). *)
Record Date : Type := mkDate { getTime : option Z }.

(** [interface ShadowAnalysisInput]. *)
Record ShadowAnalysisInput : Type := mkInput {
  objectHeight : Q;
  shadowLength : Q;
  knownTime : Date
}.

Record Statistics : Type := mkStatistics {
  totalPoints : nat;
  validPoints : nat;
  nightPoints : nat;
  ultraTightBandPoints : nat;
  tightBandPoints : nat;
  visibleBandPoints : nat
}.

Record MainBandCoordinates : Type := mkMainBand {
  latRange : Q * Q;
  lngRange : Q * Q
}.

(** [interface ShadowAnalysisResult]. *)
Record ShadowAnalysisResult : Type := mkResult {
  points : list ShadowFinderPoint;
  mainBandCoordinates : MainBandCoordinates;
  statistics : Statistics
}.

(** The return type of [estimateBestLocation]. *)
Record BestLocation : Type := mkBestLocation {
  latitude : Q;
  longitude : Q;
  accuracy : Q
}.

(** The exceptions the modelled code throws. *)
Inductive Error : Type :=
| InvalidMeasurements      (* 'Invalid measurements: object height and shadow length must be positive' *)
| InvalidDateTime          (* 'Invalid date/time provided' *)
| NoSuitableMatches        (* 'No suitable location matches found' *)
| RangeErrorInvalidTime    (* Date.prototype.toISOString on an invalid date *)
| MissingReferencePoints   (* 'All three reference points must be marked' *)
| MissingDisplayDimensions (* 'Could not determine image display dimensions' *).

(** The outcome of a call: a value, a thrown exception, or a loop that was
    still running when the fuel of the model ran out. *)
Inductive outcome (A : Type) : Type :=
| Ok (a : A)
| Throw (e : Error)
| OutOfFuel.

Arguments Ok {A} a.
Arguments Throw {A} e.
Arguments OutOfFuel {A}.

Definition bind {A B : Type} (m : outcome A) (k : A -> outcome B) : outcome B :=
  match m with
  | Ok a => k a
  | Throw e => Throw e
  | OutOfFuel => OutOfFuel
  end.

Notation "'let*' x ':=' m 'in' k" := (bind m (fun x => k))
  (at level 10, x name, m at level 100, k at level 200).

(** ** Loops *)

(** [for (let x = x0; x <= hi; x += step) { body }], where the body pushes
    the elements [body x] onto the output array, or does not return.  The
    result is what the whole loop pushes, in order. *)
Fixpoint for_loop {A : Type} (fuel : nat) (x hi step : Q)
    (body : Q -> option (list A)) : option (list A) :=
  match fuel with
  | O => None
  | S fuel' =>
      if (x <=? hi) then
        match body x with
        | Some out => option_map (app out) (for_loop fuel' (x ⊕ step) hi step body)
        | None => None
        end
      else Some []
  end.

(** The fuel given to a loop from [lo] to [hi]: one more than the number of
    values [lo], [lo + step], ... that are at most [hi]. *)
Definition trips (lo hi step : Q) : nat :=
  S (Z.to_nat (Qfloor ((hi - lo) / step) + 1)).

Definition for_range {A : Type} (lo hi step : Q)
    (body : Q -> option (list A)) : option (list A) :=
  for_loop (trips lo hi step) lo hi step body.

(** The values a loop variable takes in its first [n] iterations. *)
Fixpoint steps (x step : Q) (n : nat) : list Q :=
  match n with
  | O => []
  | S n' => x :: steps (x ⊕ step) step n'
  end.

(** The value of the loop variable after [n] iterations. *)
Fixpoint stepEnd (x step : Q) (n : nat) : Q :=
  match n with
  | O => x
  | S n' => stepEnd (x ⊕ step) step n'
  end.

(** The fixed grid, by indices: row [i] is at latitude [-60 + i/2], column
    [j] at longitude [-180 + j/2]; rows come first (row-major order). *)
Definition gridLat (i : nat) : Q := Qred (-60 + inject_Z (Z.of_nat i) * 0.5).
Definition gridLng (j : nat) : Q := Qred (-180 + inject_Z (Z.of_nat j) * 0.5).

Definition gridCoords : list (Q * Q) :=
  flat_map (fun i => map (fun j => (gridLat i, gridLng j)) (seq 0 720)) (seq 0 290).

Definition coords (p : ShadowFinderPoint) : Q * Q := (lat p, lng p).

(** The same loop variable in binary64, the arithmetic of the source, and
    the exact value of a finite binary64 number. *)
Fixpoint steps64 (x step : float) (n : nat) : list float :=
  match n with
  | O => []
  | S n' => x :: steps64 (x + step)%float step n'
  end.

Fixpoint stepEnd64 (x step : float) (n : nat) : float :=
  match n with
  | O => x
  | S n' => stepEnd64 (x + step)%float step n'
  end.

Definition Q_of_float (x : float) : option Q :=
  match Prim2SF x with
  | S754_zero _ => Some 0
  | S754_finite s m e =>
      Some (Qred ((if s then -1 else 1) * inject_Z (Zpos m) * Qpower 2 e))
  | S754_infinity _ | S754_nan => None
  end.

(** ** [src/lib/shadowfinder.ts] *)

Section Engine.

(** [SunCalc.getPosition(date, lat, lng).altitude], in radians. *)
Variable SunCalc_altitude : Date -> Q -> Q -> Q.
Variables Math_tan Math_cos Math_sqrt : Q -> Q.
Variable Math_PI : Q.

(** [date.toISOString()] throws a RangeError on an invalid date; the string
    it returns otherwise is only logged. *)
Definition Date_toISOString (d : Date) : outcome unit :=
  match getTime d with
  | Some _ => Ok tt
  | None => Throw RangeErrorInvalidTime
  end.

(** [isNaN(date.getTime())]. *)
Definition isNaN_getTime (d : Date) : bool :=
  match getTime d with
  | Some _ => false
  | None => true
  end.

Definition angularResolution : Q := 0.5.

(** The body of the inner loop of [generateShadowFinderGrid]: the point
    pushed for one [(lat, lng)]. *)
Definition gridPoint (knownTime : Date) (objectHeight shadowLength : Q)
    (lat lng : Q) : ShadowFinderPoint :=
  let sunAltitudeRad := SunCalc_altitude knownTime lat lng in
  let likelihood :=
    if (sunAltitudeRad <=? 0) then -1
    else
      let calculatedShadowLength := (objectHeight ⊘ Math_tan sunAltitudeRad) in
      let relativeDiff := ((calculatedShadowLength ⊖ shadowLength) ⊘ shadowLength) in
      Math_abs relativeDiff in
  mkPoint lat lng likelihood.

Definition generateShadowFinderGrid (knownTime : Date)
    (objectHeight shadowLength : Q) : outcome (list ShadowFinderPoint) :=
  let* _ := Date_toISOString knownTime in
  match
    for_range (-60) 84.5 angularResolution (fun lat =>
      for_range (-180) 179.5 angularResolution (fun lng =>
        Some [gridPoint knownTime objectHeight shadowLength lat lng]))
  return outcome (list ShadowFinderPoint)
  with
  | Some points => Ok points
  | None => OutOfFuel
  end.

(** The same scoring with every division checked: [None] when a divisor
    is 0 (where the source computes with an infinity or NaN). *)
Definition checkedDiv (x y : Q) : option Q :=
  if y === 0 then None else Some (x ⊘ y).

Definition gridPointChecked (knownTime : Date) (objectHeight shadowLength : Q)
    (lat lng : Q) : option ShadowFinderPoint :=
  let sunAltitudeRad := SunCalc_altitude knownTime lat lng in
  if sunAltitudeRad <=? 0 then Some (mkPoint lat lng (-1))
  else
    match checkedDiv objectHeight (Math_tan sunAltitudeRad) with
    | None => None
    | Some calculatedShadowLength =>
        match checkedDiv (calculatedShadowLength ⊖ shadowLength) shadowLength with
        | None => None
        | Some relativeDiff => Some (mkPoint lat lng (Math_abs relativeDiff))
        end
    end.

(** [p.likelihood >= 0 && p.likelihood <= threshold]. *)
Definition inBand (threshold : Q) (p : ShadowFinderPoint) : bool :=
  (likelihood p >=? 0) && (likelihood p <=? threshold).

(** [ps.length > 0 ? [Math.min(...ps.map(f)), Math.max(...ps.map(f))] : [0, 0]]. *)
Definition rangeOf (f : ShadowFinderPoint -> Q) (ps : list ShadowFinderPoint) : Q * Q :=
  match ps with
  | [] => (0, 0)
  | p :: ps' => (Math_min (f p) (map f ps'), Math_max (f p) (map f ps'))
  end.

Definition analyzeShadowMeasurements (input : ShadowAnalysisInput)
    : outcome ShadowAnalysisResult :=
  if (objectHeight input <=? 0) || (shadowLength input <=? 0) then
    Throw InvalidMeasurements
  else if isNaN_getTime (knownTime input) then
    Throw InvalidDateTime
  else
    let* points :=
      generateShadowFinderGrid (knownTime input) (objectHeight input) (shadowLength input) in
    let nightPoints := length (List.filter (fun p => (likelihood p === -1)) points) in
    let validPoints := length (List.filter (fun p => (likelihood p !== -1)) points) in
    let ultraTightBandPoints := length (List.filter (inBand 0.05) points) in
    let tightBandPoints := length (List.filter (inBand 0.08) points) in
    let visibleBandPoints := length (List.filter (inBand 0.15) points) in
    let mainBandPoints := List.filter (inBand 0.1) points in
    let latRange := rangeOf lat mainBandPoints in
    let lngRange := rangeOf lng mainBandPoints in
    Ok {| points := points;
          mainBandCoordinates := {| latRange := latRange; lngRange := lngRange |};
          statistics := {| totalPoints := length points;
                           validPoints := validPoints;
                           nightPoints := nightPoints;
                           ultraTightBandPoints := ultraTightBandPoints;
                           tightBandPoints := tightBandPoints;
                           visibleBandPoints := visibleBandPoints |} |}.

(** A point of the image, in pixels or in percent. *)
Record Coords : Type := mkCoords { cx : Q; cy : Q }.

Definition calculateMeasurementsFromPixels (objectBottom objectTop shadowTip : Coords)
    : Q * Q :=
  let sq (d : Q) := (d ⊗ d) in
  let objectHeight :=
    Math_sqrt (sq (cx objectTop ⊖ cx objectBottom) ⊕ sq (cy objectTop ⊖ cy objectBottom)) in
  let shadowLength :=
    Math_sqrt (sq (cx shadowTip ⊖ cx objectBottom) ⊕ sq (cy shadowTip ⊖ cy objectBottom)) in
  (objectHeight, shadowLength).

Definition convertPercentageToPixels (percentageCoords : Coords)
    (imageWidth imageHeight : Q) : Coords :=
  {| cx := ((cx percentageCoords ⊘ 100) ⊗ imageWidth);
     cy := ((cy percentageCoords ⊘ 100) ⊗ imageHeight) |}.

(** [ps.sort((a, b) => a.likelihood - b.likelihood)]: the stable sort by
    ascending likelihood, as an insertion sort that keeps the order of points
    with equal likelihood. *)
Fixpoint insertByLikelihood (p : ShadowFinderPoint) (ps : list ShadowFinderPoint)
    : list ShadowFinderPoint :=
  match ps with
  | [] => [p]
  | q :: ps' =>
      if (likelihood p ⊖ likelihood q <=? 0) then p :: q :: ps'
      else q :: insertByLikelihood p ps'
  end.

Definition sortByLikelihood (ps : list ShadowFinderPoint) : list ShadowFinderPoint :=
  fold_right insertByLikelihood [] ps.

(** [ps.reduce((sum, p) => sum + f(p), 0)]. *)
Definition sumOf (f : ShadowFinderPoint -> Q) (ps : list ShadowFinderPoint) : Q :=
  fold_left (fun sum p => (sum ⊕ f p)) ps 0.

(** [ps.length] as a number. *)
Definition lengthOf {A : Type} (ps : list A) : Q := inject_Z (Z.of_nat (length ps)).

Definition estimateBestLocation (result : ShadowAnalysisResult) : outcome BestLocation :=
  let bestPoints := sortByLikelihood (List.filter (inBand 0.1) (points result)) in
  match bestPoints with
  | [] => Throw NoSuitableMatches
  | p :: ps =>
      let avgLat := (sumOf lat bestPoints ⊘ lengthOf bestPoints) in
      let avgLng := (sumOf lng bestPoints ⊘ lengthOf bestPoints) in
      let latSpread := (Math_max (lat p) (map lat ps) ⊖ Math_min (lat p) (map lat ps)) in
      let lngSpread := (Math_max (lng p) (map lng ps) ⊖ Math_min (lng p) (map lng ps)) in
      let accuracy :=
        (Math_max2 (latSpread ⊗ 111)
                   (lngSpread ⊗ 111 ⊗ Math_cos (avgLat ⊗ Math_PI ⊘ 180)) ⊘ 2) in
      Ok {| latitude := avgLat; longitude := avgLng; accuracy := Math_max2 accuracy 1 |}
  end.

(** ** [src/components/ShadowFinderVisualization.tsx] *)

(** [x.toFixed(1)]: the sign, then the integer [n] nearest to [10 |x|] (the
    larger one on a tie) in decimal digits, padded to two digits, with a
    point before the last digit.  (From 10^21 on the source switches to
    exponent notation, which is outside the model; coordinates are three
    digits at most.) *)
Definition toFixed1 (x : Q) : string :=
  let s := if (x <? 0) then "-" else "" in
  let x := Math_abs x in
  let n := Z.to_N (Qfloor (x * 10 + 1 / 2)) in
  let m := NilZero.string_of_uint (N.to_uint n) in
  let m := if (String.length m <=? 1)%nat then "0" +:+ m else m in
  let k := String.length m in
  let a := String.substring 0 (k - 1) m in
  let b := String.substring (k - 1) 1 m in
  s +:+ a +:+ "." +:+ b.

(** The lookup key [`${point.lat.toFixed(1)},${point.lng.toFixed(1)}`]. *)
Definition coordKey (point : ShadowFinderPoint) : string :=
  toFixed1 (lat point) +:+ "," +:+ toFixed1 (lng point).

(** [d.likelihood !== -1 && d.likelihood <= 0.15]. *)
Definition isVisible (d : ShadowFinderPoint) : bool :=
  (likelihood d !== -1) && (likelihood d <=? 0.15).

(** [{...secondPoint, combinedLikelihood, isIntersection: true}]. *)
Record IntersectionPoint : Type := mkIntersection {
  secondPoint : ShadowFinderPoint;
  combinedLikelihood : Q;
  isIntersection : bool
}.

(** [firstPointsMap]: a [Map] filled by [set] in the order of the visible
    points of the first scan. *)
Definition firstPointsMap (firstVisiblePoints : list ShadowFinderPoint)
    : gmap string ShadowFinderPoint :=
  fold_left (fun m point => <[coordKey point := point]> m) firstVisiblePoints ∅.

Definition intersectionPoints (analysisData secondAnalysisData : ShadowAnalysisResult)
    : list IntersectionPoint :=
  let firstVisiblePoints := List.filter isVisible (points analysisData) in
  let secondVisiblePoints := List.filter isVisible (points secondAnalysisData) in
  let firstMap := firstPointsMap firstVisiblePoints in
  flat_map (fun secondPoint =>
    match firstMap !! coordKey secondPoint with
    | Some firstPoint =>
        [ {| secondPoint := secondPoint;
             combinedLikelihood :=
               Math_max2 (likelihood firstPoint) (likelihood secondPoint);
             isIntersection := true |} ]
    | None => []
    end) secondVisiblePoints.

(** ** [src/pages/Index.tsx] *)

Inductive PointType : Type := ObjectBottom | ObjectTop | ShadowTip.

Definition PointType_eqb (a b : PointType) : bool :=
  match a, b with
  | ObjectBottom, ObjectBottom | ObjectTop, ObjectTop | ShadowTip, ShadowTip => true
  | _, _ => false
  end.

(** [interface ClickPoint] (without its label). *)
Record ClickPoint : Type := mkClickPoint {
  px : Q;
  py : Q;
  ptype : PointType;
  imageDisplayWidth : option Q;
  imageDisplayHeight : option Q
}.

Inductive AnalysisMode : Type := FirstPhoto | SecondPhoto.

(** The state of the page that the analysis reads and writes. *)
Record IndexState : Type := mkIndexState {
  analysisMode : AnalysisMode;
  firstPoints : list ClickPoint;
  firstAnalysisResult : option BestLocation;
  firstShadowAnalysisData : option ShadowAnalysisResult;
  firstAnalysisDate : option Date;
  firstAnalysisMeasurements : option (Q * Q);
  secondPoints : list ClickPoint;
  secondAnalysisResult : option BestLocation;
  secondShadowAnalysisData : option ShadowAnalysisResult;
  secondAnalysisDate : option Date;
  secondAnalysisMeasurements : option (Q * Q);
  isAnalyzing : bool
}.

Definition getCurrentPoints (st : IndexState) : list ClickPoint :=
  match analysisMode st with
  | FirstPhoto => firstPoints st
  | SecondPhoto => secondPoints st
  end.

Definition getCurrentShadowAnalysisData (st : IndexState) : option ShadowAnalysisResult :=
  match analysisMode st with
  | FirstPhoto => firstShadowAnalysisData st
  | SecondPhoto => secondShadowAnalysisData st
  end.

(** [a || b] on optional numbers: [a] when it is truthy (present and not 0). *)
Definition orElse (a b : option Q) : option Q :=
  match a with
  | Some w => if (w === 0) then b else a
  | None => b
  end.

(** The number held by a truthy value. *)
Definition truthy (a : option Q) : option Q := orElse a None.

Definition coordsOf (p : ClickPoint) : Coords := {| cx := px p; cy := py p |}.

(** [setFirstPoints] or [setSecondPoints], and
    [setFirstAnalysisMeasurements] or [setSecondAnalysisMeasurements], by
    the current mode. *)
Definition setPoints (newPoints : list ClickPoint) (st : IndexState) : IndexState :=
  match analysisMode st with
  | FirstPhoto =>
      {| analysisMode := analysisMode st;
         firstPoints := newPoints;
         firstAnalysisResult := firstAnalysisResult st;
         firstShadowAnalysisData := firstShadowAnalysisData st;
         firstAnalysisDate := firstAnalysisDate st;
         firstAnalysisMeasurements := firstAnalysisMeasurements st;
         secondPoints := secondPoints st;
         secondAnalysisResult := secondAnalysisResult st;
         secondShadowAnalysisData := secondShadowAnalysisData st;
         secondAnalysisDate := secondAnalysisDate st;
         secondAnalysisMeasurements := secondAnalysisMeasurements st;
         isAnalyzing := isAnalyzing st |}
  | SecondPhoto =>
      {| analysisMode := analysisMode st;
         firstPoints := firstPoints st;
         firstAnalysisResult := firstAnalysisResult st;
         firstShadowAnalysisData := firstShadowAnalysisData st;
         firstAnalysisDate := firstAnalysisDate st;
         firstAnalysisMeasurements := firstAnalysisMeasurements st;
         secondPoints := newPoints;
         secondAnalysisResult := secondAnalysisResult st;
         secondShadowAnalysisData := secondShadowAnalysisData st;
         secondAnalysisDate := secondAnalysisDate st;
         secondAnalysisMeasurements := secondAnalysisMeasurements st;
         isAnalyzing := isAnalyzing st |}
  end.

Definition setMeasurements (measurements : option (Q * Q)) (st : IndexState) : IndexState :=
  match analysisMode st with
  | FirstPhoto =>
      {| analysisMode := analysisMode st;
         firstPoints := firstPoints st;
         firstAnalysisResult := firstAnalysisResult st;
         firstShadowAnalysisData := firstShadowAnalysisData st;
         firstAnalysisDate := firstAnalysisDate st;
         firstAnalysisMeasurements := measurements;
         secondPoints := secondPoints st;
         secondAnalysisResult := secondAnalysisResult st;
         secondShadowAnalysisData := secondShadowAnalysisData st;
         secondAnalysisDate := secondAnalysisDate st;
         secondAnalysisMeasurements := secondAnalysisMeasurements st;
         isAnalyzing := isAnalyzing st |}
  | SecondPhoto =>
      {| analysisMode := analysisMode st;
         firstPoints := firstPoints st;
         firstAnalysisResult := firstAnalysisResult st;
         firstShadowAnalysisData := firstShadowAnalysisData st;
         firstAnalysisDate := firstAnalysisDate st;
         firstAnalysisMeasurements := firstAnalysisMeasurements st;
         secondPoints := secondPoints st;
         secondAnalysisResult := secondAnalysisResult st;
         secondShadowAnalysisData := secondShadowAnalysisData st;
         secondAnalysisDate := secondAnalysisDate st;
         secondAnalysisMeasurements := measurements;
         isAnalyzing := isAnalyzing st |}
  end.

(** [handlePointsChange(newPoints)]: the measurements are computed as soon as
    the three points are marked, and cleared when they are not. *)
Definition handlePointsChange (newPoints : list ClickPoint) (st : IndexState) : IndexState :=
  let st := setPoints newPoints st in
  if (length newPoints =? 3)%nat then
    let objectBottom := List.find (fun p => PointType_eqb (ptype p) ObjectBottom) newPoints in
    let objectTop := List.find (fun p => PointType_eqb (ptype p) ObjectTop) newPoints in
    let shadowTip := List.find (fun p => PointType_eqb (ptype p) ShadowTip) newPoints in
    match objectBottom, objectTop, shadowTip with
    | Some objectBottom, Some objectTop, Some shadowTip =>
        match truthy (imageDisplayWidth objectBottom),
              truthy (imageDisplayHeight objectBottom) with
        | Some width, Some height =>
            let measurements :=
              calculateMeasurementsFromPixels
                (convertPercentageToPixels (coordsOf objectBottom) width height)
                (convertPercentageToPixels (coordsOf objectTop) width height)
                (convertPercentageToPixels (coordsOf shadowTip) width height) in
            setMeasurements (Some measurements) st
        | _, _ => st
        end
    | _, _, _ => st
    end
  else setMeasurements None st.

(** The three state updates [performShadowAnalysis] makes once the scan has
    returned. *)
Definition storeAnalysis (st : IndexState) (analysisResult : ShadowAnalysisResult)
    (date : Date) (measurements : Q * Q) : IndexState :=
  match analysisMode st with
  | FirstPhoto =>
      {| analysisMode := analysisMode st;
         firstPoints := firstPoints st;
         firstAnalysisResult := firstAnalysisResult st;
         firstShadowAnalysisData := Some analysisResult;
         firstAnalysisDate := Some date;
         firstAnalysisMeasurements := Some measurements;
         secondPoints := secondPoints st;
         secondAnalysisResult := secondAnalysisResult st;
         secondShadowAnalysisData := secondShadowAnalysisData st;
         secondAnalysisDate := secondAnalysisDate st;
         secondAnalysisMeasurements := secondAnalysisMeasurements st;
         isAnalyzing := isAnalyzing st |}
  | SecondPhoto =>
      {| analysisMode := analysisMode st;
         firstPoints := firstPoints st;
         firstAnalysisResult := firstAnalysisResult st;
         firstShadowAnalysisData := firstShadowAnalysisData st;
         firstAnalysisDate := firstAnalysisDate st;
         firstAnalysisMeasurements := firstAnalysisMeasurements st;
         secondPoints := secondPoints st;
         secondAnalysisResult := secondAnalysisResult st;
         secondShadowAnalysisData := Some analysisResult;
         secondAnalysisDate := Some date;
         secondAnalysisMeasurements := Some measurements;
         isAnalyzing := isAnalyzing st |}
  end.

(** [performShadowAnalysis(date, time)]: the state it leaves and what it
    returns or throws. *)
Definition performShadowAnalysis (st : IndexState) (date : Date)
    : IndexState * outcome BestLocation :=
  let currentPoints := getCurrentPoints st in
  let objectBottom := List.find (fun p => PointType_eqb (ptype p) ObjectBottom) currentPoints in
  let objectTop := List.find (fun p => PointType_eqb (ptype p) ObjectTop) currentPoints in
  let shadowTip := List.find (fun p => PointType_eqb (ptype p) ShadowTip) currentPoints in
  match objectBottom, objectTop, shadowTip with
  | Some objectBottom, Some objectTop, Some shadowTip =>
      let imageDisplayWidth :=
        orElse (orElse (imageDisplayWidth objectBottom) (imageDisplayWidth shadowTip))
               (imageDisplayWidth objectTop) in
      let imageDisplayHeight :=
        orElse (orElse (imageDisplayHeight objectBottom) (imageDisplayHeight shadowTip))
               (imageDisplayHeight objectTop) in
      match truthy imageDisplayWidth, truthy imageDisplayHeight with
      | Some imageDisplayWidth, Some imageDisplayHeight =>
          let objectBottomPixels :=
            convertPercentageToPixels (coordsOf objectBottom) imageDisplayWidth imageDisplayHeight in
          let objectTopPixels :=
            convertPercentageToPixels (coordsOf objectTop) imageDisplayWidth imageDisplayHeight in
          let shadowTipPixels :=
            convertPercentageToPixels (coordsOf shadowTip) imageDisplayWidth imageDisplayHeight in
          let measurements :=
            calculateMeasurementsFromPixels objectBottomPixels objectTopPixels shadowTipPixels in
          match
            analyzeShadowMeasurements
              {| objectHeight := fst measurements;
                 shadowLength := snd measurements;
                 knownTime := date |}
          with
          | Ok analysisResult =>
              let st' := storeAnalysis st analysisResult date measurements in
              (st', estimateBestLocation analysisResult)
          | Throw e => (st, Throw e)
          | OutOfFuel => (st, OutOfFuel)
          end
      | _, _ => (st, Throw MissingDisplayDimensions)
      end
  | _, _, _ => (st, Throw MissingReferencePoints)
  end.

Definition setIsAnalyzing (b : bool) (st : IndexState) : IndexState :=
  {| analysisMode := analysisMode st;
     firstPoints := firstPoints st;
     firstAnalysisResult := firstAnalysisResult st;
     firstShadowAnalysisData := firstShadowAnalysisData st;
     firstAnalysisDate := firstAnalysisDate st;
     firstAnalysisMeasurements := firstAnalysisMeasurements st;
     secondPoints := secondPoints st;
     secondAnalysisResult := secondAnalysisResult st;
     secondShadowAnalysisData := secondShadowAnalysisData st;
     secondAnalysisDate := secondAnalysisDate st;
     secondAnalysisMeasurements := secondAnalysisMeasurements st;
     isAnalyzing := b |}.

(** [setFirstAnalysisResult(result)] or [setSecondAnalysisResult(result)],
    by the current mode. *)
Definition storeResult (result : BestLocation) (st : IndexState) : IndexState :=
  match analysisMode st with
  | FirstPhoto =>
      {| analysisMode := analysisMode st;
         firstPoints := firstPoints st;
         firstAnalysisResult := Some result;
         firstShadowAnalysisData := firstShadowAnalysisData st;
         firstAnalysisDate := firstAnalysisDate st;
         firstAnalysisMeasurements := firstAnalysisMeasurements st;
         secondPoints := secondPoints st;
         secondAnalysisResult := secondAnalysisResult st;
         secondShadowAnalysisData := secondShadowAnalysisData st;
         secondAnalysisDate := secondAnalysisDate st;
         secondAnalysisMeasurements := secondAnalysisMeasurements st;
         isAnalyzing := isAnalyzing st |}
  | SecondPhoto =>
      {| analysisMode := analysisMode st;
         firstPoints := firstPoints st;
         firstAnalysisResult := firstAnalysisResult st;
         firstShadowAnalysisData := firstShadowAnalysisData st;
         firstAnalysisDate := firstAnalysisDate st;
         firstAnalysisMeasurements := firstAnalysisMeasurements st;
         secondPoints := secondPoints st;
         secondAnalysisResult := Some result;
         secondShadowAnalysisData := secondShadowAnalysisData st;
         secondAnalysisDate := secondAnalysisDate st;
         secondAnalysisMeasurements := secondAnalysisMeasurements st;
         isAnalyzing := isAnalyzing st |}
  end.

(** [handleAnalyze(date, time)]: the state once the handler has finished
    ([None] when the analysis does not return).  A thrown exception is
    caught and logged; the state updates made before it stay. *)
Definition handleAnalyze (st : IndexState) (date : Date) : option IndexState :=
  let st := setIsAnalyzing true st in
  match performShadowAnalysis st date with
  | (st', Ok result) => Some (setIsAnalyzing false (storeResult result st'))
  | (st', Throw _) => Some (setIsAnalyzing false st')
  | (_, OutOfFuel) => None
  end.

(** [handleStartSecondPhoto]. *)
Definition handleStartSecondPhoto (st : IndexState) : IndexState :=
  {| analysisMode := SecondPhoto;
     firstPoints := firstPoints st;
     firstAnalysisResult := firstAnalysisResult st;
     firstShadowAnalysisData := firstShadowAnalysisData st;
     firstAnalysisDate := firstAnalysisDate st;
     firstAnalysisMeasurements := firstAnalysisMeasurements st;
     secondPoints := secondPoints st;
     secondAnalysisResult := secondAnalysisResult st;
     secondShadowAnalysisData := secondShadowAnalysisData st;
     secondAnalysisDate := secondAnalysisDate st;
     secondAnalysisMeasurements := secondAnalysisMeasurements st;
     isAnalyzing := isAnalyzing st |}.

(** What the page draws from the scans once the world map has loaded:
    nothing before the current photo is analysed, one scan in single mode,
    and in intersection mode (both scans present) the two scans with the
    intersection points the visualization computes from them. *)
Inductive Rendering : Type :=
| NoVisualization
| SingleMode (analysisData : ShadowAnalysisResult)
| IntersectionMode (analysisData secondAnalysisData : ShadowAnalysisResult)
    (intersection : list IntersectionPoint).

Definition render (st : IndexState) : Rendering :=
  match getCurrentShadowAnalysisData st with
  | None => NoVisualization
  | Some current =>
      match firstShadowAnalysisData st, secondShadowAnalysisData st with
      | Some first, Some second =>
          match secondAnalysisDate st, secondAnalysisMeasurements st with
          | Some _, Some _ =>
              IntersectionMode first second (intersectionPoints first second)
          | _, _ => NoVisualization
          end
      | _, _ => SingleMode current
      end
  end.

(** ** Styling of the drawn cells ([ShadowFinderVisualization.tsx]) *)

(** The chain [if (likelihood <= 0.02) .. else if (likelihood <= 0.05) ..
    else if (likelihood <= 0.08) .. else if (likelihood <= 0.12) .. else ..]
    of every fill and opacity callback. *)
Definition byBand {A : Type} (likelihood : Q) (v1 v2 v3 v4 v5 : A) : A :=
  if likelihood <=? 0.02 then v1
  else if likelihood <=? 0.05 then v2
  else if likelihood <=? 0.08 then v3
  else if likelihood <=? 0.12 then v4
  else v5.

(** Single mode ([rect.first-analysis]). *)
Definition singleFill (likelihood : Q) : string :=
  byBand likelihood "#FFFF33"%string "#FFD700"%string "#FF9500"%string
         "#FF7F00"%string "#FF6500"%string.
Definition singleOpacity (likelihood : Q) : Q :=
  byBand likelihood 0.85 0.75 0.65 0.55 0.45.

(** Intersection mode: the first scan, the second scan and the
    intersection points (by [combinedLikelihood]). *)
Definition firstFill (likelihood : Q) : string :=
  byBand likelihood "#FFFF44"%string "#FFD700"%string "#FF9500"%string
         "#FF7F00"%string "#FF6500"%string.
Definition firstOpacity (likelihood : Q) : Q :=
  byBand likelihood 0.6 0.5 0.4 0.35 0.3.
Definition secondFill (likelihood : Q) : string :=
  byBand likelihood "#00FFFF"%string "#00E5FF"%string "#1E90FF"%string
         "#4682B4"%string "#4169E1"%string.
Definition secondOpacity (likelihood : Q) : Q :=
  byBand likelihood 0.6 0.5 0.4 0.35 0.3.
Definition intersectionFill (likelihood : Q) : string :=
  byBand likelihood "#FFFFFF"%string "#00FF00"%string "#32CD32"%string
         "#90EE90"%string "#98FB98"%string.
Definition intersectionOpacity (likelihood : Q) : Q :=
  byBand likelihood 0.9 0.8 0.7 0.6 0.5.

(** [likelihood > 2.0 ? 'none' : 'block'], the [display] style of every
    drawn cell. *)
Definition displayOf (likelihood : Q) : string :=
  if likelihood >? 2.0 then "none"%string else "block"%string.

(** ** The image with its markers ([InteractiveImage]) *)

(** The types of [POINT_CONFIGS], in the order in which they are asked. *)
Definition POINT_CONFIGS : list PointType := [ObjectBottom; ObjectTop; ShadowTip].

(** The state of the component. *)
Record ImageState : Type := mkImageState {
  markedPoints : list ClickPoint;
  currentStep : nat
}.

(** A click: its position and the bounding rectangle of the image. *)
Record ClickEvent : Type := mkClickEvent {
  clientX : Q;
  clientY : Q;
  rectLeft : Q;
  rectTop : Q;
  rectWidth : Q;
  rectHeight : Q
}.

(** The point a click marks, of the type [ty]. *)
Definition clickedPoint (e : ClickEvent) (ty : PointType) : ClickPoint :=
  {| px := ((clientX e ⊖ rectLeft e) ⊘ rectWidth e) ⊗ 100;
     py := ((clientY e ⊖ rectTop e) ⊘ rectHeight e) ⊗ 100;
     ptype := ty;
     imageDisplayWidth := Some (rectWidth e);
     imageDisplayHeight := Some (rectHeight e) |}.

(** [handleImageClick(e)]: the new state of the component and the argument
    of its call to [onPointsChange], if it makes one. *)
Definition handleImageClick (e : ClickEvent) (s : ImageState)
    : ImageState * option (list ClickPoint) :=
  match nth_error POINT_CONFIGS (currentStep s) with
  | None => (s, None)
  | Some ty =>
      let newPoints := markedPoints s ++ [clickedPoint e ty] in
      ({| markedPoints := newPoints; currentStep := currentStep s + 1 |}, Some newPoints)
  end.

(** [handleReset()]. *)
Definition handleReset (s : ImageState) : ImageState * option (list ClickPoint) :=
  ({| markedPoints := []; currentStep := 0 |}, Some []).

(** ** More of [src/pages/Index.tsx] *)

Definition getCurrentMeasurements (st : IndexState) : option (Q * Q) :=
  match analysisMode st with
  | FirstPhoto => firstAnalysisMeasurements st
  | SecondPhoto => secondAnalysisMeasurements st
  end.

(** The part of [handleImageUpload(file)] that is on the modelled state:
    everything about the current photo is cleared. *)
Definition handleImageUpload (st : IndexState) : IndexState :=
  match analysisMode st with
  | FirstPhoto =>
      {| analysisMode := analysisMode st;
         firstPoints := [];
         firstAnalysisResult := None;
         firstShadowAnalysisData := None;
         firstAnalysisDate := None;
         firstAnalysisMeasurements := None;
         secondPoints := secondPoints st;
         secondAnalysisResult := secondAnalysisResult st;
         secondShadowAnalysisData := secondShadowAnalysisData st;
         secondAnalysisDate := secondAnalysisDate st;
         secondAnalysisMeasurements := secondAnalysisMeasurements st;
         isAnalyzing := isAnalyzing st |}
  | SecondPhoto =>
      {| analysisMode := analysisMode st;
         firstPoints := firstPoints st;
         firstAnalysisResult := firstAnalysisResult st;
         firstShadowAnalysisData := firstShadowAnalysisData st;
         firstAnalysisDate := firstAnalysisDate st;
         firstAnalysisMeasurements := firstAnalysisMeasurements st;
         secondPoints := [];
         secondAnalysisResult := None;
         secondShadowAnalysisData := None;
         secondAnalysisDate := None;
         secondAnalysisMeasurements := None;
         isAnalyzing := isAnalyzing st |}
  end.

(** [handleStartOver()], on the modelled state. *)
Definition handleStartOver (st : IndexState) : IndexState :=
  {| analysisMode := FirstPhoto;
     firstPoints := [];
     firstAnalysisResult := None;
     firstShadowAnalysisData := None;
     firstAnalysisDate := None;
     firstAnalysisMeasurements := None;
     secondPoints := [];
     secondAnalysisResult := None;
     secondShadowAnalysisData := None;
     secondAnalysisDate := None;
     secondAnalysisMeasurements := None;
     isAnalyzing := isAnalyzing st |}.

(** A click on the image of the current photo: the component calls
    [onPointsChange], which is [handlePointsChange]. *)
Definition clickOnImage (e : ClickEvent) (image : ImageState) (st : IndexState)
    : ImageState * IndexState :=
  match handleImageClick e image with
  | (image', Some newPoints) => (image', handlePointsChange newPoints st)
  | (image', None) => (image', st)
  end.

(** ** The analysis panel ([src/components/AnalysisPanel.tsx]) *)

(** [new Date(dateString)] on a string. *)
Variable Date_parse : string -> Date.

(** [selectedDate] is truthy: it is not the empty string. *)
Definition nonEmpty (s : string) : bool :=
  match s with
  | EmptyString => false
  | String _ _ => true
  end.

(** [isReady]: [points.length === 3 && selectedDate]. *)
Definition isReady (points : list ClickPoint) (selectedDate : string) : bool :=
  (length points =? 3)%nat && nonEmpty selectedDate.

(** The [handleAnalyze] of the panel, with [onAnalyze] the [handleAnalyze]
    of the page: nothing without a date; the date is parsed as UTC and
    logged with [toISOString()], which throws on an invalid date, before
    the page is called. *)
Definition AnalysisPanel_handleAnalyze (selectedDate selectedTime : string)
    (st : IndexState) : outcome IndexState :=
  if nonEmpty selectedDate then
    let dateString := selectedDate +:+ "T" +:+ selectedTime +:+ "Z" in
    let date := Date_parse dateString in
    let* _ := Date_toISOString date in
    match handleAnalyze st date return outcome IndexState with
    | Some st' => Ok st'
    | None => OutOfFuel
    end
  else Ok st.

(** A click on the button of the panel, which is disabled when
    [!isReady || isAnalyzing]. *)
Definition AnalysisPanel_click (selectedDate selectedTime : string)
    (st : IndexState) : outcome IndexState :=
  if negb (isReady (getCurrentPoints st) selectedDate) || isAnalyzing st then Ok st
  else AnalysisPanel_handleAnalyze selectedDate selectedTime st.

(** ** The page as a state machine *)

(** The [onImageReplace] callback the page gives to the image: on the
    modelled state it clears what [handleImageUpload] clears. *)
Definition onImageReplace (st : IndexState) : IndexState := handleImageUpload st.

(** What the user can do.  The buttons are not modelled: every event is
    possible in every state. *)
Inductive Event : Type :=
| ImageUpload
| ImageReplace
| PointsChange (newPoints : list ClickPoint)
| Analyze (date : Date)
| StartSecondPhoto
| StartOver.

Definition step (st : IndexState) (ev : Event) : option IndexState :=
  match ev with
  | ImageUpload => Some (handleImageUpload st)
  | ImageReplace => Some (onImageReplace st)
  | PointsChange newPoints => Some (handlePointsChange newPoints st)
  | Analyze date => handleAnalyze st date
  | StartSecondPhoto => Some (handleStartSecondPhoto st)
  | StartOver => Some (handleStartOver st)
  end.

Fixpoint run (st : IndexState) (events : list Event) : option IndexState :=
  match events with
  | [] => Some st
  | ev :: events' =>
      match step st ev with
      | Some st' => run st' events'
      | None => None
      end
  end.

(** * Properties *)

(** ** Some values *)

Example toFixed1_values :
  map toFixed1 [-60; 84.5; 0; -0.5; 179.5; 0.25; -0.04; 12.34]
  = ["-60.0"; "84.5"; "0.0"; "-0.5"; "179.5"; "0.3"; "-0.0"; "12.3"]%string.
Proof. vm_compute. reflexivity. Qed.

Example coordKey_value :
  coordKey {| lat := -59.5; lng := 179.5; likelihood := 0 |} = "-59.5,179.5"%string.
Proof. vm_compute. reflexivity. Qed.

(** The sort is stable: points of equal likelihood keep their order. *)
Example sortByLikelihood_value :
  map lat (sortByLikelihood [ {| lat := 1; lng := 0; likelihood := 0.05 |};
                              {| lat := 2; lng := 0; likelihood := 0.02 |};
                              {| lat := 3; lng := 0; likelihood := 0.05 |};
                              {| lat := 4; lng := 0; likelihood := 0 |} ])
  = [4; 2; 1; 3].
Proof. vm_compute. reflexivity. Qed.

Example for_range_values :
  for_range 0 1 0.25 (fun x => Some [x]) = Some [0; 1 # 4; 1 # 2; 3 # 4; 1]
  /\ for_range 5 0 1 (fun x => Some [x]) = Some [].
Proof. vm_compute. split; reflexivity. Qed.

(** ** Numbers and comparisons *)

Lemma le_true (x y : Q) : (x <=? y) = true <-> x <= y.
Proof. apply Qle_bool_iff. Qed.

Lemma le_false (x y : Q) : (x <=? y) = false <-> y < x.
Proof.
  unfold JS.le. split; intros H.
  - apply Qnot_le_lt. intros Hle. apply Qle_bool_iff in Hle. congruence.
  - destruct (Qle_bool x y) eqn:E; [|reflexivity].
    apply Qle_bool_iff in E. lra.
Qed.

Lemma ge_true (x y : Q) : (x >=? y) = true <-> y <= x.
Proof. apply Qle_bool_iff. Qed.

Lemma eq_true (x y : Q) : (x === y) = true <-> x == y.
Proof. apply Qeq_bool_iff. Qed.

Lemma neq_true (x y : Q) : (x !== y) = true <-> ~ x == y.
Proof.
  unfold JS.neq. rewrite negb_true_iff. split; intros H.
  - apply Qeq_bool_neq. exact H.
  - destruct (Qeq_bool x y) eqn:E; [|reflexivity].
    apply Qeq_bool_iff in E. contradiction.
Qed.

Lemma add_eq (x y : Q) : (x ⊕ y) == x + y.
Proof. apply Qred_correct. Qed.

Lemma sub_eq (x y : Q) : (x ⊖ y) == x - y.
Proof. apply Qred_correct. Qed.

Lemma mul_eq (x y : Q) : (x ⊗ y) == x * y.
Proof. apply Qred_correct. Qed.

Lemma div_eq (x y : Q) : (x ⊘ y) == x / y.
Proof. apply Qred_correct. Qed.

(** ** The grid loops *)

Lemma flat_map_single {A B : Type} (f : A -> B) (l : list A) :
  flat_map (fun a => [f a]) l = map f l.
Proof. induction l as [|a l IH]; simpl; [reflexivity | now rewrite IH]. Qed.

(** A loop whose variable stays within the bound for exactly [n] iterations
    pushes the output of its body on these [n] values, provided it has fuel
    for [n] iterations and the final test. *)
Lemma for_loop_steps {A : Type} (body : Q -> option (list A)) (g : Q -> list A)
    (hi step : Q) (n : nat) :
  forall (fuel : nat) (x : Q),
    (n < fuel)%nat ->
    forallb (fun v => (v <=? hi)) (steps x step n) = true ->
    (stepEnd x step n <=? hi) = false ->
    (forall v, In v (steps x step n) -> body v = Some (g v)) ->
    for_loop fuel x hi step body = Some (flat_map g (steps x step n)).
Proof.
  induction n as [|n IH]; intros fuel x Hfuel Hin Hout Hbody.
  - destruct fuel as [|fuel]; [lia|]. simpl in *. now rewrite Hout.
  - destruct fuel as [|fuel]; [lia|]. simpl in *.
    apply andb_true_iff in Hin as [Hx Hin]. rewrite Hx.
    rewrite (Hbody x) by now left.
    rewrite (IH fuel (x ⊕ step)); [reflexivity | lia | assumption | assumption |].
    intros v Hv. apply Hbody. now right.
Qed.

(** A loop with a positive step and a body that returns does return: the
    fuel [for_range] gives it is never used up. *)
Lemma for_loop_returns {A : Type} (body : Q -> option (list A)) (hi step : Q) :
  0 < step -> (forall x, body x <> None) ->
  forall (fuel : nat) (x : Q),
    (Z.max 0 (Qfloor ((hi - x) / step) + 1) < Z.of_nat fuel)%Z ->
    for_loop fuel x hi step body <> None.
Proof.
  intros Hstep Hbody. induction fuel as [|fuel IH]; intros x Hfuel; [lia|].
  cbn [for_loop]. destruct (x <=? hi) eqn:E; [|discriminate].
  apply le_true in E.
  destruct (body x) as [out|] eqn:Eb; [|now destruct (Hbody x)].
  assert (H0 : (0 <= Qfloor ((hi - x) / step))%Z).
  { change 0%Z with (Qfloor 0). apply Qfloor_resp_le.
    apply Qle_shift_div_l; [exact Hstep | lra]. }
  assert (Hlt : (Qfloor ((hi - (x ⊕ step)) / step) < Qfloor ((hi - x) / step))%Z).
  { rewrite Zlt_Qlt.
    apply Qle_lt_trans with ((hi - (x ⊕ step)) / step); [apply Qfloor_le|].
    apply Qlt_le_trans with (inject_Z (Qfloor ((hi - x) / step) + 1) - 1).
    - assert (Hf := Qlt_floor ((hi - x) / step)).
      rewrite add_eq.
      setoid_replace ((hi - (x + step)) / step) with ((hi - x) / step - 1)
        using relation Qeq by (field; lra).
      lra.
    - rewrite inject_Z_plus. change (inject_Z 1) with 1. lra. }
  assert (Hnext : for_loop fuel (x ⊕ step) hi step body <> None) by (apply IH; lia).
  destruct (for_loop fuel (x ⊕ step) hi step body); [discriminate | contradiction].
Qed.

Lemma for_range_returns {A : Type} (body : Q -> option (list A)) (lo hi step : Q) :
  0 < step -> (forall x, body x <> None) -> for_range lo hi step body <> None.
Proof.
  intros Hstep Hbody. apply for_loop_returns; [exact Hstep | exact Hbody|].
  unfold trips. lia.
Qed.

(** The latitudes and longitudes the two loops of the scan go through. *)
Lemma lat_steps : steps (-60) angularResolution 290 = map gridLat (seq 0 290).
Proof. vm_compute. reflexivity. Qed.

Lemma lng_steps : steps (-180) angularResolution 720 = map gridLng (seq 0 720).
Proof. vm_compute. reflexivity. Qed.

Lemma lng_loop {A : Type} (f : Q -> A) :
  for_range (-180) 179.5 angularResolution (fun lng => Some [f lng])
  = Some (map f (map gridLng (seq 0 720))).
Proof.
  unfold for_range. rewrite <- lng_steps, <- flat_map_single.
  apply for_loop_steps.
  - vm_compute. lia.
  - vm_compute. reflexivity.
  - vm_compute. reflexivity.
  - reflexivity.
Qed.

Lemma lat_loop {A : Type} (body : Q -> option (list A)) (g : Q -> list A) :
  (forall lat, body lat = Some (g lat)) ->
  for_range (-60) 84.5 angularResolution body
  = Some (flat_map g (map gridLat (seq 0 290))).
Proof.
  intros Hbody. unfold for_range. rewrite <- lat_steps.
  apply for_loop_steps.
  - vm_compute. lia.
  - vm_compute. reflexivity.
  - vm_compute. reflexivity.
  - intros lat _. apply Hbody.
Qed.

(** The scan as a closed expression: one point per grid cell, rows first. *)
Definition gridScan (knownTime : Date) (objectHeight shadowLength : Q)
    : list ShadowFinderPoint :=
  flat_map (fun lat => map (gridPoint knownTime objectHeight shadowLength lat)
                           (map gridLng (seq 0 720)))
           (map gridLat (seq 0 290)).

Lemma grid_loops (knownTime : Date) (objectHeight shadowLength : Q) :
  for_range (-60) 84.5 angularResolution (fun lat =>
    for_range (-180) 179.5 angularResolution (fun lng =>
      Some [gridPoint knownTime objectHeight shadowLength lat lng]))
  = Some (gridScan knownTime objectHeight shadowLength).
Proof.
  unfold gridScan. apply lat_loop. intros lat. apply lng_loop.
Qed.

Lemma generateShadowFinderGrid_valid (knownTime : Date) (objectHeight shadowLength : Q) :
  isNaN_getTime knownTime = false ->
  generateShadowFinderGrid knownTime objectHeight shadowLength
  = Ok (gridScan knownTime objectHeight shadowLength).
Proof.
  intros Hd. unfold generateShadowFinderGrid, Date_toISOString, isNaN_getTime in *.
  destruct (getTime knownTime); [|discriminate]. unfold bind.
  rewrite grid_loops. reflexivity.
Qed.

Lemma generateShadowFinderGrid_invalid (knownTime : Date) (objectHeight shadowLength : Q) :
  isNaN_getTime knownTime = true ->
  generateShadowFinderGrid knownTime objectHeight shadowLength
  = Throw RangeErrorInvalidTime.
Proof.
  intros Hd. unfold generateShadowFinderGrid, Date_toISOString, isNaN_getTime in *.
  destruct (getTime knownTime); [discriminate|]. reflexivity.
Qed.

Lemma gridScan_coords (knownTime : Date) (objectHeight shadowLength : Q) :
  map coords (gridScan knownTime objectHeight shadowLength) = gridCoords.
Proof.
  unfold gridScan, gridCoords.
  generalize (seq 0 290) as rows. intros rows.
  induction rows as [|i rows IH]; [reflexivity|].
  cbn [map flat_map]. rewrite map_app, IH.
  apply (f_equal (fun l => l ++ _)).
  rewrite !map_map. apply map_ext. intros j. reflexivity.
Qed.

Lemma gridCoords_length : length gridCoords = (290 * 720)%nat.
Proof.
  unfold gridCoords.
  assert (H : forall rows, length (flat_map (fun i => map (fun j => (gridLat i, gridLng j))
                                              (seq 0 720)) rows) = (length rows * 720)%nat).
  { induction rows as [|i rows IH]; [reflexivity|].
    cbn [flat_map]. rewrite length_app, IH, length_map, length_seq.
    cbn [length]. lia. }
  rewrite H, length_seq. reflexivity.
Qed.

Lemma count_208800 : Z.of_nat (290 * 720) = 208800%Z.
Proof. rewrite Nat2Z.inj_mul. reflexivity. Qed.

(** Whether a pair of coordinates lies within the bounds of the grid. *)
Definition inGridBounds (c : Q * Q) : Prop :=
  (-60 <= fst c /\ fst c <= 84.5) /\ (-180 <= snd c /\ snd c <= 179.5).

Definition inGridBoundsb (c : Q * Q) : bool :=
  ((-60 <=? fst c) && (fst c <=? 84.5)) && ((-180 <=? snd c) && (snd c <=? 179.5)).

Lemma inGridBoundsb_spec (c : Q * Q) : inGridBoundsb c = true <-> inGridBounds c.
Proof.
  unfold inGridBoundsb, inGridBounds.
  rewrite !andb_true_iff, !le_true. reflexivity.
Qed.

Lemma gridCoords_bounds : Forall inGridBounds gridCoords.
Proof.
  assert (Hlat : forallb (fun i => ((-60 <=? gridLat i) && (gridLat i <=? 84.5)))
                         (seq 0 290) = true) by (vm_compute; reflexivity).
  assert (Hlng : forallb (fun j => ((-180 <=? gridLng j) && (gridLng j <=? 179.5)))
                         (seq 0 720) = true) by (vm_compute; reflexivity).
  rewrite forallb_forall in Hlat, Hlng.
  unfold gridCoords. apply List.Forall_forall. intros c Hc.
  apply in_flat_map in Hc as (i & Hi & Hc).
  apply in_map_iff in Hc as (j & <- & Hj).
  apply inGridBoundsb_spec. unfold inGridBoundsb. cbn [fst snd].
  now rewrite (Hlat i Hi), (Hlng j Hj).
Qed.

Lemma nth_error_flat_map {A B : Type} (f : A -> list B) (m : nat) :
  (forall a, length (f a) = m) ->
  forall (l : list A) (i j : nat) (a : A),
    nth_error l i = Some a -> (j < m)%nat ->
    nth_error (flat_map f l) (i * m + j) = nth_error (f a) j.
Proof.
  intros Hlen. induction l as [|b l IH]; intros i j a Hi Hj.
  - destruct i; discriminate.
  - destruct i as [|i]; cbn [nth_error flat_map] in *.
    + injection Hi as ->. rewrite nth_error_app1 by (rewrite Hlen; lia).
      reflexivity.
    + rewrite nth_error_app2 by (rewrite Hlen; lia).
      rewrite Hlen. replace (S i * m + j - m)%nat with (i * m + j)%nat by lia.
      now apply IH.
Qed.

Lemma nth_error_seq0 (n i : nat) : (i < n)%nat -> nth_error (seq 0 n) i = Some i.
Proof.
  intros Hi. rewrite (nth_error_nth' _ O) by (rewrite length_seq; exact Hi).
  now rewrite seq_nth.
Qed.

(** Row-major order: cell [(i, j)] is element [i * 720 + j]. *)
Lemma gridCoords_nth (i j : nat) :
  (i < 290)%nat -> (j < 720)%nat ->
  nth_error gridCoords (i * 720 + j) = Some (gridLat i, gridLng j).
Proof.
  intros Hi Hj. unfold gridCoords.
  rewrite (nth_error_flat_map _ 720 (fun a => eq_trans (length_map _ _) (length_seq _ _))
             _ i j i (nth_error_seq0 _ _ Hi) Hj).
  rewrite nth_error_map, (nth_error_seq0 _ _ Hj). reflexivity.
Qed.

(** The coordinates of a grid cell lie on the half-degree lattice. *)
Lemma gridLat_step (i : nat) : gridLat i == -60 + inject_Z (Z.of_nat i) * 0.5.
Proof. apply Qred_correct. Qed.

Lemma gridLng_step (j : nat) : gridLng j == -180 + inject_Z (Z.of_nat j) * 0.5.
Proof. apply Qred_correct. Qed.

(** C2.  For every valid input (positive object height and shadow length, a
    valid timestamp) the grid scan returns, and what it returns has exactly
    290 x 720 = 208,800 points whose coordinates are, in this order, those of
    the fixed grid enumerated row by row (latitude in the outer loop,
    longitude in the inner one): row [i], column [j] is at latitude
    [-60 + i/2] and longitude [-180 + j/2], so every latitude is in
    [-60, 84.5] and every longitude in [-180, 179.5]. *)
Theorem generateShadowFinderGrid_grid (knownTime : Date) (objectHeight shadowLength : Q) :
  0 < objectHeight -> 0 < shadowLength -> isNaN_getTime knownTime = false ->
  exists pts,
    generateShadowFinderGrid knownTime objectHeight shadowLength = Ok pts
    /\ length pts = (290 * 720)%nat
    /\ Z.of_nat (length pts) = 208800%Z
    /\ map coords pts = gridCoords
    /\ Forall (fun p => inGridBounds (coords p)) pts
    /\ (forall i j, (i < 290)%nat -> (j < 720)%nat ->
          exists p, nth_error pts (i * 720 + j) = Some p
                    /\ lat p == -60 + inject_Z (Z.of_nat i) * 0.5
                    /\ lng p == -180 + inject_Z (Z.of_nat j) * 0.5).
Proof.
  intros _ _ Hd.
  exists (gridScan knownTime objectHeight shadowLength).
  assert (Hc := gridScan_coords knownTime objectHeight shadowLength).
  assert (Hlen : length (gridScan knownTime objectHeight shadowLength) = (290 * 720)%nat).
  { rewrite <- (length_map coords), Hc. apply gridCoords_length. }
  split; [now apply generateShadowFinderGrid_valid|].
  split; [exact Hlen|].
  split; [rewrite Hlen; apply count_208800|].
  split; [exact Hc|].
  split.
  - rewrite <- Forall_map, Hc. apply gridCoords_bounds.
  - intros i j Hi Hj.
    assert (Hn := gridCoords_nth i j Hi Hj).
    rewrite <- Hc, nth_error_map in Hn.
    destruct (nth_error _ (i * 720 + j)) as [p|]; [|discriminate].
    cbn [option_map] in Hn.
    assert (Hp : coords p = (gridLat i, gridLng j)) by congruence.
    exists p. split; [reflexivity|].
    unfold coords in Hp. injection Hp as Hlat Hlng. rewrite Hlat, Hlng.
    split; [apply gridLat_step | apply gridLng_step].
Qed.

(** The two loops of the scan, run in binary64: the loop variables take
    the very values of the model, all within the bound, and the first value
    past them ends the loop.  (The coordinates are multiples of 0.5, which
    binary64 adds without rounding.) *)
Lemma latitudes_binary64 :
  map Q_of_float (steps64 (-60) 0.5 290) = map Some (steps (-60) angularResolution 290)
  /\ forallb (fun x => (x <=? 84.5)%float) (steps64 (-60) 0.5 290) = true
  /\ (stepEnd64 (-60) 0.5 290 <=? 84.5)%float = false.
Proof. vm_compute. repeat split. Qed.

Lemma longitudes_binary64 :
  map Q_of_float (steps64 (-180) 0.5 720) = map Some (steps (-180) angularResolution 720)
  /\ forallb (fun x => (x <=? 179.5)%float) (steps64 (-180) 0.5 720) = true
  /\ (stepEnd64 (-180) 0.5 720 <=? 179.5)%float = false.
Proof. vm_compute. repeat split. Qed.

(** ** Scoring one grid point *)

Lemma gridScan_In (knownTime : Date) (objectHeight shadowLength : Q) (p : ShadowFinderPoint) :
  In p (gridScan knownTime objectHeight shadowLength) ->
  p = gridPoint knownTime objectHeight shadowLength (lat p) (lng p).
Proof.
  unfold gridScan. intros Hp.
  apply in_flat_map in Hp as (la & _ & Hp).
  apply in_map_iff in Hp as (lo & <- & _). reflexivity.
Qed.

Lemma gridPoint_night (knownTime : Date) (objectHeight shadowLength la lo : Q) :
  SunCalc_altitude knownTime la lo <= 0 ->
  likelihood (gridPoint knownTime objectHeight shadowLength la lo) = -1.
Proof.
  intros Halt. unfold gridPoint. cbn [likelihood].
  apply le_true in Halt. rewrite Halt. reflexivity.
Qed.

Lemma gridPoint_day (knownTime : Date) (objectHeight shadowLength la lo : Q) :
  0 < SunCalc_altitude knownTime la lo ->
  likelihood (gridPoint knownTime objectHeight shadowLength la lo)
  = Math_abs ((objectHeight ⊘ Math_tan (SunCalc_altitude knownTime la lo)
               ⊖ shadowLength) ⊘ shadowLength).
Proof.
  intros Halt. unfold gridPoint. cbn [likelihood].
  apply le_false in Halt. rewrite Halt. reflexivity.
Qed.

Lemma relative_error (predicted observed : Q) :
  0 < observed ->
  Math_abs ((predicted ⊖ observed) ⊘ observed)
  == Qabs (predicted - observed) / observed.
Proof.
  intros Hs. unfold Math_abs. rewrite div_eq, sub_eq.
  unfold Qdiv. rewrite Qabs_Qmult.
  rewrite (Qabs_pos (/ observed)); [reflexivity|].
  apply Qlt_le_weak, Qinv_lt_0_compat, Hs.
Qed.

Lemma relative_error_zero (predicted observed : Q) :
  0 < observed ->
  (Qabs (predicted - observed) / observed == 0 <-> predicted == observed).
Proof.
  intros Hs. split; intros H.
  - assert (Ha : Qabs (predicted - observed) == 0).
    { rewrite <- (Qmult_div_r (Qabs (predicted - observed)) observed) by lra.
      rewrite H. ring. }
    revert Ha. apply Qabs_case; intros; lra.
  - rewrite H. setoid_replace (observed - observed) with 0 using relation Qeq by ring.
    reflexivity.
Qed.

(** C3.  Every point of a scan with positive measurements is scored by the
    solar altitude [theta] at its coordinates: at or below the horizon
    ([theta <= 0]) its likelihood is the night sentinel -1; above it, the
    likelihood is [|objectHeight / tan theta - shadowLength| / shadowLength],
    which is at least 0, and is 0 exactly when the predicted shadow length
    [objectHeight / tan theta] equals the observed one. *)
Theorem scan_likelihood (knownTime : Date) (objectHeight shadowLength : Q)
    (pts : list ShadowFinderPoint) :
  0 < objectHeight -> 0 < shadowLength ->
  generateShadowFinderGrid knownTime objectHeight shadowLength = Ok pts ->
  Forall (fun p =>
    let theta := SunCalc_altitude knownTime (lat p) (lng p) in
    let predicted := (objectHeight ⊘ Math_tan theta) in
    (theta <= 0 -> likelihood p = -1)
    /\ (0 < theta ->
        likelihood p == Qabs (predicted - shadowLength) / shadowLength
        /\ 0 <= likelihood p
        /\ (likelihood p == 0 <-> predicted == shadowLength))) pts.
Proof.
  intros _ Hs Hscan.
  destruct (isNaN_getTime knownTime) eqn:Hd.
  - rewrite generateShadowFinderGrid_invalid in Hscan by exact Hd. discriminate.
  - rewrite generateShadowFinderGrid_valid in Hscan by exact Hd.
    injection Hscan as <-.
    apply List.Forall_forall. intros p Hp.
    apply gridScan_In in Hp. cbv zeta. split.
    + intros Halt. rewrite Hp. now apply gridPoint_night.
    + intros Halt.
      assert (Hl : likelihood p
                   == Qabs ((objectHeight
                             ⊘ Math_tan (SunCalc_altitude knownTime (lat p) (lng p)))
                            - shadowLength) / shadowLength).
      { rewrite Hp at 1. rewrite gridPoint_day by exact Halt.
        now apply relative_error. }
      split; [exact Hl|]. split.
      * rewrite Hl. apply Qle_shift_div_l; [exact Hs|].
        rewrite Qmult_0_l. apply Qabs_nonneg.
      * rewrite Hl. now apply relative_error_zero.
Qed.

(** ** The analysis entry point *)

(** The result [analyzeShadowMeasurements] builds from the points of a scan. *)
Definition summarize (pts : list ShadowFinderPoint) : ShadowAnalysisResult :=
  {| points := pts;
     mainBandCoordinates :=
       {| latRange := rangeOf lat (List.filter (inBand 0.1) pts);
          lngRange := rangeOf lng (List.filter (inBand 0.1) pts) |};
     statistics :=
       {| totalPoints := length pts;
          validPoints := length (List.filter (fun p => likelihood p !== -1) pts);
          nightPoints := length (List.filter (fun p => likelihood p === -1) pts);
          ultraTightBandPoints := length (List.filter (inBand 0.05) pts);
          tightBandPoints := length (List.filter (inBand 0.08) pts);
          visibleBandPoints := length (List.filter (inBand 0.15) pts) |} |}.

Lemma analyze_invalid_measurements (input : ShadowAnalysisInput) :
  objectHeight input <= 0 \/ shadowLength input <= 0 ->
  analyzeShadowMeasurements input = Throw InvalidMeasurements.
Proof.
  intros H. unfold analyzeShadowMeasurements.
  assert (E : (objectHeight input <=? 0) || (shadowLength input <=? 0) = true).
  { apply orb_true_iff. rewrite !le_true. exact H. }
  rewrite E. reflexivity.
Qed.

Lemma analyze_invalid_date (input : ShadowAnalysisInput) :
  0 < objectHeight input -> 0 < shadowLength input ->
  isNaN_getTime (knownTime input) = true ->
  analyzeShadowMeasurements input = Throw InvalidDateTime.
Proof.
  intros Hh Hs Hd. unfold analyzeShadowMeasurements.
  apply le_false in Hh, Hs. rewrite Hh, Hs, Hd. reflexivity.
Qed.

Lemma analyze_valid (input : ShadowAnalysisInput) :
  0 < objectHeight input -> 0 < shadowLength input ->
  isNaN_getTime (knownTime input) = false ->
  analyzeShadowMeasurements input
  = Ok (summarize (gridScan (knownTime input) (objectHeight input) (shadowLength input))).
Proof.
  intros Hh Hs Hd. unfold analyzeShadowMeasurements.
  apply le_false in Hh, Hs. rewrite Hh, Hs, Hd.
  cbn [orb]. rewrite generateShadowFinderGrid_valid by exact Hd.
  reflexivity.
Qed.

(** Whatever the input, the analysis ends in one of three ways. *)
Lemma analyze_cases (input : ShadowAnalysisInput) :
  (analyzeShadowMeasurements input = Throw InvalidMeasurements
   /\ (objectHeight input <= 0 \/ shadowLength input <= 0))
  \/ (analyzeShadowMeasurements input = Throw InvalidDateTime
      /\ (0 < objectHeight input /\ 0 < shadowLength input)
      /\ isNaN_getTime (knownTime input) = true)
  \/ (analyzeShadowMeasurements input
       = Ok (summarize (gridScan (knownTime input) (objectHeight input) (shadowLength input)))
      /\ (0 < objectHeight input /\ 0 < shadowLength input)
      /\ isNaN_getTime (knownTime input) = false).
Proof.
  destruct (Qlt_le_dec 0 (objectHeight input)) as [Hh|Hh].
  2:{ left. split; [apply analyze_invalid_measurements|]; now left. }
  destruct (Qlt_le_dec 0 (shadowLength input)) as [Hs|Hs].
  2:{ left. split; [apply analyze_invalid_measurements|]; now right. }
  destruct (isNaN_getTime (knownTime input)) eqn:Hd.
  - right. left. split; [now apply analyze_invalid_date|]. now split.
  - right. right. split; [now apply analyze_valid|]. now split.
Qed.

Lemma analyze_Ok (input : ShadowAnalysisInput) (r : ShadowAnalysisResult) :
  analyzeShadowMeasurements input = Ok r ->
  r = summarize (gridScan (knownTime input) (objectHeight input) (shadowLength input)).
Proof.
  intros H.
  destruct (analyze_cases input) as [[E _]|[[E _]|[E _]]]; rewrite E in H;
    try discriminate.
  now injection H as <-.
Qed.

(** ** Bands *)

Lemma inBand_spec (t : Q) (p : ShadowFinderPoint) :
  inBand t p = true <-> 0 <= likelihood p /\ likelihood p <= t.
Proof. unfold inBand. rewrite andb_true_iff, ge_true, le_true. reflexivity. Qed.

Lemma inBand_mono (t t' : Q) (p : ShadowFinderPoint) :
  t <= t' -> inBand t p = true -> inBand t' p = true.
Proof. rewrite !inBand_spec. intros Ht [H0 H1]. split; lra. Qed.

Lemma inBand_night (t : Q) (p : ShadowFinderPoint) :
  likelihood p == -1 -> inBand t p = false.
Proof.
  intros Hn. destruct (inBand t p) eqn:E; [|reflexivity].
  apply inBand_spec in E. lra.
Qed.

Lemma filter_length_le {A : Type} (f g : A -> bool) (l : list A) :
  (forall a, f a = true -> g a = true) ->
  (length (List.filter f l) <= length (List.filter g l))%nat.
Proof.
  intros Hfg. induction l as [|a l IH]; [reflexivity|].
  cbn [List.filter]. destruct (f a) eqn:Ef.
  - rewrite (Hfg a Ef). cbn [length]. lia.
  - destruct (g a); cbn [length]; lia.
Qed.

(** C8.  In the statistics of every scan the ultra-tight count is at most
    the tight count, which is at most the visible count.  Each count is the
    number of points of the scan whose likelihood lies between 0 and the
    band's threshold, both included: a point within the ultra-tight band is
    counted in all three bands, and a night point (likelihood -1) in none. *)
Theorem band_counts (input : ShadowAnalysisInput) (r : ShadowAnalysisResult) :
  analyzeShadowMeasurements input = Ok r ->
  let counted (t : Q) := List.filter (inBand t) (points r) in
  ((ultraTightBandPoints (statistics r) <= tightBandPoints (statistics r))%nat
   /\ (tightBandPoints (statistics r) <= visibleBandPoints (statistics r))%nat)
  /\ (ultraTightBandPoints (statistics r) = length (counted 0.05)
      /\ tightBandPoints (statistics r) = length (counted 0.08)
      /\ visibleBandPoints (statistics r) = length (counted 0.15))
  /\ (forall t p, In p (counted t) <->
        In p (points r) /\ 0 <= likelihood p /\ likelihood p <= t)
  /\ (forall p, In p (counted 0.05) -> In p (counted 0.08) /\ In p (counted 0.15))
  /\ (forall t p, likelihood p == -1 -> ~ In p (counted t)).
Proof.
  intros Hr counted. apply analyze_Ok in Hr. subst r. cbn [statistics summarize
    ultraTightBandPoints tightBandPoints visibleBandPoints points] in *.
  assert (Hin : forall t p, In p (counted t) <->
            In p (gridScan (knownTime input) (objectHeight input) (shadowLength input))
            /\ 0 <= likelihood p /\ likelihood p <= t).
  { intros t p. unfold counted. rewrite filter_In, inBand_spec. reflexivity. }
  split; [split|split; [|split; [|split]]].
  - apply filter_length_le. intros p. apply inBand_mono. lra.
  - apply filter_length_le. intros p. apply inBand_mono. lra.
  - repeat split.
  - exact Hin.
  - intros p Hp. apply Hin in Hp as (Hp & H0 & H1).
    split; apply Hin; (split; [exact Hp | split; lra]).
  - intros t p Hn Hp. apply Hin in Hp as (_ & H0 & _). lra.
Qed.

(** ** Minimum and maximum of a spread array *)

Definition isMinOf (l : list Q) (m : Q) : Prop :=
  (exists x, In x l /\ x == m) /\ (forall x, In x l -> m <= x).

Definition isMaxOf (l : list Q) (m : Q) : Prop :=
  (exists x, In x l /\ x == m) /\ (forall x, In x l -> x <= m).

Lemma Math_min_spec (xs : list Q) : forall x, isMinOf (x :: xs) (Math_min x xs).
Proof.
  unfold Math_min, Math_min2.
  induction xs as [|y xs IH]; intros x.
  - split; [exists x; split; [now left | reflexivity]|].
    intros z [<-|[]]. cbn. lra.
  - cbn [fold_left]. destruct (IH (Qmin x y)) as [(z & Hz & Ez) Hlow]. split.
    + destruct Hz as [<-|Hz].
      * destruct (Q.min_spec x y) as [[_ E]|[_ E]].
        -- exists x. split; [now left|]. now rewrite <- Ez, E.
        -- exists y. split; [right; now left|]. now rewrite <- Ez, E.
      * exists z. split; [right; now right | exact Ez].
    + intros z' [<-|[<-|Hz']].
      * apply Qle_trans with (Qmin x y); [apply Hlow; now left | apply Q.le_min_l].
      * apply Qle_trans with (Qmin x y); [apply Hlow; now left | apply Q.le_min_r].
      * apply Hlow. now right.
Qed.

Lemma Math_max_spec (xs : list Q) : forall x, isMaxOf (x :: xs) (Math_max x xs).
Proof.
  unfold Math_max, Math_max2.
  induction xs as [|y xs IH]; intros x.
  - split; [exists x; split; [now left | reflexivity]|].
    intros z [<-|[]]. cbn. lra.
  - cbn [fold_left]. destruct (IH (Qmax x y)) as [(z & Hz & Ez) Hup]. split.
    + destruct Hz as [<-|Hz].
      * destruct (Q.max_spec x y) as [[_ E]|[_ E]].
        -- exists y. split; [right; now left|]. now rewrite <- Ez, E.
        -- exists x. split; [now left|]. now rewrite <- Ez, E.
      * exists z. split; [right; now right | exact Ez].
    + intros z' [<-|[<-|Hz']].
      * apply Qle_trans with (Qmax x y); [apply Q.le_max_l | apply Hup; now left].
      * apply Qle_trans with (Qmax x y); [apply Q.le_max_r | apply Hup; now left].
      * apply Hup. now right.
Qed.

Lemma isMinOf_unique (l : list Q) (m m' : Q) : isMinOf l m -> isMinOf l m' -> m == m'.
Proof.
  intros [(x & Hx & Ex) Hm] [(x' & Hx' & Ex') Hm'].
  apply Qle_antisym.
  - rewrite <- Ex'. now apply Hm.
  - rewrite <- Ex. now apply Hm'.
Qed.

Lemma isMaxOf_unique (l : list Q) (m m' : Q) : isMaxOf l m -> isMaxOf l m' -> m == m'.
Proof.
  intros [(x & Hx & Ex) Hm] [(x' & Hx' & Ex') Hm'].
  apply Qle_antisym.
  - rewrite <- Ex. now apply Hm'.
  - rewrite <- Ex'. now apply Hm.
Qed.

Lemma isMinOf_perm (l l' : list Q) (m : Q) :
  Permutation l l' -> isMinOf l m -> isMinOf l' m.
Proof.
  intros Hp [(x & Hx & Ex) Hm]. split.
  - exists x. split; [now apply (Permutation_in _ Hp) | exact Ex].
  - intros y Hy. apply Hm. now apply (Permutation_in _ (Permutation_sym Hp)).
Qed.

Lemma isMaxOf_perm (l l' : list Q) (m : Q) :
  Permutation l l' -> isMaxOf l m -> isMaxOf l' m.
Proof.
  intros Hp [(x & Hx & Ex) Hm]. split.
  - exists x. split; [now apply (Permutation_in _ Hp) | exact Ex].
  - intros y Hy. apply Hm. now apply (Permutation_in _ (Permutation_sym Hp)).
Qed.

Lemma rangeOf_spec (f : ShadowFinderPoint -> Q) (ps : list ShadowFinderPoint) :
  ps <> [] ->
  isMinOf (map f ps) (fst (rangeOf f ps)) /\ isMaxOf (map f ps) (snd (rangeOf f ps)).
Proof.
  destruct ps as [|p ps]; [congruence|]. intros _. cbn [rangeOf fst snd map].
  split; [apply Math_min_spec | apply Math_max_spec].
Qed.

(** C9.  For every valid input the analysis returns a result (no error is
    raised, whatever the scores) whose points are the points of the scan,
    one for every cell of the grid, and whose envelope is taken over exactly
    the points of the scan with likelihood in [0, 0.10]: [latRange] is the
    smallest and the largest latitude among them and [lngRange] the smallest
    and the largest longitude; when there is no such point, both ranges are
    [0, 0]. *)
Theorem main_band_envelope (input : ShadowAnalysisInput) :
  0 < objectHeight input -> 0 < shadowLength input ->
  isNaN_getTime (knownTime input) = false ->
  exists r,
    analyzeShadowMeasurements input = Ok r
    /\ (generateShadowFinderGrid (knownTime input) (objectHeight input)
          (shadowLength input) = Ok (points r)
        /\ map coords (points r) = gridCoords)
    /\ let mainBand := List.filter (inBand 0.1) (points r) in
       (forall p, In p mainBand <->
          In p (points r) /\ 0 <= likelihood p /\ likelihood p <= 0.1)
       /\ (mainBand = [] ->
           latRange (mainBandCoordinates r) = (0, 0)
           /\ lngRange (mainBandCoordinates r) = (0, 0))
       /\ (mainBand <> [] ->
           isMinOf (map lat mainBand) (fst (latRange (mainBandCoordinates r)))
           /\ isMaxOf (map lat mainBand) (snd (latRange (mainBandCoordinates r)))
           /\ isMinOf (map lng mainBand) (fst (lngRange (mainBandCoordinates r)))
           /\ isMaxOf (map lng mainBand) (snd (lngRange (mainBandCoordinates r)))).
Proof.
  intros Hh Hs Hd. eexists. split; [now apply analyze_valid|].
  cbn [points summarize mainBandCoordinates latRange lngRange]. cbv zeta.
  split.
  { split; [now apply generateShadowFinderGrid_valid | apply gridScan_coords]. }
  set (pts := gridScan _ _ _). split; [|split].
  - intros p. rewrite filter_In, inBand_spec. reflexivity.
  - intros ->. split; reflexivity.
  - intros Hne.
    destruct (rangeOf_spec lat _ Hne) as [H1 H2].
    destruct (rangeOf_spec lng _ Hne) as [H3 H4].
    split; [exact H1 | split; [exact H2 | split; [exact H3 | exact H4]]].
Qed.

(** ** The best-location estimator *)

(** The exact sum and the arithmetic mean of a list of numbers. *)
Definition Qsum (l : list Q) : Q := fold_right Qplus 0 l.

Definition mean (l : list Q) : Q := Qsum l / inject_Z (Z.of_nat (length l)).

Lemma insertByLikelihood_perm (p : ShadowFinderPoint) (ps : list ShadowFinderPoint) :
  Permutation (p :: ps) (insertByLikelihood p ps).
Proof.
  induction ps as [|q ps IH]; cbn [insertByLikelihood]; [reflexivity|].
  destruct (likelihood p ⊖ likelihood q <=? 0); [reflexivity|].
  rewrite perm_swap. now apply perm_skip.
Qed.

Lemma sortByLikelihood_perm (ps : list ShadowFinderPoint) :
  Permutation ps (sortByLikelihood ps).
Proof.
  induction ps as [|p ps IH]; [reflexivity|].
  cbn [sortByLikelihood fold_right]. rewrite <- insertByLikelihood_perm.
  now apply perm_skip.
Qed.

Lemma sortByLikelihood_nil (ps : list ShadowFinderPoint) :
  sortByLikelihood ps = [] <-> ps = [].
Proof.
  split; intros H.
  - apply Permutation_nil. rewrite <- H. symmetry. apply sortByLikelihood_perm.
  - subst. reflexivity.
Qed.

(** The sort orders by ascending likelihood. *)
Lemma insertByLikelihood_sorted (p : ShadowFinderPoint) (ps : list ShadowFinderPoint) :
  StronglySorted (fun a b => likelihood a <= likelihood b) ps ->
  StronglySorted (fun a b => likelihood a <= likelihood b) (insertByLikelihood p ps).
Proof.
  induction 1 as [|q ps Hs IH Hq]; cbn [insertByLikelihood].
  - repeat constructor.
  - destruct (likelihood p ⊖ likelihood q <=? 0) eqn:E.
    + apply le_true in E. rewrite sub_eq in E.
      constructor; [now constructor|].
      constructor; [lra|].
      eapply List.Forall_impl; [|exact Hq]. cbn. intros a Ha. lra.
    + apply le_false in E. rewrite sub_eq in E.
      constructor; [exact IH|].
      apply (Permutation_Forall (insertByLikelihood_perm p ps)).
      constructor; [lra | exact Hq].
Qed.

Lemma sortByLikelihood_sorted (ps : list ShadowFinderPoint) :
  StronglySorted (fun a b => likelihood a <= likelihood b) (sortByLikelihood ps).
Proof.
  induction ps as [|p ps IH]; [constructor|].
  cbn [sortByLikelihood fold_right]. now apply insertByLikelihood_sorted.
Qed.

Lemma sumOf_acc (f : ShadowFinderPoint -> Q) (ps : list ShadowFinderPoint) :
  forall acc, fold_left (fun sum p => sum ⊕ f p) ps acc == acc + Qsum (map f ps).
Proof.
  induction ps as [|p ps IH]; intros acc; cbn [fold_left map Qsum fold_right].
  - ring.
  - rewrite IH, add_eq. fold (Qsum (map f ps)). ring.
Qed.

Lemma sumOf_eq (f : ShadowFinderPoint -> Q) (ps : list ShadowFinderPoint) :
  sumOf f ps == Qsum (map f ps).
Proof. unfold sumOf. rewrite sumOf_acc. ring. Qed.

Lemma Qsum_perm (l l' : list Q) : Permutation l l' -> Qsum l == Qsum l'.
Proof.
  induction 1 as [|x l l' _ IH|x y l|l l' l'' _ IH1 _ IH2].
  - reflexivity.
  - cbn [Qsum fold_right]. fold (Qsum l) (Qsum l'). now rewrite IH.
  - cbn [Qsum fold_right]. ring.
  - now rewrite IH1.
Qed.

Lemma lengthOf_pos {A : Type} (a : A) (l : list A) : 0 < lengthOf (a :: l).
Proof.
  unfold lengthOf. change 0 with (inject_Z 0). rewrite <- Zlt_Qlt.
  cbn [length]. lia.
Qed.

(** The centroid the estimator computes on the sorted selection is the mean
    over the selection in any order. *)
Lemma centroid_eq (f : ShadowFinderPoint -> Q) (sel sorted : list ShadowFinderPoint) :
  Permutation sel sorted ->
  sumOf f sorted ⊘ lengthOf sorted == mean (map f sel).
Proof.
  intros Hp. unfold mean, lengthOf.
  rewrite div_eq, sumOf_eq, length_map.
  rewrite (Qsum_perm _ _ (Permutation_map f Hp)).
  now rewrite (Permutation_length Hp).
Qed.

Lemma Qsum_bounds (a b : Q) (l : list Q) :
  Forall (fun x => a <= x /\ x <= b) l ->
  a * inject_Z (Z.of_nat (length l)) <= Qsum l
  /\ Qsum l <= b * inject_Z (Z.of_nat (length l)).
Proof.
  induction 1 as [|x l [Hax Hxb] _ [IHa IHb]]; cbn [Qsum fold_right length].
  - change (inject_Z (Z.of_nat 0)) with 0. split; lra.
  - fold (Qsum l). rewrite Nat2Z.inj_succ, <- Z.add_1_r, inject_Z_plus.
    change (inject_Z 1) with 1. split; lra.
Qed.

Lemma mean_bounds (a b : Q) (l : list Q) :
  l <> [] -> Forall (fun x => a <= x /\ x <= b) l ->
  a <= mean l /\ mean l <= b.
Proof.
  intros Hne Hl. destruct (Qsum_bounds a b l Hl) as [Ha Hb].
  assert (Hn : 0 < inject_Z (Z.of_nat (length l))).
  { destruct l as [|x l]; [congruence|].
    change 0 with (inject_Z 0). rewrite <- Zlt_Qlt. cbn [length]. lia. }
  unfold mean. split.
  - apply Qle_shift_div_l; assumption.
  - apply Qle_shift_div_r; assumption.
Qed.

(** The points the estimator selects. *)
Definition selection (result : ShadowAnalysisResult) : list ShadowFinderPoint :=
  List.filter (inBand 0.1) (points result).

Lemma selection_In (result : ShadowAnalysisResult) (p : ShadowFinderPoint) :
  In p (selection result) <->
  In p (points result) /\ 0 <= likelihood p /\ likelihood p <= 0.1.
Proof. unfold selection. rewrite filter_In, inBand_spec. reflexivity. Qed.

Lemma estimate_empty (result : ShadowAnalysisResult) :
  selection result = [] -> estimateBestLocation result = Throw NoSuitableMatches.
Proof.
  intros H. unfold estimateBestLocation. fold (selection result). rewrite H.
  reflexivity.
Qed.

(** What the estimator returns on a non-empty selection; [latMin], ...,
    [lngMax] are the extreme coordinates of the selection. *)
Definition estimateOf (sel : list ShadowFinderPoint) (e : BestLocation) : Prop :=
  latitude e == mean (map lat sel)
  /\ longitude e == mean (map lng sel)
  /\ exists latMin latMax lngMin lngMax,
       (isMinOf (map lat sel) latMin /\ isMaxOf (map lat sel) latMax)
       /\ (isMinOf (map lng sel) lngMin /\ isMaxOf (map lng sel) lngMax)
       /\ accuracy e
          == Qmax (Qmax ((latMax - latMin) * 111)
                        ((lngMax - lngMin) * 111
                         * Math_cos (latitude e ⊗ Math_PI ⊘ 180)) / 2) 1.

Lemma estimate_nonempty (result : ShadowAnalysisResult) :
  selection result <> [] ->
  exists e, estimateBestLocation result = Ok e /\ estimateOf (selection result) e.
Proof.
  intros Hne. unfold estimateBestLocation. fold (selection result).
  assert (Hperm := sortByLikelihood_perm (selection result)).
  destruct (sortByLikelihood (selection result)) as [|p ps] eqn:Hsort.
  { destruct Hne. apply (proj1 (sortByLikelihood_nil _) Hsort). }
  eexists. split; [reflexivity|].
  unfold estimateOf. cbn [latitude longitude accuracy].
  split; [now apply centroid_eq|]. split; [now apply centroid_eq|].
  exists (Math_min (lat p) (map lat ps)), (Math_max (lat p) (map lat ps)),
         (Math_min (lng p) (map lng ps)), (Math_max (lng p) (map lng ps)).
  split; [|split].
  - split.
    + apply (isMinOf_perm (map lat (p :: ps))); [|apply Math_min_spec].
      apply Permutation_map. now symmetry.
    + apply (isMaxOf_perm (map lat (p :: ps))); [|apply Math_max_spec].
      apply Permutation_map. now symmetry.
  - split.
    + apply (isMinOf_perm (map lng (p :: ps))); [|apply Math_min_spec].
      apply Permutation_map. now symmetry.
    + apply (isMaxOf_perm (map lng (p :: ps))); [|apply Math_max_spec].
      apply Permutation_map. now symmetry.
  - unfold Math_max2. rewrite div_eq, !mul_eq, !sub_eq. reflexivity.
Qed.

(** C6.  The estimator fails, with the no-match error, exactly when the scan
    has no point with likelihood in [0, 0.10] (in particular when every
    likelihood is the night sentinel or above 0.10), and returns an estimate
    as soon as there is one such point. *)
Theorem estimateBestLocation_no_match (result : ShadowAnalysisResult) :
  (estimateBestLocation result = Throw NoSuitableMatches <->
     forall p, In p (points result) -> ~ (0 <= likelihood p /\ likelihood p <= 0.1))
  /\ (estimateBestLocation result = Throw NoSuitableMatches <->
        length (List.filter (inBand 0.1) (points result)) = O)
  /\ (Forall (fun p => likelihood p == -1 \/ 0.1 < likelihood p) (points result) ->
      estimateBestLocation result = Throw NoSuitableMatches)
  /\ ((exists p, In p (points result) /\ 0 <= likelihood p /\ likelihood p <= 0.1) ->
      exists e, estimateBestLocation result = Ok e).
Proof.
  assert (Hthrow : estimateBestLocation result = Throw NoSuitableMatches <->
                   selection result = []).
  { split; [|apply estimate_empty]. intros H.
    destruct (selection result) as [|p ps] eqn:Hsel; [reflexivity|].
    destruct (estimate_nonempty result) as (e & He & _); [congruence|].
    rewrite He in H. discriminate. }
  assert (Hnone : selection result = [] <->
                  forall p, In p (points result) ->
                            ~ (0 <= likelihood p /\ likelihood p <= 0.1)).
  { split.
    - intros H p Hp Hl. assert (Hin : In p (selection result)) by now apply selection_In.
      rewrite H in Hin. exact Hin.
    - intros H. destruct (selection result) as [|p ps] eqn:Hsel; [reflexivity|].
      assert (Hin : In p (selection result)) by (rewrite Hsel; now left).
      apply selection_In in Hin as [Hp Hl]. now destruct (H p Hp). }
  split; [|split; [|split]].
  - now rewrite Hthrow.
  - rewrite Hthrow. fold (selection result). apply iff_sym, length_zero_iff_nil.
  - intros Hall. apply Hthrow, Hnone. intros p Hp [H0 H1].
    rewrite List.Forall_forall in Hall. destruct (Hall p Hp); lra.
  - intros (p & Hp & Hl).
    destruct (estimate_nonempty result) as (e & He & _).
    + intros Hsel. assert (Hin : In p (selection result)) by now apply selection_In.
      rewrite Hsel in Hin. exact Hin.
    + now exists e.
Qed.

Lemma isMinOf_single (x m : Q) : isMinOf [x] m -> m == x.
Proof. intros [(y & [<-|[]] & E) _]. now symmetry. Qed.

Lemma isMaxOf_single (x m : Q) : isMaxOf [x] m -> m == x.
Proof. intros [(y & [<-|[]] & E) _]. now symmetry. Qed.

(** C7.  When at least one point has its likelihood in [0, 0.10], the
    estimator returns the arithmetic mean of the latitudes and of the
    longitudes of all these points, taken in the order of the scan (the sort
    by likelihood does not change them), and the accuracy
    [max (latSpread * 111, lngSpread * 111 * cos (latitude * PI / 180)) / 2],
    raised to 1 when it is below: the accuracy is at least 1, and is 1 on a
    single matching point. *)
Theorem estimateBestLocation_centroid (result : ShadowAnalysisResult) :
  let sel := List.filter (inBand 0.1) (points result) in
  sel <> [] ->
  exists e,
    estimateBestLocation result = Ok e
    /\ latitude e == mean (map lat sel)
    /\ longitude e == mean (map lng sel)
    /\ (exists latMin latMax lngMin lngMax,
          (isMinOf (map lat sel) latMin /\ isMaxOf (map lat sel) latMax)
          /\ (isMinOf (map lng sel) lngMin /\ isMaxOf (map lng sel) lngMax)
          /\ accuracy e
             == Qmax (Qmax ((latMax - latMin) * 111)
                           ((lngMax - lngMin) * 111
                            * Math_cos (latitude e ⊗ Math_PI ⊘ 180)) / 2) 1)
    /\ 1 <= accuracy e
    /\ (forall p, sel = [p] ->
          latitude e == lat p /\ longitude e == lng p /\ accuracy e == 1).
Proof.
  intros sel Hne. fold (selection result) in sel. subst sel.
  destruct (estimate_nonempty result Hne) as (e & He & Hlat & Hlng & Hacc).
  exists e. split; [exact He|]. split; [exact Hlat|]. split; [exact Hlng|].
  split; [exact Hacc|].
  destruct Hacc as (latMin & latMax & lngMin & lngMax & [H1 H2] & [H3 H4] & Hacc).
  split.
  - rewrite Hacc. apply Q.le_max_r.
  - intros p Hp. rewrite Hp in *. cbn [map] in *.
    unfold mean in Hlat, Hlng. cbn [Qsum fold_right length] in Hlat, Hlng.
    change (inject_Z (Z.of_nat 1)) with 1 in Hlat, Hlng.
    split; [rewrite Hlat; field|]. split; [rewrite Hlng; field|].
    apply isMinOf_single in H1, H3. apply isMaxOf_single in H2, H4.
    rewrite Hacc, H1, H2, H3, H4.
    setoid_replace ((lat p - lat p) * 111) with 0 using relation Qeq by ring.
    setoid_replace ((lng p - lng p) * 111 * Math_cos (latitude e ⊗ Math_PI ⊘ 180))
      with 0 using relation Qeq by ring.
    reflexivity.
Qed.

(** C10.  On a list of points that all lie within the bounds of the grid, a
    successful estimate lies within them too: its latitude is in
    [-60, 84.5] and its longitude in [-180, 179.5]. *)
Theorem estimateBestLocation_in_grid (result : ShadowAnalysisResult) (e : BestLocation) :
  Forall (fun p => inGridBounds (coords p)) (points result) ->
  estimateBestLocation result = Ok e ->
  (-60 <= latitude e /\ latitude e <= 84.5)
  /\ (-180 <= longitude e /\ longitude e <= 179.5).
Proof.
  intros Hgrid He.
  destruct (selection result) as [|q qs] eqn:Hsel.
  { rewrite estimate_empty in He by exact Hsel. discriminate. }
  destruct (estimate_nonempty result) as (e' & He' & Hlat & Hlng & _); [congruence|].
  rewrite He in He'. injection He' as <-.
  assert (Hin : Forall (fun p => inGridBounds (coords p)) (selection result)).
  { apply List.Forall_forall. intros p Hp. apply selection_In in Hp as [Hp _].
    rewrite List.Forall_forall in Hgrid. now apply Hgrid. }
  rewrite Hlat, Hlng. rewrite Hsel in *. split.
  - apply mean_bounds; [discriminate|].
    rewrite List.Forall_map. eapply List.Forall_impl; [|exact Hin].
    intros p [Hp _]. exact Hp.
  - apply mean_bounds; [discriminate|].
    rewrite List.Forall_map. eapply List.Forall_impl; [|exact Hin].
    intros p [_ Hp]. exact Hp.
Qed.

(** ** The intersection of two scans *)

(** The lookup key of a pair of coordinates. *)
Definition keyOf (c : Q * Q) : string :=
  toFixed1 (fst c) +:+ "," +:+ toFixed1 (snd c).

Lemma coordKey_keyOf (p : ShadowFinderPoint) : coordKey p = keyOf (coords p).
Proof. reflexivity. Qed.

Lemma isVisible_spec (p : ShadowFinderPoint) :
  isVisible p = true <-> ~ likelihood p == -1 /\ likelihood p <= 0.15.
Proof. unfold isVisible. rewrite andb_true_iff, neq_true, le_true. reflexivity. Qed.

(** *** The map of the first scan *)

Lemma firstPointsMap_snoc (l : list ShadowFinderPoint) (p : ShadowFinderPoint) :
  firstPointsMap (l ++ [p]) = <[coordKey p := p]> (firstPointsMap l).
Proof. unfold firstPointsMap. now rewrite fold_left_app. Qed.

Lemma firstPointsMap_lookup_Some (l : list ShadowFinderPoint) (k : string)
    (p : ShadowFinderPoint) :
  firstPointsMap l !! k = Some p -> In p l /\ coordKey p = k.
Proof.
  induction l as [|q l IH] using rev_ind.
  - unfold firstPointsMap. cbn [fold_left]. rewrite lookup_empty. discriminate.
  - rewrite firstPointsMap_snoc.
    destruct (decide (coordKey q = k)) as [<-|Hk].
    + rewrite lookup_insert_eq. intros [= <-].
      split; [apply in_or_app; right; now left | reflexivity].
    + rewrite lookup_insert_ne by exact Hk. intros H.
      destruct (IH H) as [Hin Hkey]. split; [apply in_or_app; now left | exact Hkey].
Qed.

Lemma firstPointsMap_lookup_In (l : list ShadowFinderPoint) (p : ShadowFinderPoint) :
  (forall a b, In a l -> In b l -> coordKey a = coordKey b -> a = b) ->
  In p l -> firstPointsMap l !! coordKey p = Some p.
Proof.
  induction l as [|q l IH] using rev_ind; intros Hinj Hp; [destruct Hp|].
  rewrite firstPointsMap_snoc.
  destruct (decide (coordKey q = coordKey p)) as [Hk|Hk].
  - rewrite Hk, lookup_insert_eq. f_equal.
    apply Hinj; [apply in_or_app; right; now left | exact Hp | exact Hk].
  - rewrite lookup_insert_ne by exact Hk.
    apply in_app_or in Hp as [Hp|[->|[]]]; [|congruence].
    apply IH; [|exact Hp].
    intros a b Ha Hb. apply Hinj; apply in_or_app; now left.
Qed.

(** *** Scans over the same cells *)

Lemma NoDup_map_injective {A B : Type} (f : A -> B) (l : list A) :
  NoDup (map f l) -> forall a b, In a l -> In b l -> f a = f b -> a = b.
Proof.
  induction l as [|x l IH]; intros Hnd a b Ha Hb Hab; [destruct Ha|].
  cbn [map] in Hnd. apply NoDup_cons in Hnd as [Hx Hnd].
  rewrite list_elem_of_In in Hx.
  destruct Ha as [<-|Ha], Hb as [<-|Hb].
  - reflexivity.
  - destruct Hx. rewrite Hab. now apply in_map.
  - destruct Hx. rewrite <- Hab. now apply in_map.
  - now apply IH.
Qed.

Lemma combine_same_image {A B C : Type} (f : A -> C) (g : B -> C) :
  forall (l1 : list A) (l2 : list B),
    map f l1 = map g l2 ->
    forall a b, In (a, b) (combine l1 l2) -> f a = g b.
Proof.
  induction l1 as [|x l1 IH]; intros [|y l2] Hmap a b Hin;
    try destruct Hin; try discriminate.
  - injection Hmap as Hxy Hmap. congruence.
  - injection Hmap as Hxy Hmap. now apply (IH l2).
Qed.

(** What one cell contributes to the intersection: a point when the cell is
    visible in both scans. *)
Definition cellIntersection (cell : ShadowFinderPoint * ShadowFinderPoint)
    : list IntersectionPoint :=
  let (firstPoint, secondPoint) := cell in
  if isVisible firstPoint && isVisible secondPoint then
    [ {| secondPoint := secondPoint;
         combinedLikelihood := Qmax (likelihood firstPoint) (likelihood secondPoint);
         isIntersection := true |} ]
  else [].

Section SameCells.

Variables first second : list ShadowFinderPoint.
Hypothesis same_coords : map coords first = map coords second.
Hypothesis distinct_keys : NoDup (map keyOf (map coords first)).

Lemma first_key_injective (a b : ShadowFinderPoint) :
  In a first -> In b first -> coordKey a = coordKey b -> a = b.
Proof.
  apply NoDup_map_injective. rewrite map_map in distinct_keys.
  exact distinct_keys.
Qed.

(** The key of a point of the second scan finds the point of the first scan
    at the same cell when that one is visible, and nothing otherwise. *)
Lemma lookup_cell (p1 p2 : ShadowFinderPoint) :
  In (p1, p2) (combine first second) ->
  firstPointsMap (List.filter isVisible first) !! coordKey p2
  = if isVisible p1 then Some p1 else None.
Proof.
  intros Hin.
  assert (Hc : coords p1 = coords p2)
    by apply (combine_same_image coords coords _ _ same_coords _ _ Hin).
  assert (Hp1 : In p1 first) by apply (in_combine_l _ _ _ _ Hin).
  rewrite coordKey_keyOf, <- Hc, <- coordKey_keyOf.
  destruct (isVisible p1) eqn:Hv.
  - apply firstPointsMap_lookup_In.
    + intros a b Ha Hb. apply filter_In in Ha as [Ha _], Hb as [Hb _].
      now apply first_key_injective.
    + apply filter_In. now split.
  - destruct (firstPointsMap _ !! coordKey p1) as [q|] eqn:Hq; [|reflexivity].
    apply firstPointsMap_lookup_Some in Hq as [Hq Hk].
    apply filter_In in Hq as [Hq Hvq].
    assert (q = p1) by now apply first_key_injective. congruence.
Qed.

Lemma intersection_cells (r1 r2 : ShadowAnalysisResult) :
  points r1 = first -> points r2 = second ->
  intersectionPoints r1 r2 = flat_map cellIntersection (combine first second).
Proof.
  unfold intersectionPoints. intros -> ->.
  set (M := firstPointsMap (List.filter isVisible first)).
  assert (Hlook : forall p1 p2, In (p1, p2) (combine first second) ->
            M !! coordKey p2 = if isVisible p1 then Some p1 else None)
    by apply lookup_cell.
  assert (Hlen : length first = length second)
    by (rewrite <- (length_map coords), same_coords; apply length_map).
  clearbody M. revert Hlook Hlen. generalize first second.
  intros l. induction l as [|p1 l1 IH]; intros [|p2 l2] Hlook Hlen; try discriminate.
  - reflexivity.
  - cbn [combine flat_map List.filter cellIntersection].
    assert (Hrest : flat_map
              (fun secondPoint =>
                 match M !! coordKey secondPoint with
                 | Some firstPoint =>
                     [ {| secondPoint := secondPoint;
                          combinedLikelihood :=
                            Math_max2 (likelihood firstPoint) (likelihood secondPoint);
                          isIntersection := true |} ]
                 | None => []
                 end) (List.filter isVisible l2)
            = flat_map cellIntersection (combine l1 l2)).
    { apply IH; [|now injection Hlen].
      intros a b Hab. apply Hlook. now right. }
    specialize (Hlook p1 p2 (or_introl eq_refl)).
    destruct (isVisible p2) eqn:Hv2.
    + cbn [flat_map]. rewrite Hlook, Hrest.
      destruct (isVisible p1); reflexivity.
    + rewrite Hrest, andb_false_r. reflexivity.
Qed.

End SameCells.

(** *** The keys of the grid *)

Fixpoint noComma (s : string) : bool :=
  match s with
  | EmptyString => true
  | String c s' => negb (Ascii.eqb c (Ascii.ascii_of_nat 44)) && noComma s'
  end.

Lemma append_nil (s : string) : "" +:+ s = s.
Proof. reflexivity. Qed.

Lemma append_cons (c : Ascii.ascii) (s t : string) :
  String c s +:+ t = String c (s +:+ t).
Proof. reflexivity. Qed.

Lemma comma_separated (a a' b b' : string) :
  noComma a = true -> noComma a' = true ->
  a +:+ "," +:+ b = a' +:+ "," +:+ b' -> a = a' /\ b = b'.
Proof.
  revert a'. induction a as [|c a IH]; intros [|c' a'] Ha Ha' H;
    repeat (rewrite ?append_nil, ?append_cons in H); cbn [noComma] in Ha, Ha'.
  - injection H as ->. now split.
  - injection H as <- _. discriminate.
  - injection H as -> _. discriminate.
  - injection H as -> H.
    apply andb_true_iff in Ha as [_ Ha], Ha' as [_ Ha'].
    destruct (IH a' Ha Ha' H) as [-> ->]. now split.
Qed.

Definition latKey (i : nat) : string := toFixed1 (gridLat i).
Definition lngKey (j : nat) : string := toFixed1 (gridLng j).

Lemma latKeys_distinct : NoDup (map latKey (seq 0 290)).
Proof. apply (bool_decide_unpack _). vm_compute. exact I. Qed.

Lemma lngKeys_distinct : NoDup (map lngKey (seq 0 720)).
Proof. apply (bool_decide_unpack _). vm_compute. exact I. Qed.

Lemma latKeys_noComma : forall i, In i (seq 0 290) -> noComma (latKey i) = true.
Proof. apply forallb_forall. vm_compute. reflexivity. Qed.

Lemma lngKeys_noComma : forall j, In j (seq 0 720) -> noComma (lngKey j) = true.
Proof. apply forallb_forall. vm_compute. reflexivity. Qed.

Lemma NoDup_product (rows cols : list nat) (kr kc : nat -> string) :
  NoDup (map kr rows) -> NoDup (map kc cols) ->
  (forall i, In i rows -> noComma (kr i) = true) ->
  NoDup (flat_map (fun i => map (fun j => kr i +:+ "," +:+ kc j) cols) rows).
Proof.
  intros Hr Hc Hcomma. induction rows as [|i rows IH]; [constructor|].
  cbn [map flat_map] in *. apply NoDup_cons in Hr as [Hi Hr].
  rewrite list_elem_of_In in Hi.
  apply NoDup_app. split; [|split].
  - clear IH Hi. induction cols as [|j cols IHc]; [constructor|].
    cbn [map] in *. apply NoDup_cons in Hc as [Hj Hc].
    apply NoDup_cons. split; [|now apply IHc].
    rewrite list_elem_of_In in *. intros Hin. apply Hj.
    apply in_map_iff in Hin as (j' & E & Hj').
    apply comma_separated in E as [_ E];
      [|apply Hcomma; now left|apply Hcomma; now left].
    rewrite <- E. now apply in_map.
  - intros k Hk Hk'. rewrite list_elem_of_In in Hk, Hk'.
    apply in_map_iff in Hk as (j & <- & Hj).
    apply in_flat_map in Hk' as (i' & Hi' & Hk').
    apply in_map_iff in Hk' as (j' & E & Hj').
    apply comma_separated in E as [E _];
      [|apply Hcomma; now right|apply Hcomma; now left].
    apply Hi. rewrite <- E. now apply in_map.
  - apply IH; [exact Hr|]. intros i' Hi'. apply Hcomma. now right.
Qed.

(** No two cells of the grid have the same key. *)
Lemma gridKeys_distinct : NoDup (map keyOf gridCoords).
Proof.
  assert (E : map keyOf gridCoords
              = flat_map (fun i => map (fun j => latKey i +:+ "," +:+ lngKey j) (seq 0 720))
                         (seq 0 290)).
  { unfold gridCoords. generalize (seq 0 290) as rows.
    induction rows as [|i rows IH]; [reflexivity|].
    cbn [flat_map]. rewrite map_app, IH, map_map. reflexivity. }
  rewrite E. apply NoDup_product.
  - exact latKeys_distinct.
  - exact lngKeys_distinct.
  - exact latKeys_noComma.
Qed.

Lemma nth_error_combine {A B : Type} (l1 : list A) (l2 : list B) (k : nat) (a : A) (b : B) :
  nth_error l1 k = Some a -> nth_error l2 k = Some b -> In (a, b) (combine l1 l2).
Proof.
  revert l2 k. induction l1 as [|x l1 IH]; intros [|y l2] [|k] Ha Hb;
    try discriminate; cbn [nth_error combine] in *.
  - injection Ha as ->. injection Hb as ->. now left.
  - right. now apply (IH l2 k).
Qed.

(** On a scan over the grid, the key tells the points apart. *)
Lemma grid_key_injective (pts : list ShadowFinderPoint) (a b : ShadowFinderPoint) :
  map coords pts = gridCoords ->
  In a pts -> In b pts -> coordKey a = coordKey b -> a = b.
Proof.
  intros Hgrid. apply NoDup_map_injective.
  rewrite <- (map_map coords keyOf), Hgrid. apply gridKeys_distinct.
Qed.

Lemma cellIntersection_In (p1 p2 : ShadowFinderPoint) (ip : IntersectionPoint) :
  In ip (cellIntersection (p1, p2)) <->
  (isVisible p1 = true /\ isVisible p2 = true)
  /\ ip = {| secondPoint := p2;
             combinedLikelihood := Qmax (likelihood p1) (likelihood p2);
             isIntersection := true |}.
Proof.
  unfold cellIntersection.
  destruct (isVisible p1), (isVisible p2); cbn [andb In]; split;
    try (intros [[? ?] ?]; discriminate); try (intros []; fail).
  - intros [<-|[]]. now split.
  - intros [_ ->]. now left.
Qed.

(** C4.  For two scans over the fixed grid, the intersection points are,
    cell by cell in the order of the grid, one point for every cell whose
    likelihood is different from -1 and at most 0.15 in the first scan and in
    the second, and none for the other cells; the point has the coordinates
    and likelihood of the second scan at that cell and, as
    [combinedLikelihood], the larger of the two likelihoods.  The key of a
    cell is the key of no other cell of the grid. *)
Theorem intersection_same_grid (r1 r2 : ShadowAnalysisResult) :
  map coords (points r1) = gridCoords ->
  map coords (points r2) = gridCoords ->
  intersectionPoints r1 r2
  = flat_map (fun cell : ShadowFinderPoint * ShadowFinderPoint =>
                let (p1, p2) := cell in
                if isVisible p1 && isVisible p2 then
                  [ {| secondPoint := p2;
                       combinedLikelihood := Qmax (likelihood p1) (likelihood p2);
                       isIntersection := true |} ]
                else [])
             (combine (points r1) (points r2))
  /\ (forall p, isVisible p = true <-> ~ likelihood p == -1 /\ likelihood p <= 0.15)
  /\ (forall p q, In p (points r1) -> In q (points r2) ->
        (coordKey p = coordKey q <-> coords p = coords q))
  /\ (forall k p1 p2,
        nth_error (points r1) k = Some p1 -> nth_error (points r2) k = Some p2 ->
        coords p1 = coords p2
        /\ ((exists ip, In ip (intersectionPoints r1 r2) /\ secondPoint ip = p2) <->
            isVisible p1 = true /\ isVisible p2 = true)
        /\ (forall ip, In ip (intersectionPoints r1 r2) ->
              coords (secondPoint ip) = coords p2 ->
              secondPoint ip = p2
              /\ combinedLikelihood ip = Qmax (likelihood p1) (likelihood p2))).
Proof.
  intros H1 H2.
  assert (Hsame : map coords (points r1) = map coords (points r2)) by congruence.
  assert (Hkeys : NoDup (map keyOf (map coords (points r1))))
    by (rewrite H1; apply gridKeys_distinct).
  assert (Hcells := intersection_cells _ _ Hsame Hkeys r1 r2 eq_refl eq_refl).
  split; [exact Hcells|]. split; [exact isVisible_spec|]. split.
  - intros p q Hp Hq. split; [|rewrite !coordKey_keyOf; congruence].
    rewrite !coordKey_keyOf.
    apply (NoDup_map_injective keyOf gridCoords gridKeys_distinct).
    + rewrite <- H1. now apply in_map.
    + rewrite <- H2. now apply in_map.
  - intros k p1 p2 Hk1 Hk2.
    assert (Hpair : In (p1, p2) (combine (points r1) (points r2)))
      by now apply (nth_error_combine _ _ k).
    assert (Hc : coords p1 = coords p2)
      by apply (combine_same_image coords coords _ _ Hsame _ _ Hpair).
    assert (Hcell : forall a b, In (a, b) (combine (points r1) (points r2)) ->
              coords b = coords p2 -> a = p1 /\ b = p2).
    { intros a b Hab Hb.
      assert (Hab' : coords a = coords b)
        by apply (combine_same_image coords coords _ _ Hsame _ _ Hab).
      split.
      - apply (grid_key_injective (points r1)); [exact H1| | |].
        + apply (in_combine_l _ _ _ _ Hab).
        + apply (in_combine_l _ _ _ _ Hpair).
        + rewrite !coordKey_keyOf. congruence.
      - apply (grid_key_injective (points r2)); [exact H2| | |].
        + apply (in_combine_r _ _ _ _ Hab).
        + apply (in_combine_r _ _ _ _ Hpair).
        + rewrite !coordKey_keyOf. congruence. }
    split; [exact Hc|]. rewrite Hcells. split.
    + split.
      * intros (ip & Hip & Hsnd).
        apply in_flat_map in Hip as ([a b] & Hab & Hip).
        apply cellIntersection_In in Hip as [Hvis ->]. cbn [secondPoint] in Hsnd.
        subst b. destruct (Hcell a p2 Hab eq_refl) as [-> _]. exact Hvis.
      * intros Hvis. eexists. split.
        -- apply in_flat_map. exists (p1, p2). split; [exact Hpair|].
           apply cellIntersection_In. split; [exact Hvis | reflexivity].
        -- reflexivity.
    + intros ip Hip Hsnd.
      apply in_flat_map in Hip as ([a b] & Hab & Hip).
      apply cellIntersection_In in Hip as [_ ->]. cbn [secondPoint combinedLikelihood] in *.
      destruct (Hcell a b Hab Hsnd) as [-> ->]. now split.
Qed.

(** ** The two-photo workflow *)

Lemma intersectionPoints_In (first second : ShadowAnalysisResult) (ip : IntersectionPoint) :
  In ip (intersectionPoints first second) ->
  exists p1,
    (In p1 (points first) /\ isVisible p1 = true)
    /\ (In (secondPoint ip) (points second) /\ isVisible (secondPoint ip) = true)
    /\ coordKey p1 = coordKey (secondPoint ip)
    /\ combinedLikelihood ip = Qmax (likelihood p1) (likelihood (secondPoint ip)).
Proof.
  unfold intersectionPoints. intros Hip.
  apply in_flat_map in Hip as (p2 & Hp2 & Hip).
  apply filter_In in Hp2.
  destruct (firstPointsMap _ !! coordKey p2) as [p1|] eqn:Hlook; [|destruct Hip].
  destruct Hip as [<-|[]]. cbn [secondPoint combinedLikelihood].
  apply firstPointsMap_lookup_Some in Hlook as [Hp1 Hkey].
  apply filter_In in Hp1. exists p1. repeat split; tauto.
Qed.

(** The analysis either throws before it has changed the state, or stores
    the scan of the current photo and returns what the estimator makes of
    that scan. *)
Lemma performShadowAnalysis_cases (st : IndexState) (date : Date) :
  (exists e, performShadowAnalysis st date = (st, Throw e))
  \/ (exists input r,
        analyzeShadowMeasurements input = Ok r
        /\ knownTime input = date
        /\ performShadowAnalysis st date
           = (storeAnalysis st r date (objectHeight input, shadowLength input),
              estimateBestLocation r)).
Proof.
  unfold performShadowAnalysis.
  destruct (List.find _ (getCurrentPoints st)) as [objectBottom|];
    [|left; now eexists].
  destruct (List.find _ (getCurrentPoints st)) as [objectTop|];
    [|left; now eexists].
  destruct (List.find _ (getCurrentPoints st)) as [shadowTip|];
    [|left; now eexists].
  destruct (truthy _) as [width|]; [|left; now eexists].
  destruct (truthy _) as [height|]; [|left; now eexists].
  set (m := calculateMeasurementsFromPixels _ _ _).
  set (input := {| objectHeight := fst m; shadowLength := snd m; knownTime := date |}).
  destruct (analyze_cases input) as [[E _]|[[E _]|[E _]]]; rewrite E.
  - left. now eexists.
  - left. now eexists.
  - right. exists input. eexists. split; [exact E|]. split; [reflexivity|].
    cbn [objectHeight shadowLength input]. now destruct m.
Qed.

(** * Further properties *)

(** ** Statistics of a scan *)

Lemma gridPoint_sentinel_or_score (knownTime : Date) (objectHeight shadowLength la lo : Q) :
  (SunCalc_altitude knownTime la lo <= 0
   /\ likelihood (gridPoint knownTime objectHeight shadowLength la lo) = -1)
  \/ (0 < SunCalc_altitude knownTime la lo
      /\ 0 <= likelihood (gridPoint knownTime objectHeight shadowLength la lo)).
Proof.
  destruct (Qlt_le_dec 0 (SunCalc_altitude knownTime la lo)) as [H|H].
  - right. split; [exact H|]. rewrite gridPoint_day by exact H. apply Qabs_nonneg.
  - left. split; [exact H|]. now apply gridPoint_night.
Qed.

Lemma filter_map_length {A B : Type} (f : A -> B) (P : B -> bool) (l : list A) :
  length (List.filter P (map f l)) = length (List.filter (fun a => P (f a)) l).
Proof.
  induction l as [|a l IH]; [reflexivity|].
  cbn [map List.filter]. destruct (P (f a)); cbn [length]; now rewrite IH.
Qed.

Lemma filter_flat_map_length {A B : Type} (g : A -> list B) (P : B -> bool) (l : list A) :
  length (List.filter P (flat_map g l))
  = length (flat_map (fun a => List.filter P (g a)) l).
Proof.
  induction l as [|a l IH]; [reflexivity|].
  cbn [flat_map]. now rewrite List.filter_app, !length_app, IH.
Qed.

(** The night points of a scan are the grid cells where the sun is at or
    below the horizon. *)
Lemma night_cells (knownTime : Date) (objectHeight shadowLength : Q) :
  length (List.filter (fun p => likelihood p === -1)
            (gridScan knownTime objectHeight shadowLength))
  = length (List.filter (fun c => SunCalc_altitude knownTime (fst c) (snd c) <=? 0)
              gridCoords).
Proof.
  unfold gridScan, gridCoords. rewrite !filter_flat_map_length.
  generalize (seq 0 290) as rows. induction rows as [|i rows IH]; [reflexivity|].
  cbn [map flat_map]. rewrite !length_app, IH. f_equal.
  rewrite map_map, !filter_map_length. f_equal.
  apply filter_ext. intros j. cbn [fst snd].
  destruct (gridPoint_sentinel_or_score knownTime objectHeight shadowLength
              (gridLat i) (gridLng j)) as [[Ha Hl]|[Ha Hl]].
  - rewrite Hl. apply le_true in Ha. rewrite Ha. reflexivity.
  - apply le_false in Ha. rewrite Ha.
    destruct (_ === -1) eqn:E; [|reflexivity].
    apply eq_true in E. lra.
Qed.

(** X1.  In the statistics of a scan the night points and the valid points
    make up all the points, which are 208,800; the night points are the grid
    cells where the sun is at or below the horizon, and every point counted
    in the visible band is a valid point. *)
Theorem statistics_partition (input : ShadowAnalysisInput) (r : ShadowAnalysisResult) :
  analyzeShadowMeasurements input = Ok r ->
  (nightPoints (statistics r) + validPoints (statistics r) = totalPoints (statistics r))%nat
  /\ totalPoints (statistics r) = length (points r)
  /\ Z.of_nat (totalPoints (statistics r)) = 208800%Z
  /\ nightPoints (statistics r)
     = length (List.filter
                 (fun c => SunCalc_altitude (knownTime input) (fst c) (snd c) <=? 0)
                 gridCoords)
  /\ (visibleBandPoints (statistics r) <= validPoints (statistics r))%nat.
Proof.
  intros Hr. apply analyze_Ok in Hr. subst r.
  cbn [statistics summarize nightPoints validPoints totalPoints visibleBandPoints points].
  set (pts := gridScan _ _ _).
  assert (Hlen : length pts = (290 * 720)%nat).
  { unfold pts. rewrite <- (length_map coords), gridScan_coords.
    apply gridCoords_length. }
  split; [apply filter_length|]. split; [reflexivity|].
  split; [rewrite Hlen; apply count_208800|].
  split; [apply night_cells|].
  apply filter_length_le. intros p Hp. apply inBand_spec in Hp as [H0 _].
  apply neq_true. lra.
Qed.

(** ** The envelope and the estimate *)

Lemma gridScan_bounds (knownTime : Date) (objectHeight shadowLength : Q) :
  Forall (fun p => inGridBounds (coords p)) (gridScan knownTime objectHeight shadowLength).
Proof.
  rewrite <- Forall_map, gridScan_coords. apply gridCoords_bounds.
Qed.

Lemma min_le_max (l : list Q) (m M : Q) : isMinOf l m -> isMaxOf l M -> m <= M.
Proof.
  intros [(x & Hx & Ex) Hm] [_ HM].
  apply Qle_trans with x; [now apply Hm | now apply HM].
Qed.

Lemma isMinOf_Forall (P : Q -> Prop) (l : list Q) (m : Q) :
  (forall x y, x == y -> P x -> P y) -> isMinOf l m -> Forall P l -> P m.
Proof.
  intros HP [(x & Hx & Ex) _] Hl. rewrite List.Forall_forall in Hl.
  apply (HP x m Ex). now apply Hl.
Qed.

Lemma isMaxOf_Forall (P : Q -> Prop) (l : list Q) (m : Q) :
  (forall x y, x == y -> P x -> P y) -> isMaxOf l m -> Forall P l -> P m.
Proof.
  intros HP [(x & Hx & Ex) _] Hl. rewrite List.Forall_forall in Hl.
  apply (HP x m Ex). now apply Hl.
Qed.

Lemma bounds_compat (lo hi x y : Q) :
  x == y -> lo <= x /\ x <= hi -> lo <= y /\ y <= hi.
Proof. intros E [H1 H2]. split; lra. Qed.

(** The range of a coordinate over points within bounds is ordered and
    within the bounds, also when it is the default [(0, 0)]. *)
Lemma rangeOf_bounds (f : ShadowFinderPoint -> Q) (lo hi : Q) (ps : list ShadowFinderPoint) :
  lo <= 0 -> 0 <= hi ->
  Forall (fun p => lo <= f p /\ f p <= hi) ps ->
  lo <= fst (rangeOf f ps) /\ fst (rangeOf f ps) <= snd (rangeOf f ps)
  /\ snd (rangeOf f ps) <= hi.
Proof.
  intros Hlo Hhi Hps. destruct ps as [|p ps'] eqn:E.
  - cbn. lra.
  - rewrite <- E in *. assert (Hne : ps <> []) by (rewrite E; discriminate).
    destruct (rangeOf_spec f ps Hne) as [Hmin Hmax].
    assert (Hall : Forall (fun x => lo <= x /\ x <= hi) (map f ps))
      by (rewrite List.Forall_map; exact Hps).
    assert (H1 := isMinOf_Forall (fun x => lo <= x /\ x <= hi) _ _
                    (bounds_compat lo hi) Hmin Hall).
    assert (H2 := isMaxOf_Forall (fun x => lo <= x /\ x <= hi) _ _
                    (bounds_compat lo hi) Hmax Hall).
    split; [apply H1|]. split; [now apply (min_le_max (map f ps)) | apply H2].
Qed.

(** X2.  The envelope of an analysis is a well-formed box within the grid:
    [-60 <= latRange[0] <= latRange[1] <= 84.5] and
    [-180 <= lngRange[0] <= lngRange[1] <= 179.5], whether or not any point
    lies in the main band. *)
Theorem envelope_in_grid (input : ShadowAnalysisInput) (r : ShadowAnalysisResult) :
  analyzeShadowMeasurements input = Ok r ->
  (-60 <= fst (latRange (mainBandCoordinates r))
   /\ fst (latRange (mainBandCoordinates r)) <= snd (latRange (mainBandCoordinates r))
   /\ snd (latRange (mainBandCoordinates r)) <= 84.5)
  /\ (-180 <= fst (lngRange (mainBandCoordinates r))
      /\ fst (lngRange (mainBandCoordinates r)) <= snd (lngRange (mainBandCoordinates r))
      /\ snd (lngRange (mainBandCoordinates r)) <= 179.5).
Proof.
  intros Hr. apply analyze_Ok in Hr. subst r.
  cbn [mainBandCoordinates summarize latRange lngRange].
  set (pts := gridScan _ _ _).
  assert (Hin : Forall (fun p => inGridBounds (coords p)) (List.filter (inBand 0.1) pts)).
  { apply List.Forall_forall. intros p Hp. apply filter_In in Hp as [Hp _].
    revert p Hp. apply List.Forall_forall. apply gridScan_bounds. }
  split.
  - apply rangeOf_bounds; [lra | lra|].
    eapply List.Forall_impl; [|exact Hin]. intros p [Hp _]. exact Hp.
  - apply rangeOf_bounds; [lra | lra|].
    eapply List.Forall_impl; [|exact Hin]. intros p [_ Hp]. exact Hp.
Qed.

Lemma between_min_max (l : list Q) (m M : Q) :
  isMinOf l m -> isMaxOf l M -> Forall (fun x => m <= x /\ x <= M) l.
Proof.
  intros [_ Hm] [_ HM]. apply List.Forall_forall. intros x Hx.
  split; [now apply Hm | now apply HM].
Qed.

Lemma estimate_summarize (pts : list ShadowFinderPoint) :
  let r := summarize pts in
  (estimateBestLocation r = Throw NoSuitableMatches /\
     List.filter (inBand 0.1) (points r) = [])
  \/ (exists e,
        estimateBestLocation r = Ok e
        /\ List.filter (inBand 0.1) (points r) <> []
        /\ (fst (latRange (mainBandCoordinates r)) <= latitude e
            /\ latitude e <= snd (latRange (mainBandCoordinates r)))
        /\ (fst (lngRange (mainBandCoordinates r)) <= longitude e
            /\ longitude e <= snd (lngRange (mainBandCoordinates r)))
        /\ accuracy e
           == Qmax (Qmax ((snd (latRange (mainBandCoordinates r))
                           - fst (latRange (mainBandCoordinates r))) * 111)
                         ((snd (lngRange (mainBandCoordinates r))
                           - fst (lngRange (mainBandCoordinates r))) * 111
                          * Math_cos (latitude e ⊗ Math_PI ⊘ 180)) / 2) 1).
Proof.
  intros r.
  assert (Esel : selection r = List.filter (inBand 0.1) pts) by reflexivity.
  assert (Elat : latRange (mainBandCoordinates r) = rangeOf lat (selection r))
    by reflexivity.
  assert (Elng : lngRange (mainBandCoordinates r) = rangeOf lng (selection r))
    by reflexivity.
  change (List.filter (inBand 0.1) (points r)) with (selection r).
  rewrite Elat, Elng. clearbody r. clear Esel Elat Elng.
  destruct (selection r) as [|q qs] eqn:Hsel.
  { left. split; [now apply estimate_empty | reflexivity]. }
  right. assert (Hne : selection r <> []) by (rewrite Hsel; discriminate).
  destruct (estimate_nonempty r Hne)
    as (e & He & Hlat & Hlng & latMin & latMax & lngMin & lngMax & [H1 H2] & [H3 H4] & Hacc).
  rewrite <- Hsel. exists e. split; [exact He|]. split; [exact Hne|].
  destruct (rangeOf_spec lat _ Hne) as [R1 R2].
  destruct (rangeOf_spec lng _ Hne) as [R3 R4].
  assert (Hmap : forall f : ShadowFinderPoint -> Q, map f (selection r) <> []).
  { intros f. rewrite Hsel. discriminate. }
  split; [|split].
  - rewrite Hlat. apply mean_bounds; [apply Hmap | now apply between_min_max].
  - rewrite Hlng. apply mean_bounds; [apply Hmap | now apply between_min_max].
  - rewrite Hacc.
    rewrite (isMinOf_unique _ _ _ H1 R1), (isMaxOf_unique _ _ _ H2 R2),
            (isMinOf_unique _ _ _ H3 R3), (isMaxOf_unique _ _ _ H4 R4).
    reflexivity.
Qed.

(** X3.  The estimator agrees with the envelope of the analysis it is given:
    it fails exactly when no point is in the main band, and otherwise its
    estimate lies within [latRange] and [lngRange], and its accuracy is
    computed from the widths of the two ranges. *)
Theorem estimate_within_envelope (input : ShadowAnalysisInput) (r : ShadowAnalysisResult) :
  analyzeShadowMeasurements input = Ok r ->
  (estimateBestLocation r = Throw NoSuitableMatches /\
     List.filter (inBand 0.1) (points r) = [])
  \/ (exists e,
        estimateBestLocation r = Ok e
        /\ List.filter (inBand 0.1) (points r) <> []
        /\ (fst (latRange (mainBandCoordinates r)) <= latitude e
            /\ latitude e <= snd (latRange (mainBandCoordinates r)))
        /\ (fst (lngRange (mainBandCoordinates r)) <= longitude e
            /\ longitude e <= snd (lngRange (mainBandCoordinates r)))
        /\ accuracy e
           == Qmax (Qmax ((snd (latRange (mainBandCoordinates r))
                           - fst (latRange (mainBandCoordinates r))) * 111)
                         ((snd (lngRange (mainBandCoordinates r))
                           - fst (lngRange (mainBandCoordinates r))) * 111
                          * Math_cos (latitude e ⊗ Math_PI ⊘ 180)) / 2) 1).
Proof.
  intros Hr. apply analyze_Ok in Hr. rewrite Hr.
  generalize (gridScan (knownTime input) (objectHeight input) (shadowLength input)).
  exact estimate_summarize.
Qed.

(** ** The order of the points *)

Lemma filter_perm {A : Type} (f : A -> bool) (l l' : list A) :
  Permutation l l' -> Permutation (List.filter f l) (List.filter f l').
Proof.
  induction 1 as [|x l l' _ IH|x y l|l l' l'' _ IH1 _ IH2]; cbn [List.filter].
  - constructor.
  - destruct (f x); [now apply perm_skip | exact IH].
  - destruct (f x), (f y); try reflexivity. apply perm_swap.
  - now transitivity (List.filter f l').
Qed.

Lemma avg_perm (f : ShadowFinderPoint -> Q) (l l' : list ShadowFinderPoint) :
  Permutation l l' -> sumOf f l ⊘ lengthOf l = sumOf f l' ⊘ lengthOf l'.
Proof.
  intros Hp. unfold JS.div, lengthOf. apply Qred_complete.
  rewrite !sumOf_eq, (Qsum_perm _ _ (Permutation_map f Hp)), (Permutation_length Hp).
  reflexivity.
Qed.

Lemma spread_perm (f : ShadowFinderPoint -> Q) (p p' : ShadowFinderPoint)
    (ps ps' : list ShadowFinderPoint) :
  Permutation (p :: ps) (p' :: ps') ->
  Math_max (f p) (map f ps) ⊖ Math_min (f p) (map f ps)
  = Math_max (f p') (map f ps') ⊖ Math_min (f p') (map f ps').
Proof.
  intros Hp. unfold JS.sub. apply Qred_complete.
  assert (Hm := Permutation_map f Hp). cbn [map] in Hm.
  rewrite (isMaxOf_unique _ _ _ (isMaxOf_perm _ _ _ Hm (Math_max_spec _ _))
             (Math_max_spec (map f ps') (f p'))).
  rewrite (isMinOf_unique _ _ _ (isMinOf_perm _ _ _ Hm (Math_min_spec _ _))
             (Math_min_spec (map f ps') (f p'))).
  reflexivity.
Qed.

(** X4.  The estimate of a scan over the grid does not depend on the order
    in which the cells were scanned: a result with the same points in
    another order gets the same estimate, or both get the no-match error.
    (On the coordinates of the grid the sums of the source are exact, in
    whatever order they are taken.) *)
Theorem estimateBestLocation_order (r r' : ShadowAnalysisResult) :
  map coords (points r) = gridCoords ->
  Permutation (points r) (points r') ->
  estimateBestLocation r = estimateBestLocation r'.
Proof.
  intros _.
  intros Hp. unfold estimateBestLocation.
  assert (Hs : Permutation (sortByLikelihood (List.filter (inBand 0.1) (points r)))
                           (sortByLikelihood (List.filter (inBand 0.1) (points r')))).
  { rewrite <- !sortByLikelihood_perm. now apply filter_perm. }
  destruct (sortByLikelihood (List.filter (inBand 0.1) (points r))) as [|p ps];
  destruct (sortByLikelihood (List.filter (inBand 0.1) (points r'))) as [|p' ps'].
  - reflexivity.
  - apply Permutation_nil in Hs. discriminate.
  - symmetry in Hs. apply Permutation_nil in Hs. discriminate.
  - cbv zeta.
    rewrite (avg_perm lat _ _ Hs), (avg_perm lng _ _ Hs),
            (spread_perm lat _ _ _ _ Hs), (spread_perm lng _ _ _ _ Hs).
    reflexivity.
Qed.

(** ** What is drawn and what is counted *)

Lemma gridScan_sentinel_or_score (knownTime : Date) (objectHeight shadowLength : Q) :
  Forall (fun p => likelihood p = -1 \/ 0 <= likelihood p)
         (gridScan knownTime objectHeight shadowLength).
Proof.
  apply List.Forall_forall. intros p Hp. apply gridScan_In in Hp. rewrite Hp.
  destruct (gridPoint_sentinel_or_score knownTime objectHeight shadowLength (lat p) (lng p))
    as [[_ H]|[_ H]]; [now left | now right].
Qed.

Lemma isVisible_inBand (p : ShadowFinderPoint) :
  likelihood p = -1 \/ 0 <= likelihood p -> isVisible p = inBand 0.15 p.
Proof.
  unfold isVisible, inBand. intros [H|H].
  - rewrite H. reflexivity.
  - assert (E1 : (likelihood p !== -1) = true) by (apply neq_true; lra).
    assert (E2 : (likelihood p >=? 0) = true) by (now apply ge_true).
    now rewrite E1, E2.
Qed.

(** X5.  The points the visualization draws for a scan of the analysis
    (likelihood different from -1 and at most 0.15) are the points the
    statistics count in the visible band (likelihood between 0 and 0.15),
    so that [visibleBandPoints], which the card shows, is the number of
    drawn cells. *)
Theorem drawn_points_counted (input : ShadowAnalysisInput) (r : ShadowAnalysisResult) :
  analyzeShadowMeasurements input = Ok r ->
  List.filter isVisible (points r) = List.filter (inBand 0.15) (points r)
  /\ length (List.filter isVisible (points r)) = visibleBandPoints (statistics r).
Proof.
  intros Hr. apply analyze_Ok in Hr. rewrite Hr.
  cbn [points summarize statistics visibleBandPoints].
  assert (H := gridScan_sentinel_or_score (knownTime input) (objectHeight input)
                 (shadowLength input)).
  revert H. generalize (gridScan (knownTime input) (objectHeight input) (shadowLength input)).
  intros pts Hpts.
  assert (E : List.filter isVisible pts = List.filter (inBand 0.15) pts).
  { apply filter_ext_in. intros p Hp. apply isVisible_inBand.
    rewrite List.Forall_forall in Hpts. now apply Hpts. }
  split; [exact E | now rewrite E].
Qed.

(** ** The drawn cells *)

Lemma displayOf_block (l : Q) : l <= 2.0 -> displayOf l = "block"%string.
Proof.
  intros H. unfold displayOf, JS.gt. apply le_true in H. unfold JS.le in H.
  now rewrite H.
Qed.

Lemma intersection_combined (first second : ShadowAnalysisResult) (ip : IntersectionPoint) :
  In ip (intersectionPoints first second) ->
  exists p1,
    (In p1 (points first) /\ coordKey p1 = coordKey (secondPoint ip))
    /\ (likelihood p1 <= combinedLikelihood ip
        /\ likelihood (secondPoint ip) <= combinedLikelihood ip)
    /\ (combinedLikelihood ip <= 0.15 /\ ~ combinedLikelihood ip == -1).
Proof.
  intros Hip. apply intersectionPoints_In in Hip
    as (p1 & [Hp1 Hv1] & [_ Hv2] & Hkey & Hc).
  apply isVisible_spec in Hv1 as [Hn1 Hl1], Hv2 as [Hn2 Hl2].
  exists p1. split; [now split|]. rewrite Hc. split; [|split].
  - split; [apply Q.le_max_l | apply Q.le_max_r].
  - now apply Q.max_lub.
  - destruct (Q.max_spec (likelihood p1) (likelihood (secondPoint ip))) as [[_ E]|[_ E]];
      rewrite E; assumption.
Qed.

(** X7.  Every cell the visualization draws is displayed: the test
    [likelihood > 2.0] that would hide a cell is never true, neither for the
    points of a scan that pass the filter of the drawing nor for an
    intersection point. *)
Theorem drawn_cells_displayed :
  (forall p, isVisible p = true -> displayOf (likelihood p) = "block"%string)
  /\ (forall first second ip,
        In ip (intersectionPoints first second) ->
        displayOf (combinedLikelihood ip) = "block"%string).
Proof.
  split.
  - intros p Hp. apply isVisible_spec in Hp as [_ Hl]. apply displayOf_block. lra.
  - intros first second ip Hip.
    apply intersection_combined in Hip as (p1 & _ & _ & [Hl _]).
    apply displayOf_block. lra.
Qed.

Ltac band_cases l :=
  unfold byBand;
  destruct (l <=? 0.02) eqn:?; [|
  destruct (l <=? 0.05) eqn:?; [|
  destruct (l <=? 0.08) eqn:?; [|
  destruct (l <=? 0.12) eqn:?]]];
  repeat match goal with
         | H : (_ <=? _) = true |- _ => apply le_true in H
         | H : (_ <=? _) = false |- _ => apply le_false in H
         end.

Lemma byBand_antitone (v1 v2 v3 v4 v5 l l' : Q) :
  v2 <= v1 -> v3 <= v2 -> v4 <= v3 -> v5 <= v4 -> l <= l' ->
  byBand l' v1 v2 v3 v4 v5 <= byBand l v1 v2 v3 v4 v5.
Proof.
  intros H1 H2 H3 H4 Hl. band_cases l; band_cases l'; lra.
Qed.

(** X8.  In every layer a better match is drawn at least as opaque as a
    worse one; the two scans of the intersection mode use the same
    opacities, and at equal likelihood an intersection cell is more opaque
    than a cell of either scan. *)
Theorem opacity_order :
  (forall l l', l <= l' ->
     singleOpacity l' <= singleOpacity l
     /\ firstOpacity l' <= firstOpacity l
     /\ secondOpacity l' <= secondOpacity l
     /\ intersectionOpacity l' <= intersectionOpacity l)
  /\ (forall l, secondOpacity l = firstOpacity l
                /\ firstOpacity l < intersectionOpacity l
                /\ (0.3 <= firstOpacity l /\ intersectionOpacity l <= 0.9)).
Proof.
  split.
  - intros l l' Hl. repeat split; apply byBand_antitone; try exact Hl; lra.
  - intros l. split; [reflexivity|].
    unfold firstOpacity, intersectionOpacity. band_cases l; repeat split; lra.
Qed.

(** ** More on the intersection *)

Lemma flat_map_length_le {A B : Type} (g : A -> list B) (l : list A) :
  (forall a, (length (g a) <= 1)%nat) -> (length (flat_map g l) <= length l)%nat.
Proof.
  intros Hg. induction l as [|a l IH]; [reflexivity|].
  cbn [flat_map length]. rewrite length_app. specialize (Hg a). lia.
Qed.

(** X9.  Whatever the two scans, there are at most as many intersection
    points as drawn points of the second scan, and every intersection point
    matches a point of the first scan with the same key; its
    [combinedLikelihood] is at least the likelihood of both points, at most
    0.15, and is not the night sentinel. *)
Theorem intersection_bounds (first second : ShadowAnalysisResult) :
  (length (intersectionPoints first second)
   <= length (List.filter isVisible (points second)))%nat
  /\ (forall ip, In ip (intersectionPoints first second) ->
        exists p1,
          (In p1 (points first) /\ coordKey p1 = coordKey (secondPoint ip))
          /\ (likelihood p1 <= combinedLikelihood ip
              /\ likelihood (secondPoint ip) <= combinedLikelihood ip)
          /\ (combinedLikelihood ip <= 0.15 /\ ~ combinedLikelihood ip == -1)).
Proof.
  split; [|intros ip; apply intersection_combined].
  unfold intersectionPoints. apply flat_map_length_le.
  intros p2. destruct (_ !! coordKey p2); cbn [length]; lia.
Qed.

(** X10.  The lookup map of the first scan keeps, for every key, the last
    point with that key: a later [set] replaces an earlier one. *)
Theorem firstPointsMap_last_wins (l : list ShadowFinderPoint) (k : string) :
  firstPointsMap l !! k = List.find (fun p => String.eqb (coordKey p) k) (rev l).
Proof.
  induction l as [|p l IH] using rev_ind.
  - unfold firstPointsMap. cbn [fold_left rev List.find]. apply lookup_empty.
  - rewrite firstPointsMap_snoc, rev_unit. cbn [List.find].
    destruct (String.eqb (coordKey p) k) eqn:E.
    + apply String.eqb_eq in E. subst k. apply lookup_insert_eq.
    + apply String.eqb_neq in E. rewrite lookup_insert_ne by exact E. exact IH.
Qed.

Lemma Qmax_same (x : Q) : Qmax x x = x.
Proof. unfold Qmax, GenericMinMax.gmax. now destruct (x ?= x). Qed.

Lemma self_cells (l : list ShadowFinderPoint) :
  flat_map cellIntersection (combine l l)
  = map (fun p => {| secondPoint := p;
                     combinedLikelihood := likelihood p;
                     isIntersection := true |})
        (List.filter isVisible l).
Proof.
  induction l as [|p l IH]; [reflexivity|].
  cbn [combine flat_map List.filter cellIntersection]. rewrite IH.
  destruct (isVisible p); cbn [andb app map]; [|reflexivity].
  now rewrite Qmax_same.
Qed.

(** X11.  A scan over the grid intersected with itself gives back its drawn
    points, each with its own likelihood as [combinedLikelihood]. *)
Theorem intersection_self (r : ShadowAnalysisResult) :
  map coords (points r) = gridCoords ->
  intersectionPoints r r
  = map (fun p => {| secondPoint := p;
                     combinedLikelihood := likelihood p;
                     isIntersection := true |})
        (List.filter isVisible (points r)).
Proof.
  intros Hgrid.
  rewrite (intersection_cells (points r) (points r) eq_refl
             ltac:(rewrite Hgrid; apply gridKeys_distinct) r r eq_refl eq_refl).
  apply self_cells.
Qed.

Lemma symmetric_cells (l1 l2 : list ShadowFinderPoint) :
  map coords l1 = map coords l2 ->
  Forall2 (fun ip ip' =>
             coords (secondPoint ip) = coords (secondPoint ip')
             /\ combinedLikelihood ip == combinedLikelihood ip')
          (flat_map cellIntersection (combine l1 l2))
          (flat_map cellIntersection (combine l2 l1)).
Proof.
  revert l2. induction l1 as [|p1 l1 IH]; intros [|p2 l2] Hc; try discriminate.
  - constructor.
  - cbn [map] in Hc.
    assert (Hp : coords p2 = coords p1) by congruence.
    assert (Ht : map coords l1 = map coords l2) by congruence.
    cbn [combine flat_map cellIntersection].
    rewrite (andb_comm (isVisible p2)).
    destruct (isVisible p1 && isVisible p2); cbn [app]; [|now apply IH].
    constructor; [|now apply IH]. cbn [secondPoint combinedLikelihood].
    split; [exact Hp | apply Q.max_comm].
Qed.

(** X12.  Over the grid the intersection does not depend on which photo
    comes first: exchanging the two scans gives the same cells, in the same
    order, with the same [combinedLikelihood]. *)
Theorem intersection_symmetric (r1 r2 : ShadowAnalysisResult) :
  map coords (points r1) = gridCoords ->
  map coords (points r2) = gridCoords ->
  Forall2 (fun ip ip' =>
             coords (secondPoint ip) = coords (secondPoint ip')
             /\ combinedLikelihood ip == combinedLikelihood ip')
          (intersectionPoints r1 r2) (intersectionPoints r2 r1).
Proof.
  intros H1 H2.
  assert (H12 : map coords (points r1) = map coords (points r2)) by congruence.
  rewrite (intersection_cells (points r1) (points r2) H12
             ltac:(rewrite H1; apply gridKeys_distinct) r1 r2 eq_refl eq_refl).
  rewrite (intersection_cells (points r2) (points r1) (eq_sym H12)
             ltac:(rewrite H2; apply gridKeys_distinct) r2 r1 eq_refl eq_refl).
  now apply symmetric_cells.
Qed.

(** ** Marking the points *)

(** The component after a sequence of clicks. *)
Definition clicks (es : list ClickEvent) (s : ImageState) : ImageState :=
  fold_left (fun s e => fst (handleImageClick e s)) es s.

Definition wellMarked (s : ImageState) : Prop :=
  currentStep s = length (markedPoints s)
  /\ map ptype (markedPoints s) = firstn (currentStep s) POINT_CONFIGS
  /\ (currentStep s <= 3)%nat.

Lemma handleImageClick_step (e : ClickEvent) (s : ImageState) :
  wellMarked s ->
  wellMarked (fst (handleImageClick e s))
  /\ currentStep (fst (handleImageClick e s)) = Nat.min (currentStep s + 1) 3.
Proof.
  intros (Hlen & Hty & Hle). unfold handleImageClick.
  destruct (currentStep s) as [|[|[|[|k]]]] eqn:Hk; [| | | |lia];
    cbn [nth_error POINT_CONFIGS fst]; unfold wellMarked;
    cbn [currentStep markedPoints]; rewrite ?Hk;
    rewrite ?length_app, ?map_app, ?Hty, <- ?Hlen; cbn; repeat split; lia.
Qed.

Lemma clicks_wellMarked (es : list ClickEvent) :
  forall s, wellMarked s ->
    wellMarked (clicks es s)
    /\ currentStep (clicks es s) = Nat.min (currentStep s + length es) 3.
Proof.
  induction es as [|e es IH]; intros s Hs.
  - cbn [clicks fold_left length]. split; [exact Hs|].
    destruct Hs as (_ & _ & Hle). lia.
  - change (clicks (e :: es) s) with (clicks es (fst (handleImageClick e s))).
    destruct (handleImageClick_step e s Hs) as [Hs' Hstep].
    destruct (IH _ Hs') as [Hw Hc]. split; [exact Hw|].
    rewrite Hc, Hstep. cbn [length]. destruct Hs as (_ & _ & Hle). lia.
Qed.

(** X14.  Starting from no point, the clicks mark the base of the object,
    then its top, then the tip of the shadow, and nothing after that: after
    [n] clicks there are [min n 3] points, of these types in this order, and
    from the third click on a click changes nothing and reports nothing. *)
Theorem click_sequence (es : list ClickEvent) :
  let s := clicks es {| markedPoints := []; currentStep := 0 |} in
  currentStep s = Nat.min (length es) 3
  /\ length (markedPoints s) = Nat.min (length es) 3
  /\ map ptype (markedPoints s) = firstn (length es) POINT_CONFIGS
  /\ ((3 <= length es)%nat -> forall e, handleImageClick e s = (s, None)).
Proof.
  intros s.
  assert (H0 : wellMarked {| markedPoints := []; currentStep := 0 |}).
  { unfold wellMarked. cbn. repeat split; lia. }
  destruct (clicks_wellMarked es _ H0) as [(Hlen & Hty & Hle) Hstep].
  fold s in Hlen, Hty, Hle, Hstep. cbn [currentStep] in Hstep.
  rewrite Nat.add_0_l in Hstep.
  split; [exact Hstep|]. split; [now rewrite <- Hlen|]. split.
  - rewrite Hty, Hstep.
    destruct (length es) as [|[|[|n]]]; try reflexivity.
    rewrite Nat.min_r by lia. now destruct n.
  - intros H3 e. unfold handleImageClick.
    replace (currentStep s) with 3%nat by lia. reflexivity.
Qed.

(** ** Points and measurements of the page *)

Lemma handlePointsChange_cases (newPoints : list ClickPoint) (st : IndexState) :
  handlePointsChange newPoints st = setPoints newPoints st
  \/ exists m, handlePointsChange newPoints st = setMeasurements m (setPoints newPoints st).
Proof.
  unfold handlePointsChange.
  destruct (length newPoints =? 3)%nat; [|right; now eexists].
  destruct (List.find _ newPoints) as [objectBottom|]; [|now left].
  destruct (List.find _ newPoints) as [objectTop|]; [|now left].
  destruct (List.find _ newPoints) as [shadowTip|]; [|now left].
  destruct (truthy _) as [w|]; [|now left].
  destruct (truthy _) as [h|]; [|now left].
  right. now eexists.
Qed.

Lemma handlePointsChange_frame (newPoints : list ClickPoint) (st : IndexState) :
  let st' := handlePointsChange newPoints st in
  analysisMode st' = analysisMode st
  /\ getCurrentPoints st' = newPoints
  /\ (firstAnalysisResult st' = firstAnalysisResult st
      /\ secondAnalysisResult st' = secondAnalysisResult st)
  /\ (firstShadowAnalysisData st' = firstShadowAnalysisData st
      /\ secondShadowAnalysisData st' = secondShadowAnalysisData st)
  /\ (firstAnalysisDate st' = firstAnalysisDate st
      /\ secondAnalysisDate st' = secondAnalysisDate st)
  /\ isAnalyzing st' = isAnalyzing st.
Proof.
  cbv zeta.
  destruct (handlePointsChange_cases newPoints st) as [->|(m & ->)];
    unfold getCurrentPoints, setMeasurements, setPoints;
    destruct (analysisMode st) eqn:Hm; cbn; rewrite ?Hm; cbn;
    repeat split; reflexivity.
Qed.

Lemma truthy_orElse (a b c : option Q) (w : Q) :
  truthy a = Some w -> truthy (orElse (orElse a b) c) = Some w.
Proof.
  unfold truthy, orElse. destruct a as [x|]; [|discriminate].
  destruct (x === 0) eqn:E; [discriminate|]. intros H. cbn. rewrite ?E. exact H.
Qed.

Lemma getCurrentMeasurements_set (m : option (Q * Q)) (st : IndexState) :
  getCurrentMeasurements (setMeasurements m st) = m.
Proof. unfold getCurrentMeasurements, setMeasurements. now destruct (analysisMode st). Qed.

Lemma setMeasurements_points (m : option (Q * Q)) (newPoints : list ClickPoint)
    (st : IndexState) :
  getCurrentPoints (setMeasurements m (setPoints newPoints st)) = newPoints.
Proof.
  unfold getCurrentPoints, setMeasurements, setPoints.
  destruct (analysisMode st) eqn:Hm; cbn; rewrite ?Hm; reflexivity.
Qed.

(** X15.  The measurements shown as soon as three points are marked are the
    measurements the analysis then works with: when the three reference
    points are there and the base of the object carries a display size,
    [handlePointsChange] stores the measurements [m] and
    [performShadowAnalysis] analyses exactly [m]; with a number of points
    other than three no measurements are shown. *)
Theorem measurements_preview (newPoints : list ClickPoint) (st : IndexState)
    (objectBottom objectTop shadowTip : ClickPoint) (w h : Q) :
  length newPoints = 3%nat ->
  List.find (fun p => PointType_eqb (ptype p) ObjectBottom) newPoints = Some objectBottom ->
  List.find (fun p => PointType_eqb (ptype p) ObjectTop) newPoints = Some objectTop ->
  List.find (fun p => PointType_eqb (ptype p) ShadowTip) newPoints = Some shadowTip ->
  truthy (imageDisplayWidth objectBottom) = Some w ->
  truthy (imageDisplayHeight objectBottom) = Some h ->
  let m := calculateMeasurementsFromPixels
             (convertPercentageToPixels (coordsOf objectBottom) w h)
             (convertPercentageToPixels (coordsOf objectTop) w h)
             (convertPercentageToPixels (coordsOf shadowTip) w h) in
  let st1 := handlePointsChange newPoints st in
  getCurrentMeasurements st1 = Some m
  /\ forall date,
       performShadowAnalysis st1 date
       = match analyzeShadowMeasurements
                 {| objectHeight := fst m; shadowLength := snd m; knownTime := date |} with
         | Ok analysisResult =>
             (storeAnalysis st1 analysisResult date m, estimateBestLocation analysisResult)
         | Throw e => (st1, Throw e)
         | OutOfFuel => (st1, OutOfFuel)
         end.
Proof.
  intros Hlen Hb Ht Hs Hw Hh m st1.
  assert (E1 : st1 = setMeasurements (Some m) (setPoints newPoints st)).
  { unfold st1, handlePointsChange. rewrite Hlen, Hb, Ht, Hs, Hw, Hh. reflexivity. }
  split; [rewrite E1; apply getCurrentMeasurements_set|].
  intros date. unfold performShadowAnalysis.
  assert (Hpts : getCurrentPoints st1 = newPoints)
    by (rewrite E1; apply setMeasurements_points).
  rewrite Hpts, Hb, Ht, Hs.
  rewrite (truthy_orElse _ _ _ _ Hw), (truthy_orElse _ _ _ _ Hh).
  reflexivity.
Qed.

(** The page and the image after a sequence of clicks on the image. *)
Definition clicksOnImage (es : list ClickEvent) (image : ImageState) (st : IndexState)
    : ImageState * IndexState :=
  fold_left (fun s e => clickOnImage e (fst s) (snd s)) es (image, st).

Lemma nonzero_truthy (w : Q) : ~ w == 0 -> truthy (Some w) = Some w.
Proof.
  intros Hw. unfold truthy, orElse.
  destruct (w === 0) eqn:E; [|reflexivity]. apply eq_true in E. contradiction.
Qed.

Lemma three_clicks_state (e1 e2 e3 : ClickEvent) (st : IndexState) :
  ~ rectWidth e1 == 0 -> ~ rectHeight e1 == 0 ->
  exists st0,
    snd (clicksOnImage [e1; e2; e3] {| markedPoints := []; currentStep := 0 |} st)
    = setMeasurements
        (Some (calculateMeasurementsFromPixels
                 (convertPercentageToPixels (coordsOf (clickedPoint e1 ObjectBottom))
                    (rectWidth e1) (rectHeight e1))
                 (convertPercentageToPixels (coordsOf (clickedPoint e2 ObjectTop))
                    (rectWidth e1) (rectHeight e1))
                 (convertPercentageToPixels (coordsOf (clickedPoint e3 ShadowTip))
                    (rectWidth e1) (rectHeight e1))))
        (setPoints [clickedPoint e1 ObjectBottom; clickedPoint e2 ObjectTop;
                    clickedPoint e3 ShadowTip] st0).
Proof.
  intros Hw Hh.
  exists (handlePointsChange [clickedPoint e1 ObjectBottom; clickedPoint e2 ObjectTop]
            (handlePointsChange [clickedPoint e1 ObjectBottom] st)).
  unfold clicksOnImage, clickOnImage, handleImageClick.
  cbn [fold_left fst snd currentStep markedPoints nth_error POINT_CONFIGS app Nat.add].
  unfold handlePointsChange at 1.
  cbn [length Nat.eqb List.find ptype clickedPoint PointType_eqb
       imageDisplayWidth imageDisplayHeight].
  rewrite (nonzero_truthy _ Hw), (nonzero_truthy _ Hh).
  reflexivity.
Qed.

(** X16.  Three clicks on an image whose display size at the first click is
    not empty leave the three reference points in the page, typed base, top
    and tip, and as measurements what [calculateMeasurementsFromPixels]
    makes of the three stored points converted back to pixels, all three
    with the display size stored at the first click, whatever the size the
    later clicks saw. *)
Theorem three_clicks_measure (e1 e2 e3 : ClickEvent) (st : IndexState) :
  ~ rectWidth e1 == 0 -> ~ rectHeight e1 == 0 ->
  let st' := snd (clicksOnImage [e1; e2; e3]
                    {| markedPoints := []; currentStep := 0 |} st) in
  let pixels (p : ClickPoint) :=
    convertPercentageToPixels (coordsOf p) (rectWidth e1) (rectHeight e1) in
  getCurrentPoints st'
  = [clickedPoint e1 ObjectBottom; clickedPoint e2 ObjectTop; clickedPoint e3 ShadowTip]
  /\ getCurrentMeasurements st'
     = Some (calculateMeasurementsFromPixels
               (pixels (clickedPoint e1 ObjectBottom))
               (pixels (clickedPoint e2 ObjectTop))
               (pixels (clickedPoint e3 ShadowTip))).
Proof.
  intros Hw Hh st' pixels.
  destruct (three_clicks_state e1 e2 e3 st Hw Hh) as (st0 & E).
  unfold st', pixels. rewrite E.
  split; [apply setMeasurements_points | apply getCurrentMeasurements_set].
Qed.

(** ** What the analysis throws and what it stores *)

Lemma estimate_outcomes (r : ShadowAnalysisResult) :
  (exists e, estimateBestLocation r = Ok e)
  \/ estimateBestLocation r = Throw NoSuitableMatches.
Proof.
  destruct (selection r) as [|q qs] eqn:Hsel.
  - right. now apply estimate_empty.
  - left. destruct (estimate_nonempty r) as (e & He & _); [congruence|]. now exists e.
Qed.

Lemma getCurrentShadowAnalysisData_store (st : IndexState) (r : ShadowAnalysisResult)
    (date : Date) (m : Q * Q) :
  getCurrentShadowAnalysisData (storeAnalysis st r date m) = Some r.
Proof.
  unfold getCurrentShadowAnalysisData, storeAnalysis.
  destruct (analysisMode st) eqn:Hm; cbn; rewrite ?Hm; reflexivity.
Qed.

Lemma perform_cases (st : IndexState) (date : Date) :
  (exists e,
     performShadowAnalysis st date = (st, Throw e)
     /\ (e = MissingReferencePoints \/ e = MissingDisplayDimensions
         \/ e = InvalidMeasurements
         \/ (e = InvalidDateTime /\ isNaN_getTime date = true)))
  \/ (exists input,
        (0 < objectHeight input /\ 0 < shadowLength input)
        /\ (knownTime input = date /\ isNaN_getTime date = false)
        /\ performShadowAnalysis st date
           = (storeAnalysis st
                (summarize (gridScan date (objectHeight input) (shadowLength input)))
                date (objectHeight input, shadowLength input),
              estimateBestLocation
                (summarize (gridScan date (objectHeight input) (shadowLength input))))).
Proof.
  unfold performShadowAnalysis.
  destruct (List.find _ (getCurrentPoints st)) as [objectBottom|];
    [|left; eexists; split; [reflexivity | now left]].
  destruct (List.find _ (getCurrentPoints st)) as [objectTop|];
    [|left; eexists; split; [reflexivity | now left]].
  destruct (List.find _ (getCurrentPoints st)) as [shadowTip|];
    [|left; eexists; split; [reflexivity | now left]].
  destruct (truthy _) as [width|];
    [|left; eexists; split; [reflexivity | right; now left]].
  destruct (truthy _) as [height|];
    [|left; eexists; split; [reflexivity | right; now left]].
  set (m := calculateMeasurementsFromPixels _ _ _).
  set (input := {| objectHeight := fst m; shadowLength := snd m; knownTime := date |}).
  destruct (analyze_cases input) as [[E _]|[[E (_ & Hd)]|[E (Hpos & Hd)]]]; rewrite E.
  - left. eexists. split; [reflexivity | right; right; now left].
  - left. eexists. split; [reflexivity | right; right; right; now split].
  - right. exists input. split; [exact Hpos|]. split; [now split|].
    cbn [objectHeight shadowLength knownTime input]. now destruct m.
Qed.

(** X17.  What [performShadowAnalysis] throws: never the RangeError of
    [toISOString], and the invalid-date error only on an invalid date.
    Every error other than the no-match error leaves the state as it was;
    the no-match error comes after the scan, over the whole grid, has been
    stored as the scan of the current photo. *)
Theorem performShadowAnalysis_errors (st st' : IndexState) (date : Date) (e : Error) :
  performShadowAnalysis st date = (st', Throw e) ->
  e <> RangeErrorInvalidTime
  /\ (e = InvalidDateTime -> isNaN_getTime date = true)
  /\ (e <> NoSuitableMatches -> st' = st)
  /\ (e = NoSuitableMatches ->
      exists r,
        getCurrentShadowAnalysisData st' = Some r
        /\ map coords (points r) = gridCoords
        /\ estimateBestLocation r = Throw NoSuitableMatches).
Proof.
  intros H.
  destruct (perform_cases st date) as [(e0 & E & He0)|(input & _ & _ & E)];
    rewrite E in H.
  - injection H as <- <-.
    split; [|split; [|split]].
    + destruct He0 as [->|[->|[->|[-> _]]]]; discriminate.
    + intros ->. destruct He0 as [He|[He|[He|[_ Hd]]]]; try discriminate. exact Hd.
    + reflexivity.
    + intros ->. destruct He0 as [He|[He|[He|[He _]]]]; discriminate.
  - injection H as <- He.
    destruct (estimate_outcomes (summarize (gridScan date (objectHeight input)
                                              (shadowLength input))))
      as [(e1 & He1)|He1]; rewrite He1 in He; [discriminate|].
    injection He as <-.
    split; [discriminate|]. split; [discriminate|]. split; [congruence|].
    intros _. eexists. split; [apply getCurrentShadowAnalysisData_store|].
    split; [apply gridScan_coords | exact He1].
Qed.

Lemma sub_same (x y : Q) : x = y -> x ⊖ y = 0.
Proof. intros ->. unfold JS.sub. now rewrite (Qred_complete (y - y) 0) by ring. Qed.

Lemma percent_same (x y w : Q) : x == y -> (x ⊘ 100) ⊗ w = (y ⊘ 100) ⊗ w.
Proof. intros E. unfold JS.mul, JS.div. apply Qred_complete. now rewrite E. Qed.

(** X18.  When the top of the object is marked on its base and [sqrt 0] is
    not positive, the analysis throws the invalid-measurement error,
    whatever the date (even an invalid one), and leaves the state as it
    was. *)
Theorem coincident_points_rejected (st : IndexState) (date : Date)
    (objectBottom objectTop shadowTip : ClickPoint) (w h : Q) :
  List.find (fun p => PointType_eqb (ptype p) ObjectBottom) (getCurrentPoints st)
  = Some objectBottom ->
  List.find (fun p => PointType_eqb (ptype p) ObjectTop) (getCurrentPoints st)
  = Some objectTop ->
  List.find (fun p => PointType_eqb (ptype p) ShadowTip) (getCurrentPoints st)
  = Some shadowTip ->
  truthy (imageDisplayWidth objectBottom) = Some w ->
  truthy (imageDisplayHeight objectBottom) = Some h ->
  px objectTop == px objectBottom -> py objectTop == py objectBottom ->
  Math_sqrt 0 <= 0 ->
  performShadowAnalysis st date = (st, Throw InvalidMeasurements).
Proof.
  intros Hb Ht Hs Hw Hh Ex Ey Hsqrt. unfold performShadowAnalysis.
  rewrite Hb, Ht, Hs, (truthy_orElse _ _ _ _ Hw), (truthy_orElse _ _ _ _ Hh).
  unfold analyzeShadowMeasurements, calculateMeasurementsFromPixels,
    convertPercentageToPixels, coordsOf.
  cbn [objectHeight shadowLength knownTime fst snd cx cy].
  rewrite (sub_same _ _ (percent_same _ _ w Ex)), (sub_same _ _ (percent_same _ _ h Ey)).
  change (0 ⊗ 0 ⊕ 0 ⊗ 0) with 0.
  apply le_true in Hsqrt. rewrite Hsqrt. reflexivity.
Qed.

(** ** The handler of the page *)

(** The estimate of the current photo. *)
Definition currentAnalysisResult (st : IndexState) : option BestLocation :=
  match analysisMode st with
  | FirstPhoto => firstAnalysisResult st
  | SecondPhoto => secondAnalysisResult st
  end.

(** The date stored with the scan of the current photo. *)
Definition currentAnalysisDate (st : IndexState) : option Date :=
  match analysisMode st with
  | FirstPhoto => firstAnalysisDate st
  | SecondPhoto => secondAnalysisDate st
  end.

Lemma handleAnalyze_cases (st : IndexState) (date : Date) :
  handleAnalyze st date = Some (setIsAnalyzing false (setIsAnalyzing true st))
  \/ exists h s r,
       (0 < h /\ 0 < s /\ isNaN_getTime date = false /\ r = summarize (gridScan date h s))
       /\ ((estimateBestLocation r = Throw NoSuitableMatches
            /\ handleAnalyze st date
               = Some (setIsAnalyzing false
                         (storeAnalysis (setIsAnalyzing true st) r date (h, s))))
           \/ (exists e,
                 estimateBestLocation r = Ok e
                 /\ handleAnalyze st date
                    = Some (setIsAnalyzing false
                              (storeResult e
                                 (storeAnalysis (setIsAnalyzing true st) r date (h, s)))))).
Proof.
  unfold handleAnalyze.
  destruct (perform_cases (setIsAnalyzing true st) date)
    as [(e & E & _)|(input & [Hh Hs] & [_ Hd] & E)]; rewrite E.
  - now left.
  - right. remember (summarize (gridScan date (objectHeight input) (shadowLength input)))
      as r eqn:Hr.
    exists (objectHeight input), (shadowLength input), r.
    split; [exact (conj Hh (conj Hs (conj Hd Hr)))|].
    destruct (estimate_outcomes r) as [(e & He)|He]; rewrite He.
    + right. exists e. now split.
    + left. now split.
Qed.

Lemma handleAnalyze_finishes (st : IndexState) (date : Date) :
  exists st', handleAnalyze st date = Some st' /\ isAnalyzing st' = false.
Proof.
  destruct (handleAnalyze_cases st date)
    as [E|(h & s & r & _ & [[_ E]|(e & _ & E)])];
    rewrite E; eexists; (split; [reflexivity|]).
  - reflexivity.
  - generalize r. intros r0. unfold storeAnalysis.
    destruct (analysisMode st) eqn:Hm; cbn; rewrite ?Hm; reflexivity.
  - generalize r. intros r0. unfold storeResult, storeAnalysis.
    destruct (analysisMode st) eqn:Hm; cbn; rewrite ?Hm; reflexivity.
Qed.

(** X19.  The handler of the page always finishes, with the busy flag off.
    It changes neither the mode nor the marked points, and nothing of the
    other photo.  Of the current photo it either changes nothing, or it
    stores a scan over the whole grid with its (valid) date; the estimate
    stored is then the estimate on this scan, except when the estimator
    finds no match: then the estimate stored before stays beside the new
    scan. *)
Theorem handleAnalyze_effect (st : IndexState) (date : Date) :
  exists st',
    handleAnalyze st date = Some st'
    /\ (isAnalyzing st' = false
        /\ analysisMode st' = analysisMode st
        /\ firstPoints st' = firstPoints st
        /\ secondPoints st' = secondPoints st)
    /\ (analysisMode st = FirstPhoto ->
        secondAnalysisResult st' = secondAnalysisResult st
        /\ secondShadowAnalysisData st' = secondShadowAnalysisData st
        /\ secondAnalysisDate st' = secondAnalysisDate st
        /\ secondAnalysisMeasurements st' = secondAnalysisMeasurements st)
    /\ (analysisMode st = SecondPhoto ->
        firstAnalysisResult st' = firstAnalysisResult st
        /\ firstShadowAnalysisData st' = firstShadowAnalysisData st
        /\ firstAnalysisDate st' = firstAnalysisDate st
        /\ firstAnalysisMeasurements st' = firstAnalysisMeasurements st)
    /\ ((getCurrentShadowAnalysisData st' = getCurrentShadowAnalysisData st
         /\ currentAnalysisDate st' = currentAnalysisDate st
         /\ getCurrentMeasurements st' = getCurrentMeasurements st
         /\ currentAnalysisResult st' = currentAnalysisResult st)
        \/ exists r,
             getCurrentShadowAnalysisData st' = Some r
             /\ map coords (points r) = gridCoords
             /\ (currentAnalysisDate st' = Some date /\ isNaN_getTime date = false)
             /\ ((exists e, estimateBestLocation r = Ok e
                            /\ currentAnalysisResult st' = Some e)
                 \/ (estimateBestLocation r = Throw NoSuitableMatches
                     /\ currentAnalysisResult st' = currentAnalysisResult st))).
Proof.
  destruct (handleAnalyze_cases st date)
    as [E|(h & s & r & (_ & _ & Hd & Hr) & [[He E]|(e & He & E)])];
    rewrite E; eexists; (split; [reflexivity|]).
  - set (G := gridCoords); clearbody G.
    unfold getCurrentShadowAnalysisData, currentAnalysisDate, getCurrentMeasurements,
      currentAnalysisResult.
    destruct (analysisMode st) eqn:Hm; cbn; rewrite ?Hm;
      (split; [now repeat split|]); (split; [intros _; now repeat split|]);
      (split; [intros _; now repeat split|]); left; now repeat split.
  - assert (Hgrid : map coords (points r) = gridCoords)
      by (rewrite Hr; apply gridScan_coords).
    clear Hr E. set (G := gridCoords) in *; clearbody G.
    unfold getCurrentShadowAnalysisData, currentAnalysisDate, getCurrentMeasurements,
      currentAnalysisResult, storeAnalysis.
    destruct (analysisMode st) eqn:Hm; cbn; rewrite ?Hm; cbn;
      (split; [now repeat split|]);
      (split; [intros Hc; try discriminate Hc; now repeat split|]);
      (split; [intros Hc; try discriminate Hc; now repeat split|]);
      right; exists r; (split; [reflexivity|]); (split; [exact Hgrid|]);
      (split; [now split|]); right; now split.
  - assert (Hgrid : map coords (points r) = gridCoords)
      by (rewrite Hr; apply gridScan_coords).
    clear Hr E. set (G := gridCoords) in *; clearbody G.
    unfold getCurrentShadowAnalysisData, currentAnalysisDate, getCurrentMeasurements,
      currentAnalysisResult, storeResult, storeAnalysis.
    destruct (analysisMode st) eqn:Hm; cbn; rewrite ?Hm; cbn;
      (split; [now repeat split|]);
      (split; [intros Hc; try discriminate Hc; now repeat split|]);
      (split; [intros Hc; try discriminate Hc; now repeat split|]);
      right; exists r; (split; [reflexivity|]); (split; [exact Hgrid|]);
      (split; [now split|]); left; exists e; now split.
Qed.

(** ** The analysis panel *)

Lemma perform_valid_date (st st' : IndexState) (date : Date) (e : Error) :
  isNaN_getTime date = false ->
  performShadowAnalysis st date = (st', Throw e) -> e <> InvalidDateTime.
Proof.
  intros Hd H.
  destruct (perform_cases st date) as [(e0 & E & He0)|(input & _ & _ & E)];
    rewrite E in H.
  - injection H as _ <-.
    destruct He0 as [->|[->|[->|[_ Hn]]]]; try discriminate. congruence.
  - injection H as _ He.
    destruct (estimate_outcomes (summarize (gridScan date (objectHeight input)
                                              (shadowLength input))))
      as [(e1 & He1)|He1]; rewrite He1 in He; [discriminate|].
    injection He as <-. discriminate.
Qed.

(** X20.  The panel with a date selected: when the date and time do not
    parse to a valid date, the panel throws the RangeError of
    [toISOString] and the page is left as it was; otherwise the panel hands
    the date to the handler of the page, which finishes, and the analysis
    of the page cannot throw its invalid-date error on this date. *)
Theorem AnalysisPanel_invalid_date (selectedDate selectedTime : string) (st : IndexState) :
  nonEmpty selectedDate = true ->
  let date := Date_parse (selectedDate +:+ "T" +:+ selectedTime +:+ "Z") in
  (isNaN_getTime date = true ->
   AnalysisPanel_handleAnalyze selectedDate selectedTime st = Throw RangeErrorInvalidTime)
  /\ (isNaN_getTime date = false ->
      (exists st', handleAnalyze st date = Some st'
                   /\ AnalysisPanel_handleAnalyze selectedDate selectedTime st = Ok st')
      /\ forall st0 st1 e,
           performShadowAnalysis st0 date = (st1, Throw e) -> e <> InvalidDateTime).
Proof.
  intros Hne date. unfold AnalysisPanel_handleAnalyze. rewrite Hne. fold date.
  unfold isNaN_getTime, Date_toISOString.
  destruct (getTime date) as [t|] eqn:Ht; split; try discriminate.
  - intros _. split.
    + destruct (handleAnalyze_finishes st date) as (st' & E & _).
      exists st'. split; [exact E|]. cbn [bind]. now rewrite E.
    + intros st0 st1 e. apply perform_valid_date.
      unfold isNaN_getTime. now rewrite Ht.
  - intros _. reflexivity.
Qed.

(** X21.  A click on the button of the panel changes the page only when
    exactly three points are marked on the current photo, a date is
    selected and no analysis is running; whenever it returns, the busy flag
    is as it was or off. *)
Theorem AnalysisPanel_click_guard (selectedDate selectedTime : string)
    (st st' : IndexState) :
  AnalysisPanel_click selectedDate selectedTime st = Ok st' ->
  (st' <> st ->
   length (getCurrentPoints st) = 3%nat
   /\ nonEmpty selectedDate = true
   /\ isAnalyzing st = false)
  /\ (isAnalyzing st' = isAnalyzing st \/ isAnalyzing st' = false).
Proof.
  unfold AnalysisPanel_click, isReady.
  destruct (length (getCurrentPoints st) =? 3)%nat eqn:Hlen;
    destruct (nonEmpty selectedDate) eqn:Hne;
    destruct (isAnalyzing st) eqn:Hb; cbn [andb negb orb];
    try (intros [= <-]; split; [intros Hc; now destruct Hc | left; exact Hb]).
  unfold AnalysisPanel_handleAnalyze. rewrite Hne.
  destruct (Date_toISOString _); cbn [bind]; try discriminate.
  destruct (handleAnalyze_finishes st
              (Date_parse (selectedDate +:+ "T" +:+ selectedTime +:+ "Z")))
    as (st1 & E & Hb1).
  rewrite E. intros [= <-]. split.
  - intros _. apply Nat.eqb_eq in Hlen. now repeat split.
  - right. exact Hb1.
Qed.

(** ** From the clicks to the scan *)

Lemma handleAnalyze_scan (st : IndexState) (date : Date)
    (objectBottom objectTop shadowTip : ClickPoint) (w h : Q) (m : Q * Q) :
  List.find (fun p => PointType_eqb (ptype p) ObjectBottom) (getCurrentPoints st)
  = Some objectBottom ->
  List.find (fun p => PointType_eqb (ptype p) ObjectTop) (getCurrentPoints st)
  = Some objectTop ->
  List.find (fun p => PointType_eqb (ptype p) ShadowTip) (getCurrentPoints st)
  = Some shadowTip ->
  truthy (imageDisplayWidth objectBottom) = Some w ->
  truthy (imageDisplayHeight objectBottom) = Some h ->
  m = calculateMeasurementsFromPixels
        (convertPercentageToPixels (coordsOf objectBottom) w h)
        (convertPercentageToPixels (coordsOf objectTop) w h)
        (convertPercentageToPixels (coordsOf shadowTip) w h) ->
  0 < fst m -> 0 < snd m -> isNaN_getTime date = false ->
  exists st',
    handleAnalyze st date = Some st'
    /\ getCurrentShadowAnalysisData st' = Some (summarize (gridScan date (fst m) (snd m)))
    /\ currentAnalysisDate st' = Some date
    /\ getCurrentMeasurements st' = Some m
    /\ analysisMode st' = analysisMode st
    /\ (forall e,
          estimateBestLocation (summarize (gridScan date (fst m) (snd m))) = Ok e ->
          currentAnalysisResult st' = Some e)
    /\ (estimateBestLocation (summarize (gridScan date (fst m) (snd m)))
        = Throw NoSuitableMatches ->
        currentAnalysisResult st' = currentAnalysisResult st).
Proof.
  intros Hb Ht Hs Hw Hh Hm Hpos1 Hpos2 Hd.
  unfold handleAnalyze, performShadowAnalysis.
  change (getCurrentPoints (setIsAnalyzing true st)) with (getCurrentPoints st).
  rewrite Hb, Ht, Hs, (truthy_orElse _ _ _ _ Hw), (truthy_orElse _ _ _ _ Hh), <- Hm.
  rewrite (analyze_valid {| objectHeight := fst m; shadowLength := snd m;
                            knownTime := date |} Hpos1 Hpos2 Hd).
  cbn [objectHeight shadowLength knownTime].
  generalize (summarize (gridScan date (fst m) (snd m))). intros r.
  unfold getCurrentShadowAnalysisData, currentAnalysisDate, getCurrentMeasurements,
    currentAnalysisResult.
  destruct (estimate_outcomes r) as [(e & He)|He]; rewrite He; eexists;
    (split; [reflexivity|]); unfold storeResult, storeAnalysis;
    destruct (analysisMode st) eqn:Hmode; cbn; rewrite ?Hmode; cbn;
    repeat split; intros; congruence.
Qed.

(** X22.  From the clicks to the scan: after three clicks on an image whose
    display size at the first click is not empty, an analysis with a valid
    date, when the two measurements of the page are positive, finishes and
    stores, for the current photo, the scan of the grid for this date and
    these two measurements, with the date and the measurements. *)
Theorem clicks_then_analyze (e1 e2 e3 : ClickEvent) (st : IndexState) (date : Date) :
  ~ rectWidth e1 == 0 -> ~ rectHeight e1 == 0 ->
  let pixels (p : ClickPoint) :=
    convertPercentageToPixels (coordsOf p) (rectWidth e1) (rectHeight e1) in
  let m := calculateMeasurementsFromPixels
             (pixels (clickedPoint e1 ObjectBottom))
             (pixels (clickedPoint e2 ObjectTop))
             (pixels (clickedPoint e3 ShadowTip)) in
  0 < fst m -> 0 < snd m -> isNaN_getTime date = false ->
  exists st',
    handleAnalyze
      (snd (clicksOnImage [e1; e2; e3] {| markedPoints := []; currentStep := 0 |} st))
      date = Some st'
    /\ getCurrentShadowAnalysisData st' = Some (summarize (gridScan date (fst m) (snd m)))
    /\ currentAnalysisDate st' = Some date
    /\ getCurrentMeasurements st' = Some m.
Proof.
  intros Hw Hh pixels m Hpos1 Hpos2 Hd.
  destruct (three_clicks_state e1 e2 e3 st Hw Hh) as (st0 & E).
  rewrite E.
  destruct (handleAnalyze_scan
              (setMeasurements (Some m)
                 (setPoints [clickedPoint e1 ObjectBottom; clickedPoint e2 ObjectTop;
                             clickedPoint e3 ShadowTip] st0))
              date (clickedPoint e1 ObjectBottom)
              (clickedPoint e2 ObjectTop) (clickedPoint e3 ShadowTip)
              (rectWidth e1) (rectHeight e1) m)
    as (st' & E' & Hdata & Hdate & Hmeas & _);
    try (rewrite setMeasurements_points; reflexivity);
    try assumption; try reflexivity.
  - exact (nonzero_truthy _ Hw).
  - exact (nonzero_truthy _ Hh).
  - exists st'. exact (conj E' (conj Hdata (conj Hdate Hmeas))).
Qed.

(** ** The estimates of the two photos *)

(** C1 (as the code has it).  In two-photo mode the analysis of the second
    photo always finishes and leaves the scan and the estimate of the first
    photo as they were.  Of the second photo it either changes neither the
    scan nor the estimate, or it stores a scan over the grid, and the
    estimate stored is then what the estimator returns on this scan, the
    second photo's own (when the estimator finds no match, the estimate
    stored before stays).  When the three points of the second photo are
    marked, the base of the object carries a display size, the two
    measurements are positive and the date is valid, the scan stored is the
    scan of the grid for this date and these measurements, and the estimate
    is the estimator's on it.  The intersection points of the two scans
    exist in the rendering only: each pairs a visible point of the second
    scan with a visible point of the first scan that has the same key, and
    carries the larger of their two likelihoods as [combinedLikelihood]. *)
Theorem two_photo_estimates (st : IndexState) (date : Date) :
  analysisMode st = SecondPhoto ->
  exists st',
    handleAnalyze st date = Some st'
    /\ firstAnalysisResult st' = firstAnalysisResult st
    /\ firstShadowAnalysisData st' = firstShadowAnalysisData st
    /\ ((secondShadowAnalysisData st' = secondShadowAnalysisData st
         /\ secondAnalysisResult st' = secondAnalysisResult st)
        \/ exists r,
             secondShadowAnalysisData st' = Some r
             /\ map coords (points r) = gridCoords
             /\ ((exists e, estimateBestLocation r = Ok e
                            /\ secondAnalysisResult st' = Some e)
                 \/ (estimateBestLocation r = Throw NoSuitableMatches
                     /\ secondAnalysisResult st' = secondAnalysisResult st)))
    /\ (forall objectBottom objectTop shadowTip w h m,
          List.find (fun p => PointType_eqb (ptype p) ObjectBottom) (secondPoints st)
          = Some objectBottom ->
          List.find (fun p => PointType_eqb (ptype p) ObjectTop) (secondPoints st)
          = Some objectTop ->
          List.find (fun p => PointType_eqb (ptype p) ShadowTip) (secondPoints st)
          = Some shadowTip ->
          truthy (imageDisplayWidth objectBottom) = Some w ->
          truthy (imageDisplayHeight objectBottom) = Some h ->
          m = calculateMeasurementsFromPixels
                (convertPercentageToPixels (coordsOf objectBottom) w h)
                (convertPercentageToPixels (coordsOf objectTop) w h)
                (convertPercentageToPixels (coordsOf shadowTip) w h) ->
          0 < fst m -> 0 < snd m -> isNaN_getTime date = false ->
          secondShadowAnalysisData st'
          = Some (summarize (gridScan date (fst m) (snd m)))
          /\ (forall e,
                estimateBestLocation (summarize (gridScan date (fst m) (snd m))) = Ok e ->
                secondAnalysisResult st' = Some e)
          /\ (estimateBestLocation (summarize (gridScan date (fst m) (snd m)))
              = Throw NoSuitableMatches ->
              secondAnalysisResult st' = secondAnalysisResult st))
    /\ (forall first second inter,
          render st' = IntersectionMode first second inter ->
          firstShadowAnalysisData st' = Some first
          /\ secondShadowAnalysisData st' = Some second
          /\ inter = intersectionPoints first second
          /\ forall ip, In ip inter ->
               exists p1,
                 (In p1 (points first) /\ isVisible p1 = true)
                 /\ (In (secondPoint ip) (points second)
                     /\ isVisible (secondPoint ip) = true)
                 /\ coordKey p1 = coordKey (secondPoint ip)
                 /\ combinedLikelihood ip
                    = Qmax (likelihood p1) (likelihood (secondPoint ip))).
Proof.
  intros Hmode.
  assert (Hrender : forall st' first second inter,
            render st' = IntersectionMode first second inter ->
            firstShadowAnalysisData st' = Some first
            /\ secondShadowAnalysisData st' = Some second
            /\ inter = intersectionPoints first second
            /\ forall ip, In ip inter ->
                 exists p1,
                   (In p1 (points first) /\ isVisible p1 = true)
                   /\ (In (secondPoint ip) (points second)
                       /\ isVisible (secondPoint ip) = true)
                   /\ coordKey p1 = coordKey (secondPoint ip)
                   /\ combinedLikelihood ip
                      = Qmax (likelihood p1) (likelihood (secondPoint ip))).
  { intros st' first second inter. unfold render.
    destruct (getCurrentShadowAnalysisData st'); [|discriminate].
    destruct (firstShadowAnalysisData st') as [r1|]; [|discriminate].
    destruct (secondShadowAnalysisData st') as [r2|]; [|discriminate].
    destruct (secondAnalysisDate st'); [|discriminate].
    destruct (secondAnalysisMeasurements st'); [|discriminate].
    intros [= <- <- <-]. repeat split. apply intersectionPoints_In. }
  assert (Hpts : getCurrentPoints st = secondPoints st)
    by (unfold getCurrentPoints; now rewrite Hmode).
  destruct (handleAnalyze_finishes st date) as (st' & E & _).
  exists st'. split; [exact E|].
  assert (Hscan : forall objectBottom objectTop shadowTip w h m,
            List.find (fun p => PointType_eqb (ptype p) ObjectBottom) (secondPoints st)
            = Some objectBottom ->
            List.find (fun p => PointType_eqb (ptype p) ObjectTop) (secondPoints st)
            = Some objectTop ->
            List.find (fun p => PointType_eqb (ptype p) ShadowTip) (secondPoints st)
            = Some shadowTip ->
            truthy (imageDisplayWidth objectBottom) = Some w ->
            truthy (imageDisplayHeight objectBottom) = Some h ->
            m = calculateMeasurementsFromPixels
                  (convertPercentageToPixels (coordsOf objectBottom) w h)
                  (convertPercentageToPixels (coordsOf objectTop) w h)
                  (convertPercentageToPixels (coordsOf shadowTip) w h) ->
            0 < fst m -> 0 < snd m -> isNaN_getTime date = false ->
            secondShadowAnalysisData st'
            = Some (summarize (gridScan date (fst m) (snd m)))
            /\ (forall e,
                  estimateBestLocation (summarize (gridScan date (fst m) (snd m))) = Ok e ->
                  secondAnalysisResult st' = Some e)
            /\ (estimateBestLocation (summarize (gridScan date (fst m) (snd m)))
                = Throw NoSuitableMatches ->
                secondAnalysisResult st' = secondAnalysisResult st)).
  { intros objectBottom objectTop shadowTip w h m Hb Ht Hs Hw Hh Hm Hp1 Hp2 Hd.
    rewrite <- Hpts in Hb, Ht, Hs.
    destruct (handleAnalyze_scan st date objectBottom objectTop shadowTip w h m
                Hb Ht Hs Hw Hh Hm Hp1 Hp2 Hd)
      as (st2 & E2 & Hdata & _ & _ & Hmode2 & Hok & Hno).
    rewrite E in E2. injection E2 as <-.
    unfold getCurrentShadowAnalysisData in Hdata.
    unfold currentAnalysisResult in Hok, Hno.
    rewrite Hmode2, Hmode in Hdata, Hok. rewrite Hmode2 in Hno. rewrite Hmode in Hno.
    exact (conj Hdata (conj Hok Hno)). }
  revert Hscan. generalize (Hrender st'). clear Hrender.
  destruct (handleAnalyze_cases st date)
    as [E0|(h & s & r & (_ & _ & _ & Hr) & [[He E0]|(e & He & E0)])];
    rewrite E0 in E; injection E as <-; intros Hrender Hscan.
  - split; [reflexivity|]. split; [reflexivity|].
    split; [left; split; reflexivity|]. exact (conj Hscan Hrender).
  - assert (Hgrid : map coords (points r) = gridCoords)
      by (rewrite Hr; apply gridScan_coords).
    clear Hr E0.
    split; [|split; [|split; [|exact (conj Hscan Hrender)]]];
      clear Hscan Hrender; set (G := gridCoords) in *; clearbody G;
      unfold storeAnalysis; cbn [setIsAnalyzing analysisMode];
      rewrite Hmode; cbn; try reflexivity.
    right. exists r. split; [reflexivity|]. split; [exact Hgrid|]. right. now split.
  - assert (Hgrid : map coords (points r) = gridCoords)
      by (rewrite Hr; apply gridScan_coords).
    clear Hr E0.
    split; [|split; [|split; [|exact (conj Hscan Hrender)]]];
      clear Hscan Hrender; set (G := gridCoords) in *; clearbody G;
      unfold storeResult, storeAnalysis; cbn [setIsAnalyzing analysisMode];
      rewrite Hmode; cbn; rewrite ?Hmode; cbn; try reflexivity.
    right. exists r. split; [reflexivity|]. split; [exact Hgrid|].
    left. exists e. now split.
Qed.

(** ** What every session keeps *)

(** A stored scan is the scan of the grid for the date stored with it, a
    valid one, and for two positive measurements. *)
Definition storedScan (data : option ShadowAnalysisResult) (date : option Date) : Prop :=
  forall r, data = Some r ->
    exists d h s,
      date = Some d /\ isNaN_getTime d = false /\ 0 < h /\ 0 < s
      /\ r = summarize (gridScan d h s).

(** Both stored scans are such scans; an estimate is stored only beside a
    scan; and nothing of the second photo is stored before the page has
    switched to it. *)
Definition consistent (st : IndexState) : Prop :=
  storedScan (firstShadowAnalysisData st) (firstAnalysisDate st)
  /\ storedScan (secondShadowAnalysisData st) (secondAnalysisDate st)
  /\ (firstShadowAnalysisData st = None -> firstAnalysisResult st = None)
  /\ (secondShadowAnalysisData st = None -> secondAnalysisResult st = None)
  /\ (analysisMode st = FirstPhoto ->
      secondShadowAnalysisData st = None /\ secondPoints st = []).

Lemma storedScan_None (date : option Date) : storedScan None date.
Proof. intros r H. discriminate. Qed.

Lemma storedScan_Some (r : ShadowAnalysisResult) (d : Date) (h s : Q) :
  isNaN_getTime d = false -> 0 < h -> 0 < s -> r = summarize (gridScan d h s) ->
  storedScan (Some r) (Some d).
Proof. intros Hd Hh Hs Hr r' [= <-]. now exists d, h, s. Qed.

Lemma handleImageUpload_consistent (st : IndexState) :
  consistent st -> consistent (handleImageUpload st).
Proof.
  unfold consistent, handleImageUpload. intros (H1 & H2 & H3 & H4 & H5).
  destruct (analysisMode st) eqn:Hm; cbn; rewrite ?Hm.
  - repeat split; auto using storedScan_None; now apply H5.
  - repeat split; auto using storedScan_None; discriminate.
Qed.

Lemma handlePointsChange_consistent (newPoints : list ClickPoint) (st : IndexState) :
  analysisMode st = SecondPhoto \/ secondPoints st = [] ->
  consistent st -> consistent (handlePointsChange newPoints st).
Proof.
  unfold consistent. intros Hsp (H1 & H2 & H3 & H4 & H5).
  destruct (handlePointsChange_cases newPoints st) as [->|(m & ->)];
    unfold setMeasurements, setPoints;
    destruct (analysisMode st) eqn:Hm; cbn; rewrite ?Hm; cbn;
    repeat split; auto; try discriminate; now apply H5.
Qed.

Lemma handleStartSecondPhoto_consistent (st : IndexState) :
  consistent st -> consistent (handleStartSecondPhoto st).
Proof.
  unfold consistent, handleStartSecondPhoto. intros (H1 & H2 & H3 & H4 & H5). cbn.
  repeat split; auto; discriminate.
Qed.

Lemma handleStartOver_consistent (st : IndexState) : consistent (handleStartOver st).
Proof.
  unfold consistent, handleStartOver. cbn.
  repeat split; auto using storedScan_None.
Qed.

Lemma handleAnalyze_consistent (st st' : IndexState) (date : Date) :
  consistent st -> handleAnalyze st date = Some st' -> consistent st'.
Proof.
  unfold consistent. intros (H1 & H2 & H3 & H4 & H5) H.
  destruct (handleAnalyze_cases st date)
    as [E|(h & s & r & (Hh & Hs & Hd & Hr) & [[_ E]|(e & _ & E)])];
    rewrite E in H; injection H as <-.
  - exact (conj H1 (conj H2 (conj H3 (conj H4 H5)))).
  - pose proof (storedScan_Some r date h s Hd Hh Hs Hr) as Hnew.
    clear Hr E. unfold storeAnalysis.
    destruct (analysisMode st) eqn:Hm; cbn; rewrite ?Hm; cbn;
      repeat split; auto; try discriminate; now apply H5.
  - pose proof (storedScan_Some r date h s Hd Hh Hs Hr) as Hnew.
    clear Hr E. unfold storeResult, storeAnalysis.
    destruct (analysisMode st) eqn:Hm; cbn; rewrite ?Hm; cbn;
      repeat split; auto; try discriminate; now apply H5.
Qed.

Lemma step_consistent (st : IndexState) (ev : Event) :
  consistent st -> exists st', step st ev = Some st' /\ consistent st'.
Proof.
  intros Hc. destruct ev as [| |newPoints|date| |]; cbn [step].
  - eexists. split; [reflexivity|]. now apply handleImageUpload_consistent.
  - eexists. split; [reflexivity|]. now apply handleImageUpload_consistent.
  - eexists. split; [reflexivity|]. apply handlePointsChange_consistent; [|exact Hc].
    destruct Hc as (_ & _ & _ & _ & H5).
    destruct (analysisMode st); [right; now apply H5 | now left].
  - destruct (handleAnalyze_finishes st date) as (st' & E & _).
    exists st'. split; [exact E|]. now apply (handleAnalyze_consistent st st' date).
  - eexists. split; [reflexivity|]. now apply handleStartSecondPhoto_consistent.
  - eexists. split; [reflexivity|]. apply handleStartOver_consistent.
Qed.

Lemma run_consistent (events : list Event) (st : IndexState) :
  consistent st -> exists st', run st events = Some st' /\ consistent st'.
Proof.
  revert st. induction events as [|ev events IH]; intros st Hc; cbn [run].
  - now exists st.
  - destruct (step_consistent st ev Hc) as (st1 & -> & Hc1). now apply IH.
Qed.

Lemma storedScan_grid (data : option ShadowAnalysisResult) (date : option Date)
    (r : ShadowAnalysisResult) :
  storedScan data date -> data = Some r -> map coords (points r) = gridCoords.
Proof.
  intros H Hr. destruct (H r Hr) as (d & h & s & _ & _ & _ & _ & ->).
  apply gridScan_coords.
Qed.

Lemma consistent_render (st : IndexState) (first second : ShadowAnalysisResult)
    (inter : list IntersectionPoint) :
  consistent st -> render st = IntersectionMode first second inter ->
  analysisMode st = SecondPhoto
  /\ (firstShadowAnalysisData st = Some first
      /\ secondShadowAnalysisData st = Some second)
  /\ (map coords (points first) = gridCoords
      /\ map coords (points second) = gridCoords)
  /\ inter = flat_map cellIntersection (combine (points first) (points second)).
Proof.
  intros (H1 & H2 & _ & _ & H5). unfold render.
  destruct (getCurrentShadowAnalysisData st); [|discriminate].
  destruct (firstShadowAnalysisData st) as [r1|] eqn:E1; [|discriminate].
  destruct (secondShadowAnalysisData st) as [r2|] eqn:E2; [|discriminate].
  destruct (secondAnalysisDate st); [|discriminate].
  destruct (secondAnalysisMeasurements st); [|discriminate].
  intros H. injection H as <- <- <-.
  pose proof (storedScan_grid _ _ r1 H1 eq_refl) as G1.
  pose proof (storedScan_grid _ _ r2 H2 eq_refl) as G2.
  split.
  { destruct (analysisMode st); [|reflexivity]. destruct H5 as [H5 _]; [reflexivity|].
    discriminate. }
  split; [now split|]. split; [now split|].
  apply (intersection_cells (points r1) (points r2)); try reflexivity.
  - congruence.
  - rewrite G1. apply gridKeys_distinct.
Qed.

End Engine.

(** * Concrete runs *)

(** Test doubles for the external functions: the sun is above the horizon
    (altitude 1) over two cells of the grid only, which depend on the
    timestamp; [tan] maps that altitude to 1. *)
Definition stubAltitude (d : Date) (lat lng : Q) : Q :=
  match getTime d with
  | Some 0%Z => if ((lat === 0) || (lat === 10)) && (lng === 0) then 1 else -1
  | Some _ => if (lat === 0) && ((lng === 0) || (lng === 20)) then 1 else -1
  | None => -1
  end.

Definition stubTan (theta : Q) : Q := theta.
Definition stubCos (x : Q) : Q := 1.
Definition stubSqrt (x : Q) : Q := x.
Definition stubPI : Q := 3.

Definition date0 : Date := {| getTime := Some 0%Z |}.
Definition date1 : Date := {| getTime := Some 1%Z |}.
Definition invalidDate : Date := {| getTime := None |}.

(** Three marked points on a 100 x 100 image: the object and its shadow
    have the same length. *)
Definition demoPoints : list ClickPoint :=
  [ {| px := 50; py := 50; ptype := ObjectBottom;
       imageDisplayWidth := Some 100; imageDisplayHeight := Some 100 |};
    {| px := 50; py := 40; ptype := ObjectTop;
       imageDisplayWidth := Some 100; imageDisplayHeight := Some 100 |};
    {| px := 60; py := 50; ptype := ShadowTip;
       imageDisplayWidth := Some 100; imageDisplayHeight := Some 100 |} ].

Definition initialState : IndexState :=
  {| analysisMode := FirstPhoto;
     firstPoints := [];
     firstAnalysisResult := None;
     firstShadowAnalysisData := None;
     firstAnalysisDate := None;
     firstAnalysisMeasurements := None;
     secondPoints := [];
     secondAnalysisResult := None;
     secondShadowAnalysisData := None;
     secondAnalysisDate := None;
     secondAnalysisMeasurements := None;
     isAnalyzing := false |}.

Definition demoAnalyze (st : IndexState) (date : Date) : option IndexState :=
  handleAnalyze stubAltitude stubTan stubCos stubSqrt stubPI st date.

(** A session with two photos: mark the points of the first photo and
    analyse it, switch to the second photo, mark its points and analyse. *)
Definition afterFirstPhoto : option IndexState :=
  demoAnalyze (handlePointsChange stubSqrt demoPoints initialState) date0.

Definition beforeSecondAnalysis : option IndexState :=
  option_map (fun st => handlePointsChange stubSqrt demoPoints (handleStartSecondPhoto st))
             afterFirstPhoto.

Definition afterSecondPhoto : option IndexState :=
  match beforeSecondAnalysis return option IndexState with
  | Some st => demoAnalyze st date1
  | None => None
  end.

(** The joint best estimate in the words of the specification (4.5): the
    estimator of 4.4 applied to the intersection points, each scored by its
    [combinedLikelihood].  The source has no counterpart of it; it is
    defined here to be compared with what the source computes. *)
Definition jointEstimate_spec (cos : Q -> Q) (pi : Q) (first second : ShadowAnalysisResult)
    : outcome BestLocation :=
  estimateBestLocation cos pi
    (summarize
       (map (fun ip => {| lat := lat (secondPoint ip);
                          lng := lng (secondPoint ip);
                          likelihood := combinedLikelihood ip |})
            (intersectionPoints first second))).

Definition storedEstimates (st : IndexState) : option BestLocation * option BestLocation :=
  (firstAnalysisResult st, secondAnalysisResult st).

Definition renderedIntersection (st : IndexState) : option (list IntersectionPoint) :=
  match render st with
  | IntersectionMode _ _ inter => Some inter
  | _ => None
  end.

Definition jointEstimateOf (st : IndexState) : option (outcome BestLocation) :=
  match firstShadowAnalysisData st, secondShadowAnalysisData st with
  | Some first, Some second => Some (jointEstimate_spec stubCos stubPI first second)
  | _, _ => None
  end.

(** The state in which the second photo of the session is analysed. *)
Definition secondPhotoState : IndexState :=
  handlePointsChange stubSqrt demoPoints
    (handleStartSecondPhoto
       (match afterFirstPhoto return IndexState with
        | Some st => st
        | None => initialState
        end)).

Definition demoInput : ShadowAnalysisInput :=
  {| objectHeight := 100; shadowLength := 100; knownTime := date0 |}.

Definition demoScan : list ShadowFinderPoint := gridScan stubAltitude stubTan date0 100 100.

(** A short list of scored points: two within the main band, a night point
    and a poor match. *)
Definition demoResult : ShadowAnalysisResult :=
  summarize [ {| lat := 10; lng := 20; likelihood := 0.05 |};
              {| lat := 12; lng := 26; likelihood := 0.02 |};
              {| lat := 50; lng := 50; likelihood := -1 |};
              {| lat := 0; lng := 0; likelihood := 0.5 |} ].

(** * Validation of the input *)

Lemma gridPoint_tan_ext (alt : Date -> Q -> Q -> Q) (tan tan' : Q -> Q)
    (d : Date) (h s la lo : Q) :
  (0 < alt d la lo -> tan' (alt d la lo) = tan (alt d la lo)) ->
  gridPoint alt tan' d h s la lo = gridPoint alt tan d h s la lo.
Proof.
  intros Htan. unfold gridPoint.
  destruct (alt d la lo <=? 0) eqn:E; [reflexivity|].
  apply le_false in E. now rewrite (Htan E).
Qed.

Lemma analyze_scan_ext (alt alt' : Date -> Q -> Q -> Q) (tan tan' : Q -> Q)
    (input : ShadowAnalysisInput) :
  gridScan alt' tan' (knownTime input) (objectHeight input) (shadowLength input)
  = gridScan alt tan (knownTime input) (objectHeight input) (shadowLength input) ->
  analyzeShadowMeasurements alt' tan' input = analyzeShadowMeasurements alt tan input.
Proof.
  intros Hscan.
  destruct (analyze_cases alt tan input) as [[E H]|[[E (H1 & H2)]|[E ([Hh Hs] & Hd)]]];
    rewrite E.
  - now apply analyze_invalid_measurements.
  - destruct H1. now apply analyze_invalid_date.
  - rewrite analyze_valid by assumption. now rewrite Hscan.
Qed.

Lemma gridPointChecked_safe (alt : Date -> Q -> Q -> Q) (tan : Q -> Q)
    (d : Date) (h s la lo : Q) :
  0 < s -> (0 < alt d la lo -> ~ tan (alt d la lo) == 0) ->
  gridPointChecked alt tan d h s la lo = Some (gridPoint alt tan d h s la lo).
Proof.
  intros Hs Htan. unfold gridPointChecked, gridPoint, checkedDiv.
  destruct (alt d la lo <=? 0) eqn:E; [reflexivity|].
  apply le_false in E.
  destruct (tan (alt d la lo) === 0) eqn:E1.
  { apply eq_true in E1. now destruct (Htan E). }
  destruct (s === 0) eqn:E2.
  { apply eq_true in E2. lra. }
  reflexivity.
Qed.

(** C5.  The analysis throws the invalid-measurement error exactly when
    the object height or the shadow length is not positive, whatever the
    other inputs, and, the measurements being checked first, the
    invalid-timestamp error exactly when they are positive and the timestamp
    is not a valid instant.  Both checks come before the scan: on an invalid
    input the outcome is the same whatever the solar positions and [tan]
    are.  A valid input always yields a result over the whole grid, so
    nothing is thrown from within the sweep.  [tan] is only consulted at
    altitudes above the horizon: its values elsewhere do not change the
    result.  As the tangent of an altitude above the horizon is not 0 (the
    tangent has no zero on (0, pi/2], where these altitudes lie), no point
    of the sweep is scored with a division by zero. *)
Theorem analyzeShadowMeasurements_validation (alt : Date -> Q -> Q -> Q) (tan : Q -> Q)
    (input : ShadowAnalysisInput) :
  (analyzeShadowMeasurements alt tan input = Throw InvalidMeasurements <->
     objectHeight input <= 0 \/ shadowLength input <= 0)
  /\ (analyzeShadowMeasurements alt tan input = Throw InvalidDateTime <->
        (0 < objectHeight input /\ 0 < shadowLength input)
        /\ isNaN_getTime (knownTime input) = true)
  /\ (objectHeight input <= 0 \/ shadowLength input <= 0
       \/ isNaN_getTime (knownTime input) = true ->
      forall alt' tan',
        analyzeShadowMeasurements alt' tan' input = analyzeShadowMeasurements alt tan input)
  /\ (0 < objectHeight input -> 0 < shadowLength input ->
      isNaN_getTime (knownTime input) = false ->
      exists r, analyzeShadowMeasurements alt tan input = Ok r
                /\ map coords (points r) = gridCoords)
  /\ (forall tan',
        (forall la lo, 0 < alt (knownTime input) la lo ->
           tan' (alt (knownTime input) la lo) = tan (alt (knownTime input) la lo)) ->
        analyzeShadowMeasurements alt tan' input = analyzeShadowMeasurements alt tan input)
  /\ (0 < shadowLength input ->
      (forall la lo, 0 < alt (knownTime input) la lo ->
         ~ tan (alt (knownTime input) la lo) == 0) ->
      forall la lo,
        gridPointChecked alt tan (knownTime input) (objectHeight input)
          (shadowLength input) la lo
        = Some (gridPoint alt tan (knownTime input) (objectHeight input)
                  (shadowLength input) la lo)).
Proof.
  assert (Hcases := analyze_cases alt tan input).
  split; [|split; [|split; [|split; [|split]]]].
  - split.
    + intros E. destruct Hcases as [[_ H]|[[E' _]|[E' _]]]; [exact H| |];
        rewrite E in E'; discriminate.
    + apply analyze_invalid_measurements.
  - split.
    + intros E. destruct Hcases as [[E' _]|[[_ H]|[E' _]]]; [|exact H|];
        rewrite E in E'; discriminate.
    + intros [[Hh Hs] Hd]. now apply analyze_invalid_date.
  - intros Hbad alt' tan'.
    destruct Hcases as [[E H]|[[E (H1 & H2)]|[E ([Hh Hs] & Hd)]]]; rewrite E.
    + now apply analyze_invalid_measurements.
    + destruct H1. now apply analyze_invalid_date.
    + destruct Hbad as [H|[H|H]]; [lra | lra | congruence].
  - intros Hh Hs Hd. eexists. split; [now apply analyze_valid|].
    cbn [points summarize]. apply gridScan_coords.
  - intros tan' Htan. apply analyze_scan_ext. unfold gridScan.
    apply flat_map_ext. intros la. apply map_ext. intros lo.
    apply gridPoint_tan_ext. apply Htan.
  - intros Hs Htan la lo. apply gridPointChecked_safe; [exact Hs | apply Htan].
Qed.

(** The measurements are checked first: with an object height of 0 the
    error is the invalid-measurement one, also when the timestamp is
    invalid. *)
Example measurements_checked_first :
  isNaN_getTime (knownTime {| objectHeight := 0; shadowLength := 1;
                              knownTime := invalidDate |}) = true
  /\ analyzeShadowMeasurements stubAltitude stubTan
       {| objectHeight := 0; shadowLength := 1; knownTime := invalidDate |}
     = Throw InvalidMeasurements
  /\ analyzeShadowMeasurements stubAltitude stubTan
       {| objectHeight := 0; shadowLength := 1; knownTime := invalidDate |}
     <> Throw InvalidDateTime.
Proof.
  split; [reflexivity|].
  assert (E : analyzeShadowMeasurements stubAltitude stubTan
                {| objectHeight := 0; shadowLength := 1; knownTime := invalidDate |}
              = Throw InvalidMeasurements) by reflexivity.
  split; [exact E|]. rewrite E. discriminate.
Qed.

(** In the two-photo session the first scan matches the cells (0, 0) and
    (10, 0) and the second the cells (0, 0) and (0, 20).  The estimates the
    program holds at the end are those of the two scans taken alone, at
    (5, 0) and (0, 10); the one intersection point, at (0, 0), is rendered,
    and the joint estimate of the specification, which is (0, 0) with
    accuracy 1, is none of the two. *)
Lemma two_photo_no_joint_estimate :
  option_map storedEstimates afterSecondPhoto
  = Some (Some {| latitude := 5; longitude := 0; accuracy := 555 |},
          Some {| latitude := 0; longitude := 10; accuracy := 1110 |})
  /\ option_map renderedIntersection afterSecondPhoto
     = Some (Some [ {| secondPoint := {| lat := 0; lng := 0; likelihood := 0 |};
                       combinedLikelihood := 0;
                       isIntersection := true |} ])
  /\ option_map jointEstimateOf afterSecondPhoto
     = Some (Some (Ok {| latitude := 0; longitude := 0; accuracy := 1 |})).
Proof. vm_compute. repeat split. Qed.

(** * Sessions of the page *)

Section Sessions.

Variable SunCalc_altitude : Date -> Q -> Q -> Q.
Variables Math_tan Math_cos Math_sqrt : Q -> Q.
Variable Math_PI : Q.

Lemma initialState_consistent : consistent SunCalc_altitude Math_tan initialState.
Proof.
  unfold consistent, initialState. cbn.
  repeat split; auto using storedScan_None.
Qed.

(** X23.  Whatever the user does, from the page as it opens: every handler
    finishes, and in the state reached each stored scan is the scan of the
    grid for the date stored with it (a valid one) and for two positive
    measurements; an estimate is stored only beside a scan; and as long as
    the page is on the first photo nothing of the second photo is
    stored. *)
Theorem session_scans (events : list Event) :
  exists st',
    run SunCalc_altitude Math_tan Math_cos Math_sqrt Math_PI initialState events = Some st'
    /\ (forall r, firstShadowAnalysisData st' = Some r ->
          exists d h s,
            firstAnalysisDate st' = Some d /\ isNaN_getTime d = false /\ 0 < h /\ 0 < s
            /\ r = summarize (gridScan SunCalc_altitude Math_tan d h s))
    /\ (forall r, secondShadowAnalysisData st' = Some r ->
          exists d h s,
            secondAnalysisDate st' = Some d /\ isNaN_getTime d = false /\ 0 < h /\ 0 < s
            /\ r = summarize (gridScan SunCalc_altitude Math_tan d h s))
    /\ (firstShadowAnalysisData st' = None -> firstAnalysisResult st' = None)
    /\ (secondShadowAnalysisData st' = None -> secondAnalysisResult st' = None)
    /\ (analysisMode st' = FirstPhoto ->
        secondShadowAnalysisData st' = None /\ secondPoints st' = []).
Proof.
  destruct (run_consistent SunCalc_altitude Math_tan Math_cos Math_sqrt Math_PI
              events initialState initialState_consistent) as (st' & E & Hc).
  exists st'. split; [exact E | exact Hc].
Qed.

(** X24.  Whatever the user does, from the page as it opens: when the page
    draws the intersection, it is on the second photo, the two scans drawn
    are the two stored scans, both over the whole grid, and the
    intersection points are computed cell by cell: a cell gives a point
    exactly when it is drawn in both scans, and the point carries the larger
    of the two likelihoods. *)
Theorem session_intersection (events : list Event) :
  exists st',
    run SunCalc_altitude Math_tan Math_cos Math_sqrt Math_PI initialState events = Some st'
    /\ forall first second inter,
         render st' = IntersectionMode first second inter ->
         analysisMode st' = SecondPhoto
         /\ (firstShadowAnalysisData st' = Some first
             /\ secondShadowAnalysisData st' = Some second)
         /\ (map coords (points first) = gridCoords
             /\ map coords (points second) = gridCoords)
         /\ inter
            = flat_map (fun cell : ShadowFinderPoint * ShadowFinderPoint =>
                          let (p1, p2) := cell in
                          if isVisible p1 && isVisible p2 then
                            [ {| secondPoint := p2;
                                 combinedLikelihood := Qmax (likelihood p1) (likelihood p2);
                                 isIntersection := true |} ]
                          else [])
                       (combine (points first) (points second)).
Proof.
  destruct (run_consistent SunCalc_altitude Math_tan Math_cos Math_sqrt Math_PI
              events initialState initialState_consistent) as (st' & E & Hc).
  exists st'. split; [exact E|].
  intros first second inter Hr.
  exact (consistent_render SunCalc_altitude Math_tan st' first second inter Hc Hr).
Qed.

End Sessions.

(** * Witnesses *)

Lemma generateShadowFinderGrid_grid_witness :
  (0 < 100 /\ isNaN_getTime date0 = false)
  /\ exists pts,
       generateShadowFinderGrid stubAltitude stubTan date0 100 100 = Ok pts
       /\ length pts = (290 * 720)%nat
       /\ Z.of_nat (length pts) = 208800%Z
       /\ map coords pts = gridCoords
       /\ Forall (fun p => inGridBounds (coords p)) pts
       /\ (forall i j, (i < 290)%nat -> (j < 720)%nat ->
             exists p, nth_error pts (i * 720 + j) = Some p
                       /\ lat p == -60 + inject_Z (Z.of_nat i) * 0.5
                       /\ lng p == -180 + inject_Z (Z.of_nat j) * 0.5).
Proof.
  split; [split; reflexivity|].
  apply (generateShadowFinderGrid_grid stubAltitude stubTan date0 100 100);
    reflexivity.
Defined.

Lemma scan_likelihood_witness :
  (0 < 100 /\ generateShadowFinderGrid stubAltitude stubTan date0 100 100 = Ok demoScan)
  /\ Forall (fun p =>
       (stubAltitude date0 (lat p) (lng p) <= 0 -> likelihood p = -1)
       /\ (0 < stubAltitude date0 (lat p) (lng p) ->
           likelihood p
           == Qabs (100 ⊘ stubTan (stubAltitude date0 (lat p) (lng p)) - 100) / 100
           /\ 0 <= likelihood p
           /\ (likelihood p == 0 <->
               100 ⊘ stubTan (stubAltitude date0 (lat p) (lng p)) == 100))) demoScan.
Proof.
  assert (H : generateShadowFinderGrid stubAltitude stubTan date0 100 100 = Ok demoScan)
    by (apply generateShadowFinderGrid_valid; reflexivity).
  split; [split; [reflexivity | exact H]|].
  apply (scan_likelihood stubAltitude stubTan date0 100 100 demoScan);
    [reflexivity | reflexivity | exact H].
Defined.

Lemma estimateBestLocation_centroid_witness :
  List.filter (inBand 0.1) (points demoResult) <> []
  /\ exists e,
       estimateBestLocation stubCos stubPI demoResult = Ok e
       /\ latitude e == mean [10; 12]
       /\ longitude e == mean [20; 26]
       /\ 1 <= accuracy e.
Proof.
  assert (Hne : List.filter (inBand 0.1) (points demoResult) <> []) by discriminate.
  split; [exact Hne|].
  destruct (estimateBestLocation_centroid stubCos stubPI demoResult Hne)
    as (e & He & Hlat & Hlng & _ & Hacc & _).
  exists e. exact (conj He (conj Hlat (conj Hlng Hacc))).
Defined.

Lemma band_counts_witness :
  analyzeShadowMeasurements stubAltitude stubTan demoInput = Ok (summarize demoScan)
  /\ (ultraTightBandPoints (statistics (summarize demoScan))
      <= tightBandPoints (statistics (summarize demoScan)))%nat
  /\ (tightBandPoints (statistics (summarize demoScan))
      <= visibleBandPoints (statistics (summarize demoScan)))%nat.
Proof.
  assert (H : analyzeShadowMeasurements stubAltitude stubTan demoInput
              = Ok (summarize demoScan))
    by (apply analyze_valid; reflexivity).
  split; [exact H|].
  destruct (band_counts stubAltitude stubTan demoInput (summarize demoScan) H)
    as [[H1 H2] _].
  exact (conj H1 H2).
Defined.

Lemma main_band_envelope_witness :
  (0 < objectHeight demoInput /\ 0 < shadowLength demoInput
   /\ isNaN_getTime (knownTime demoInput) = false)
  /\ exists r,
       analyzeShadowMeasurements stubAltitude stubTan demoInput = Ok r
       /\ (points r = demoScan /\ map coords (points r) = gridCoords)
       /\ List.filter (inBand 0.1) (points r) <> []
       /\ (latRange (mainBandCoordinates r) = (0, 10)
           /\ lngRange (mainBandCoordinates r) = (0, 0))
       /\ (isMinOf (map lat (List.filter (inBand 0.1) (points r)))
                   (fst (latRange (mainBandCoordinates r)))
           /\ isMaxOf (map lat (List.filter (inBand 0.1) (points r)))
                      (snd (latRange (mainBandCoordinates r)))
           /\ isMinOf (map lng (List.filter (inBand 0.1) (points r)))
                      (fst (lngRange (mainBandCoordinates r)))
           /\ isMaxOf (map lng (List.filter (inBand 0.1) (points r)))
                      (snd (lngRange (mainBandCoordinates r)))).
Proof.
  split; [exact (conj eq_refl (conj eq_refl eq_refl))|].
  destruct (main_band_envelope stubAltitude stubTan demoInput eq_refl eq_refl eq_refl)
    as (r & Hr & [_ Hgrid] & _ & _ & Hrange).
  assert (Hscan : r = summarize demoScan).
  { rewrite (analyze_valid stubAltitude stubTan demoInput eq_refl eq_refl eq_refl) in Hr.
    injection Hr as <-. reflexivity. }
  assert (Hne : List.filter (inBand 0.1) (points r) <> []).
  { rewrite Hscan. intros E. apply (f_equal (@length ShadowFinderPoint)) in E.
    vm_compute in E. discriminate E. }
  exists r. split; [exact Hr|]. split.
  { split; [rewrite Hscan; reflexivity | exact Hgrid]. }
  split; [exact Hne|]. split.
  { rewrite Hscan. split; vm_compute; reflexivity. }
  exact (Hrange Hne).
Defined.

Lemma estimateBestLocation_in_grid_witness :
  (Forall (fun p => inGridBounds (coords p)) (points demoResult)
   /\ estimateBestLocation stubCos stubPI demoResult
      = Ok {| latitude := 11; longitude := 23; accuracy := 333 |})
  /\ (-60 <= 11 /\ 11 <= 84.5) /\ (-180 <= 23 /\ 23 <= 179.5).
Proof.
  assert (Hgrid : Forall (fun p => inGridBounds (coords p)) (points demoResult)).
  { repeat constructor; cbn; discriminate. }
  assert (He : estimateBestLocation stubCos stubPI demoResult
               = Ok {| latitude := 11; longitude := 23; accuracy := 333 |})
    by (vm_compute; reflexivity).
  split; [exact (conj Hgrid He)|].
  apply (estimateBestLocation_in_grid stubCos stubPI demoResult _ Hgrid He).
Defined.

Lemma intersection_same_grid_witness :
  (map coords (points (summarize demoScan)) = gridCoords
   /\ map coords (points (summarize (gridScan stubAltitude stubTan date1 100 100)))
      = gridCoords)
  /\ intersectionPoints (summarize demoScan)
       (summarize (gridScan stubAltitude stubTan date1 100 100))
     = flat_map (fun cell : ShadowFinderPoint * ShadowFinderPoint =>
                   let (p1, p2) := cell in
                   if isVisible p1 && isVisible p2 then
                     [ {| secondPoint := p2;
                          combinedLikelihood := Qmax (likelihood p1) (likelihood p2);
                          isIntersection := true |} ]
                   else [])
                (combine demoScan (gridScan stubAltitude stubTan date1 100 100)).
Proof.
  assert (H1 : map coords (points (summarize demoScan)) = gridCoords)
    by apply gridScan_coords.
  assert (H2 : map coords (points (summarize (gridScan stubAltitude stubTan date1 100 100)))
               = gridCoords) by apply gridScan_coords.
  split; [exact (conj H1 H2)|].
  apply (intersection_same_grid _ _ H1 H2).
Defined.

Lemma two_photo_estimates_witness :
  analysisMode secondPhotoState = SecondPhoto
  /\ exists st',
       demoAnalyze secondPhotoState date1 = Some st'
       /\ firstAnalysisResult st' = firstAnalysisResult secondPhotoState
       /\ secondShadowAnalysisData st'
          = Some (summarize (gridScan stubAltitude stubTan date1 100 100))
       /\ secondAnalysisResult st'
          = Some {| latitude := 0; longitude := 10; accuracy := 1110 |}.
Proof.
  split; [reflexivity|].
  destruct (two_photo_estimates stubAltitude stubTan stubCos stubSqrt stubPI
              secondPhotoState date1 eq_refl) as (st' & H1 & H2 & _ & _ & Hscan & _).
  destruct (Hscan
              {| px := 50; py := 50; ptype := ObjectBottom;
                 imageDisplayWidth := Some 100; imageDisplayHeight := Some 100 |}
              {| px := 50; py := 40; ptype := ObjectTop;
                 imageDisplayWidth := Some 100; imageDisplayHeight := Some 100 |}
              {| px := 60; py := 50; ptype := ShadowTip;
                 imageDisplayWidth := Some 100; imageDisplayHeight := Some 100 |}
              100 100 (100, 100)
              eq_refl eq_refl eq_refl eq_refl eq_refl eq_refl eq_refl eq_refl eq_refl)
    as (Hdata & Hok & _).
  exists st'. split; [exact H1|]. split; [exact H2|]. split; [exact Hdata|].
  apply Hok. vm_compute. reflexivity.
Defined.

(** * Witnesses of the further properties *)

(** Three clicks on a 256 x 128 image whose corner is at (10, 20): the base
    of the object at (128, 96) of the image, its top 32 pixels above, the
    tip of the shadow 64 pixels to the right. *)
Definition click1 : ClickEvent :=
  {| clientX := 138; clientY := 116; rectLeft := 10; rectTop := 20;
     rectWidth := 256; rectHeight := 128 |}.
Definition click2 : ClickEvent :=
  {| clientX := 138; clientY := 84; rectLeft := 10; rectTop := 20;
     rectWidth := 256; rectHeight := 128 |}.
Definition click3 : ClickEvent :=
  {| clientX := 202; clientY := 116; rectLeft := 10; rectTop := 20;
     rectWidth := 256; rectHeight := 128 |}.

(** A stored point converted back to pixels with the display size of the
    first click. *)
Definition pixelsOf (p : ClickPoint) : Coords :=
  convertPercentageToPixels (coordsOf p) (rectWidth click1) (rectHeight click1).

(** The measurements of the three clicks. *)
Definition clickMeasurements : Q * Q :=
  calculateMeasurementsFromPixels stubSqrt
    (pixelsOf (clickedPoint click1 ObjectBottom))
    (pixelsOf (clickedPoint click2 ObjectTop))
    (pixelsOf (clickedPoint click3 ShadowTip)).

Definition afterClicks : IndexState :=
  snd (clicksOnImage stubSqrt [click1; click2; click3]
         {| markedPoints := []; currentStep := 0 |} initialState).

(** The page with the three demonstration points marked. *)
Definition markedState : IndexState := handlePointsChange stubSqrt demoPoints initialState.

(** Three points with the top of the object on its base. *)
Definition coincidentPoints : list ClickPoint :=
  [ {| px := 50; py := 50; ptype := ObjectBottom;
       imageDisplayWidth := Some 100; imageDisplayHeight := Some 100 |};
    {| px := 50; py := 50; ptype := ObjectTop;
       imageDisplayWidth := Some 100; imageDisplayHeight := Some 100 |};
    {| px := 60; py := 50; ptype := ShadowTip;
       imageDisplayWidth := Some 100; imageDisplayHeight := Some 100 |} ].

(** A parser that knows one date. *)
Definition stubParse (dateString : string) : Date :=
  if String.eqb dateString "2024-06-21T12:00Z" then date0 else invalidDate.

Definition afterPanelClick : IndexState :=
  match demoAnalyze markedState date0 return IndexState with
  | Some st => st
  | None => markedState
  end.

Lemma statistics_partition_witness :
  analyzeShadowMeasurements stubAltitude stubTan demoInput = Ok (summarize demoScan)
  /\ (nightPoints (statistics (summarize demoScan))
      + validPoints (statistics (summarize demoScan))
      = totalPoints (statistics (summarize demoScan)))%nat
  /\ Z.of_nat (totalPoints (statistics (summarize demoScan))) = 208800%Z.
Proof.
  assert (H : analyzeShadowMeasurements stubAltitude stubTan demoInput
              = Ok (summarize demoScan))
    by (apply analyze_valid; reflexivity).
  split; [exact H|].
  destruct (statistics_partition stubAltitude stubTan demoInput (summarize demoScan) H)
    as (H1 & _ & H3 & _).
  exact (conj H1 H3).
Defined.

Lemma envelope_in_grid_witness :
  analyzeShadowMeasurements stubAltitude stubTan demoInput = Ok (summarize demoScan)
  /\ -60 <= fst (latRange (mainBandCoordinates (summarize demoScan)))
  /\ snd (lngRange (mainBandCoordinates (summarize demoScan))) <= 179.5.
Proof.
  assert (H : analyzeShadowMeasurements stubAltitude stubTan demoInput
              = Ok (summarize demoScan))
    by (apply analyze_valid; reflexivity).
  split; [exact H|].
  destruct (envelope_in_grid stubAltitude stubTan demoInput (summarize demoScan) H)
    as ((H1 & _) & (_ & _ & H2)).
  exact (conj H1 H2).
Defined.

Lemma estimate_within_envelope_witness :
  analyzeShadowMeasurements stubAltitude stubTan demoInput = Ok (summarize demoScan)
  /\ ((estimateBestLocation stubCos stubPI (summarize demoScan) = Throw NoSuitableMatches
       /\ List.filter (inBand 0.1) (points (summarize demoScan)) = [])
      \/ exists e,
           estimateBestLocation stubCos stubPI (summarize demoScan) = Ok e
           /\ fst (latRange (mainBandCoordinates (summarize demoScan))) <= latitude e
           /\ latitude e <= snd (latRange (mainBandCoordinates (summarize demoScan)))).
Proof.
  assert (H : analyzeShadowMeasurements stubAltitude stubTan demoInput
              = Ok (summarize demoScan))
    by (apply analyze_valid; reflexivity).
  split; [exact H|].
  destruct (estimate_within_envelope stubAltitude stubTan stubCos stubPI
              demoInput (summarize demoScan) H)
    as [H1|(e & He & _ & (H2 & H3) & _)].
  - left. exact H1.
  - right. exists e. exact (conj He (conj H2 H3)).
Defined.

Lemma estimateBestLocation_order_witness :
  (map coords (points (summarize demoScan)) = gridCoords
   /\ Permutation (points (summarize demoScan)) (points (summarize (rev demoScan))))
  /\ estimateBestLocation stubCos stubPI (summarize demoScan)
     = estimateBestLocation stubCos stubPI (summarize (rev demoScan)).
Proof.
  assert (Hgrid : map coords (points (summarize demoScan)) = gridCoords)
    by apply gridScan_coords.
  assert (H : Permutation (points (summarize demoScan))
                (points (summarize (rev demoScan))))
    by exact (Permutation_rev demoScan).
  split; [exact (conj Hgrid H)|].
  apply (estimateBestLocation_order stubCos stubPI _ _ Hgrid H).
Defined.

Lemma drawn_points_counted_witness :
  analyzeShadowMeasurements stubAltitude stubTan demoInput = Ok (summarize demoScan)
  /\ length (List.filter isVisible (points (summarize demoScan)))
     = visibleBandPoints (statistics (summarize demoScan)).
Proof.
  assert (H : analyzeShadowMeasurements stubAltitude stubTan demoInput
              = Ok (summarize demoScan))
    by (apply analyze_valid; reflexivity).
  split; [exact H|].
  destruct (drawn_points_counted stubAltitude stubTan demoInput (summarize demoScan) H)
    as [_ H2].
  exact H2.
Defined.

Lemma intersection_self_witness :
  map coords (points (summarize demoScan)) = gridCoords
  /\ intersectionPoints (summarize demoScan) (summarize demoScan)
     = map (fun p => {| secondPoint := p;
                        combinedLikelihood := likelihood p;
                        isIntersection := true |})
           (List.filter isVisible (points (summarize demoScan))).
Proof.
  assert (H : map coords (points (summarize demoScan)) = gridCoords)
    by apply gridScan_coords.
  split; [exact H|].
  apply (intersection_self _ H).
Defined.

Lemma intersection_symmetric_witness :
  (map coords (points (summarize demoScan)) = gridCoords
   /\ map coords (points (summarize (gridScan stubAltitude stubTan date1 100 100)))
      = gridCoords)
  /\ Forall2 (fun ip ip' =>
                coords (secondPoint ip) = coords (secondPoint ip')
                /\ combinedLikelihood ip == combinedLikelihood ip')
             (intersectionPoints (summarize demoScan)
                (summarize (gridScan stubAltitude stubTan date1 100 100)))
             (intersectionPoints (summarize (gridScan stubAltitude stubTan date1 100 100))
                (summarize demoScan)).
Proof.
  assert (H1 : map coords (points (summarize demoScan)) = gridCoords)
    by apply gridScan_coords.
  assert (H2 : map coords (points (summarize (gridScan stubAltitude stubTan date1 100 100)))
               = gridCoords) by apply gridScan_coords.
  split; [exact (conj H1 H2)|].
  apply (intersection_symmetric _ _ H1 H2).
Defined.

Lemma measurements_preview_witness :
  length demoPoints = 3%nat
  /\ getCurrentMeasurements markedState = Some (100, 100).
Proof.
  split; [reflexivity|].
  destruct (measurements_preview stubAltitude stubTan stubCos stubSqrt stubPI
              demoPoints initialState
              {| px := 50; py := 50; ptype := ObjectBottom;
                 imageDisplayWidth := Some 100; imageDisplayHeight := Some 100 |}
              {| px := 50; py := 40; ptype := ObjectTop;
                 imageDisplayWidth := Some 100; imageDisplayHeight := Some 100 |}
              {| px := 60; py := 50; ptype := ShadowTip;
                 imageDisplayWidth := Some 100; imageDisplayHeight := Some 100 |}
              100 100 eq_refl eq_refl eq_refl eq_refl eq_refl eq_refl) as [H _].
  exact H.
Defined.

Lemma three_clicks_measure_witness :
  (~ rectWidth click1 == 0 /\ ~ rectHeight click1 == 0)
  /\ getCurrentPoints afterClicks
     = [clickedPoint click1 ObjectBottom; clickedPoint click2 ObjectTop;
        clickedPoint click3 ShadowTip]
  /\ getCurrentMeasurements afterClicks = Some clickMeasurements
  /\ clickMeasurements = (1024, 4096).
Proof.
  assert (Hw : ~ rectWidth click1 == 0) by (intros H; discriminate H).
  assert (Hh : ~ rectHeight click1 == 0) by (intros H; discriminate H).
  split; [exact (conj Hw Hh)|].
  destruct (three_clicks_measure stubSqrt click1 click2 click3 initialState Hw Hh)
    as [H1 H2].
  split; [exact H1|]. split; [exact H2 | reflexivity].
Defined.

Lemma performShadowAnalysis_errors_witness :
  performShadowAnalysis stubAltitude stubTan stubCos stubSqrt stubPI markedState invalidDate
  = (markedState, Throw InvalidDateTime)
  /\ (InvalidDateTime = InvalidDateTime -> isNaN_getTime invalidDate = true)
  /\ (InvalidDateTime <> NoSuitableMatches -> markedState = markedState).
Proof.
  assert (H : performShadowAnalysis stubAltitude stubTan stubCos stubSqrt stubPI
                markedState invalidDate
              = (markedState, Throw InvalidDateTime)) by (vm_compute; reflexivity).
  split; [exact H|].
  destruct (performShadowAnalysis_errors stubAltitude stubTan stubCos stubSqrt stubPI
              markedState markedState invalidDate InvalidDateTime H)
    as (_ & H2 & H3 & _).
  exact (conj H2 H3).
Defined.

Lemma coincident_points_rejected_witness :
  stubSqrt 0 <= 0
  /\ performShadowAnalysis stubAltitude stubTan stubCos stubSqrt stubPI
       (handlePointsChange stubSqrt coincidentPoints initialState) date0
     = (handlePointsChange stubSqrt coincidentPoints initialState,
        Throw InvalidMeasurements).
Proof.
  assert (H0 : stubSqrt 0 <= 0) by (intros H; discriminate H).
  split; [exact H0|].
  apply (coincident_points_rejected stubAltitude stubTan stubCos stubSqrt stubPI
           (handlePointsChange stubSqrt coincidentPoints initialState) date0
           {| px := 50; py := 50; ptype := ObjectBottom;
              imageDisplayWidth := Some 100; imageDisplayHeight := Some 100 |}
           {| px := 50; py := 50; ptype := ObjectTop;
              imageDisplayWidth := Some 100; imageDisplayHeight := Some 100 |}
           {| px := 60; py := 50; ptype := ShadowTip;
              imageDisplayWidth := Some 100; imageDisplayHeight := Some 100 |}
           100 100); try reflexivity; exact H0.
Defined.

Lemma AnalysisPanel_invalid_date_witness :
  nonEmpty "2024-13-45" = true
  /\ isNaN_getTime (stubParse ("2024-13-45" +:+ "T" +:+ "12:00" +:+ "Z")) = true
  /\ AnalysisPanel_handleAnalyze stubAltitude stubTan stubCos stubSqrt stubPI stubParse
       "2024-13-45" "12:00" markedState
     = Throw RangeErrorInvalidTime.
Proof.
  assert (Hd : isNaN_getTime (stubParse ("2024-13-45" +:+ "T" +:+ "12:00" +:+ "Z")) = true)
    by reflexivity.
  split; [reflexivity|]. split; [exact Hd|].
  destruct (AnalysisPanel_invalid_date stubAltitude stubTan stubCos stubSqrt stubPI
              stubParse "2024-13-45" "12:00" markedState eq_refl) as [H _].
  exact (H Hd).
Defined.

Lemma AnalysisPanel_click_guard_witness :
  AnalysisPanel_click stubAltitude stubTan stubCos stubSqrt stubPI stubParse
    "2024-06-21" "12:00" markedState = Ok afterPanelClick
  /\ afterPanelClick <> markedState
  /\ length (getCurrentPoints markedState) = 3%nat
  /\ nonEmpty "2024-06-21" = true
  /\ isAnalyzing markedState = false.
Proof.
  assert (H : AnalysisPanel_click stubAltitude stubTan stubCos stubSqrt stubPI stubParse
                "2024-06-21" "12:00" markedState = Ok afterPanelClick).
  { unfold afterPanelClick, demoAnalyze.
    destruct (handleAnalyze_finishes stubAltitude stubTan stubCos stubSqrt stubPI
                markedState date0) as (st' & E & _).
    rewrite E. unfold AnalysisPanel_click, AnalysisPanel_handleAnalyze.
    change (negb (isReady (getCurrentPoints markedState) "2024-06-21")
            || isAnalyzing markedState) with false.
    change (nonEmpty "2024-06-21") with true.
    change (stubParse ("2024-06-21" +:+ "T" +:+ "12:00" +:+ "Z")) with date0.
    cbn [Date_toISOString getTime date0 bind]. rewrite E. reflexivity. }
  assert (Hne : afterPanelClick <> markedState).
  { intros E. apply (f_equal firstAnalysisDate) in E. vm_compute in E. discriminate E. }
  split; [exact H|]. split; [exact Hne|].
  destruct (AnalysisPanel_click_guard stubAltitude stubTan stubCos stubSqrt stubPI
              stubParse "2024-06-21" "12:00" markedState afterPanelClick H) as [H1 _].
  exact (H1 Hne).
Defined.

Lemma clicks_then_analyze_witness :
  ((~ rectWidth click1 == 0 /\ ~ rectHeight click1 == 0)
   /\ (0 < fst clickMeasurements /\ 0 < snd clickMeasurements)
   /\ isNaN_getTime date0 = false)
  /\ exists st',
       demoAnalyze afterClicks date0 = Some st'
       /\ getCurrentShadowAnalysisData st'
          = Some (summarize
                    (gridScan stubAltitude stubTan date0
                       (fst clickMeasurements) (snd clickMeasurements)))
       /\ getCurrentMeasurements st' = Some clickMeasurements.
Proof.
  assert (Hw : ~ rectWidth click1 == 0) by (intros H; discriminate H).
  assert (Hh : ~ rectHeight click1 == 0) by (intros H; discriminate H).
  assert (H1 : 0 < fst clickMeasurements) by reflexivity.
  assert (H2 : 0 < snd clickMeasurements) by reflexivity.
  split; [exact (conj (conj Hw Hh) (conj (conj H1 H2) eq_refl))|].
  destruct (clicks_then_analyze stubAltitude stubTan stubCos stubSqrt stubPI
              click1 click2 click3 initialState date0 Hw Hh H1 H2 eq_refl)
    as (st' & E & Hdata & _ & Hmeas).
  exists st'. exact (conj E (conj Hdata Hmeas)).
Defined.
